(** * pyLoraRFM9x: the LoRa driver of [pyLoraRFM9x/lora.py]

    A shallow embedding of the [LoRa] class: the mode controller
    ([set_mode_*]), the single-attempt and the reliable send, the
    channel-activity wait, the encryption framing, the interrupt handler and
    the constructor.

    The Python object is a record; its methods are state-passing functions.
    The two external collaborators the methods talk to are part of the state
    as a test double would keep them: the list of [spi.xfer] calls and the list
    of [on_recv] calls, both in call order.  What the methods read from the
    outside (the clock, the registers of the chip, [random()]) is supplied by
    a schedule, so that every polling loop is a structural recursion on the
    part of the schedule it has not consumed yet.

    Clock values and timeouts are rationals.  The frequency computation of
    the constructor, a product and a quotient of floats passed to [int], is
    in binary64.  An invocation of the interrupt
    handler runs to its end between two points at which the foreground looks
    outside; [_hw_lock] is reentrant and is then never contended, and is left
    out. *)

From Stdlib Require Import PrimFloat SpecFloat FloatOps.
From Stdlib Require Import ZArith QArith Qround List Bool Lia.
Import ListNotations.
Open Scope Z_scope.

(** ** Constants

    [lora.py] takes its register addresses, mode codes, interrupt bits and
    header flags from [from .constants import *].  The functions below are
    stated over any choice of these names. *)

Class Constants := {
  REG_00_FIFO : Z;
  REG_01_OP_MODE : Z;
  REG_0D_FIFO_ADDR_PTR : Z;
  REG_10_FIFO_RX_CURRENT_ADDR : Z;
  REG_12_IRQ_FLAGS : Z;
  REG_13_RX_NB_BYTES : Z;
  REG_19_PKT_SNR_VALUE : Z;
  REG_1A_PKT_RSSI_VALUE : Z;
  REG_22_PAYLOAD_LENGTH : Z;
  REG_40_DIO_MAPPING1 : Z;
  MODE_SLEEP : Z;
  MODE_STDBY : Z;
  MODE_TX : Z;
  MODE_RXCONTINUOUS : Z;
  MODE_CAD : Z;
  RX_TIMEOUT : Z;
  RX_DONE : Z;
  TX_DONE : Z;
  CAD_DONE : Z;
  CAD_DETECTED : Z;
  FLAGS_REQ_ACK : Z;
  FLAGS_ACK : Z;
  BROADCAST_ADDRESS : Z
}.

(** ** Python values the driver passes around *)

(** The exceptions the modelled statements can raise. *)
Inductive exn : Set :=
| AttributeError
| IndexError
| ValueError.

(** What [wait_cad] can return: [None], a [bool], or an [int]. *)
Inductive pyval : Set :=
| PyNone
| PyBool (b : bool)
| PyInt (n : Z).

(** [v == 1] on these values ([True == 1] holds in Python). *)
Definition py_eq_1 (v : pyval) : bool :=
  match v with
  | PyNone => false
  | PyBool b => b
  | PyInt n => n =? 1
  end.

(** The [data] argument of [send]: the three types the method converts, and
    any other sequence of integers, which it uses as it is. *)
Inductive pydata : Type :=
| DInt (n : Z)
| DBytes (b : list Z)
| DStr (code_points : list Z)
| DList (l : list Z).

(** The [crypto] collaborator: an object with [encrypt] and [decrypt]. *)
Record Cipher : Type := {
  encrypt : list Z -> list Z;
  decrypt : list Z -> list Z
}.

(** The [Payload] named tuple built by the interrupt handler. *)
Record Payload : Type := {
  message : list Z;
  header_to : Z;
  header_from : Z;
  header_id : Z;
  header_flags : Z;
  rssi : Z;
  snr : Q
}.

(** The bound method stored in [_set_default_mode] by [__init__]. *)
Inductive DefaultMode : Set :=
| DefaultRx
| DefaultIdle
| DefaultSleep.

(** ** The object *)

Record LoRa : Type := {
  (* attributes assigned by __init__ *)
  _mode : option Z;
  _cad : option Z;
  _receive_all : bool;
  _acks : bool;
  _this_address : Z;
  _last_header_id : Z;
  _last_payload : option Payload;
  crypto : option Cipher;
  cad_timeout : Q;
  wait_packet_sent_timeout : Q;
  retry_timeout : Q;
  _set_default_mode : DefaultMode;
  (* [_ack] is read by [_handle_interrupt] and assigned nowhere in the class:
     [None] is the attribute missing, [Some b] a value given to it from
     outside the class *)
  _ack : option bool;
  (* collaborators: every [spi.xfer] argument and every [on_recv] argument,
     oldest first, and the values [random()] will return *)
  spi_log : list (list Z);
  recv_log : list Payload;
  random_supply : list Q
}.

Definition with_mode (m : option Z) (s : LoRa) : LoRa :=
  {| _mode := m; _cad := _cad s; _receive_all := _receive_all s;
     _acks := _acks s; _this_address := _this_address s;
     _last_header_id := _last_header_id s; _last_payload := _last_payload s;
     crypto := crypto s; cad_timeout := cad_timeout s;
     wait_packet_sent_timeout := wait_packet_sent_timeout s;
     retry_timeout := retry_timeout s;
     _set_default_mode := _set_default_mode s; _ack := _ack s;
     spi_log := spi_log s; recv_log := recv_log s;
     random_supply := random_supply s |}.

Definition with_cad (c : option Z) (s : LoRa) : LoRa :=
  {| _mode := _mode s; _cad := c; _receive_all := _receive_all s;
     _acks := _acks s; _this_address := _this_address s;
     _last_header_id := _last_header_id s; _last_payload := _last_payload s;
     crypto := crypto s; cad_timeout := cad_timeout s;
     wait_packet_sent_timeout := wait_packet_sent_timeout s;
     retry_timeout := retry_timeout s;
     _set_default_mode := _set_default_mode s; _ack := _ack s;
     spi_log := spi_log s; recv_log := recv_log s;
     random_supply := random_supply s |}.

Definition with_last_header_id (i : Z) (s : LoRa) : LoRa :=
  {| _mode := _mode s; _cad := _cad s; _receive_all := _receive_all s;
     _acks := _acks s; _this_address := _this_address s;
     _last_header_id := i; _last_payload := _last_payload s;
     crypto := crypto s; cad_timeout := cad_timeout s;
     wait_packet_sent_timeout := wait_packet_sent_timeout s;
     retry_timeout := retry_timeout s;
     _set_default_mode := _set_default_mode s; _ack := _ack s;
     spi_log := spi_log s; recv_log := recv_log s;
     random_supply := random_supply s |}.

Definition with_last_payload (p : option Payload) (s : LoRa) : LoRa :=
  {| _mode := _mode s; _cad := _cad s; _receive_all := _receive_all s;
     _acks := _acks s; _this_address := _this_address s;
     _last_header_id := _last_header_id s; _last_payload := p;
     crypto := crypto s; cad_timeout := cad_timeout s;
     wait_packet_sent_timeout := wait_packet_sent_timeout s;
     retry_timeout := retry_timeout s;
     _set_default_mode := _set_default_mode s; _ack := _ack s;
     spi_log := spi_log s; recv_log := recv_log s;
     random_supply := random_supply s |}.

Definition with_spi_log (l : list (list Z)) (s : LoRa) : LoRa :=
  {| _mode := _mode s; _cad := _cad s; _receive_all := _receive_all s;
     _acks := _acks s; _this_address := _this_address s;
     _last_header_id := _last_header_id s; _last_payload := _last_payload s;
     crypto := crypto s; cad_timeout := cad_timeout s;
     wait_packet_sent_timeout := wait_packet_sent_timeout s;
     retry_timeout := retry_timeout s;
     _set_default_mode := _set_default_mode s; _ack := _ack s;
     spi_log := l; recv_log := recv_log s;
     random_supply := random_supply s |}.

Definition with_recv_log (l : list Payload) (s : LoRa) : LoRa :=
  {| _mode := _mode s; _cad := _cad s; _receive_all := _receive_all s;
     _acks := _acks s; _this_address := _this_address s;
     _last_header_id := _last_header_id s; _last_payload := _last_payload s;
     crypto := crypto s; cad_timeout := cad_timeout s;
     wait_packet_sent_timeout := wait_packet_sent_timeout s;
     retry_timeout := retry_timeout s;
     _set_default_mode := _set_default_mode s; _ack := _ack s;
     spi_log := spi_log s; recv_log := l;
     random_supply := random_supply s |}.

Definition with_random_supply (l : list Q) (s : LoRa) : LoRa :=
  {| _mode := _mode s; _cad := _cad s; _receive_all := _receive_all s;
     _acks := _acks s; _this_address := _this_address s;
     _last_header_id := _last_header_id s; _last_payload := _last_payload s;
     crypto := crypto s; cad_timeout := cad_timeout s;
     wait_packet_sent_timeout := wait_packet_sent_timeout s;
     retry_timeout := retry_timeout s;
     _set_default_mode := _set_default_mode s; _ack := _ack s;
     spi_log := spi_log s; recv_log := recv_log s;
     random_supply := l |}.

(** ** Small Python idioms *)

(** [a < b] on clock values. *)
Definition Qltb (a b : Q) : bool :=
  match a ?= b with
  | Lt => true
  | _ => false
  end%Q.

(** Truth value of a number: [not x] is [negb (Qtruthy x)]. *)
Definition Qtruthy (x : Q) : bool := negb (Qeq_bool x 0).

(** Truth value of an integer, as in [if flags & BIT:]. *)
Definition truthy (n : Z) : bool := negb (n =? 0).

(** [self._mode == m] and [self._mode != m]. *)
Definition mode_is (s : LoRa) (m : Z) : bool :=
  match _mode s with
  | Some c => c =? m
  | None => false
  end.

(** [l[lo:hi]] for [0 <= lo], with Python's reading of a negative [hi]. *)
Definition py_slice (l : list Z) (lo hi : Z) : list Z :=
  let n := Z.of_nat (length l) in
  let hi' := if hi <? 0 then Z.max 0 (n + hi) else Z.min n hi in
  firstn (Z.to_nat (hi' - lo)) (skipn (Z.to_nat lo) l).

(** [bytes(l)] raises [ValueError] on an element outside [range(256)]. *)
Definition bytes (l : list Z) : exn + list Z :=
  if forallb (fun b => (0 <=? b) && (b <=? 255)) l
  then inr l
  else inl ValueError.

(** [math.ceil(a / b)] on integers, through the quotient as a number. *)
Definition math_ceil_div (a b : Z) : Z :=
  Qceiling (inject_Z a / inject_Z b).

(** ** Encryption framing ([_encrypt], [_decrypt]) *)

Definition _encrypt (c : Cipher) (message : list Z) : exn + list Z :=
  let msg_length := Z.of_nat (length message) in
  let padding :=
    repeat 0 (Z.to_nat (math_ceil_div (msg_length + 1) 16 * 16
                        - (msg_length + 1))) in
  match bytes [msg_length] with
  | inl e => inl e
  | inr head => inr (encrypt c (head ++ message ++ padding))
  end.

Definition _decrypt (c : Cipher) (message : list Z) : exn + list Z :=
  let decrypted_msg := decrypt c message in
  match decrypted_msg with
  | [] => inl IndexError
  | msg_length :: _ => inr (py_slice decrypted_msg 1 (msg_length + 1))
  end.

Section Driver.

Context {K : Constants}.

(** ** Bus access ([_spi_write], [_spi_read])

    [coerce] is the conversion both [send] and [_spi_write] apply to their
    argument: an [int] becomes a one-element list, [bytes] and [str] the list
    of their elements, anything else is left alone. *)

Definition coerce (d : pydata) : list Z :=
  match d with
  | DInt n => [n]
  | DBytes b => b
  | DStr cs => cs
  | DList l => l
  end.

Definition xfer (request : list Z) (s : LoRa) : LoRa :=
  with_spi_log (spi_log s ++ [request]) s.

Definition _spi_write (register : Z) (payload : pydata) (s : LoRa) : LoRa :=
  xfer ([Z.lor register 0x80] ++ coerce payload) s.

(** [_spi_read] sends the register followed by [length] zeros; what the chip
    answers is taken from the snapshot of the chip the handler runs on. *)
Definition _spi_read (register : Z) (length : Z) (s : LoRa) : LoRa :=
  xfer ([register] ++ repeat 0 (Z.to_nat length)) s.

(** ** Mode controller *)

Definition set_mode_sleep (s : LoRa) : LoRa :=
  if negb (mode_is s MODE_SLEEP) then
    with_mode (Some MODE_SLEEP) (_spi_write REG_01_OP_MODE (DInt MODE_SLEEP) s)
  else s.

Definition set_mode_tx (s : LoRa) : LoRa :=
  if negb (mode_is s MODE_TX) then
    with_mode (Some MODE_TX)
      (_spi_write REG_40_DIO_MAPPING1 (DInt 0x40)
         (_spi_write REG_01_OP_MODE (DInt MODE_TX) s))
  else s.

Definition set_mode_rx (s : LoRa) : LoRa :=
  if negb (mode_is s MODE_RXCONTINUOUS) then
    with_mode (Some MODE_RXCONTINUOUS)
      (_spi_write REG_40_DIO_MAPPING1 (DInt 0x00)
         (_spi_write REG_01_OP_MODE (DInt MODE_RXCONTINUOUS) s))
  else s.

Definition set_mode_cad (s : LoRa) : LoRa :=
  if negb (mode_is s MODE_CAD) then
    with_mode (Some MODE_CAD)
      (_spi_write REG_40_DIO_MAPPING1 (DInt 0x80)
         (_spi_write REG_01_OP_MODE (DInt MODE_CAD) s))
  else s.

Definition set_mode_idle (s : LoRa) : LoRa :=
  if negb (mode_is s MODE_STDBY) then
    with_mode (Some MODE_STDBY) (_spi_write REG_01_OP_MODE (DInt MODE_STDBY) s)
  else s.

(** The call [self._set_default_mode()]. *)
Definition call_set_default_mode (s : LoRa) : LoRa :=
  match _set_default_mode s with
  | DefaultRx => set_mode_rx s
  | DefaultIdle => set_mode_idle s
  | DefaultSleep => set_mode_sleep s
  end.

(** The five transitions under one name, for statements about all of them. *)
Inductive transition : Set :=
| EnterSleep
| EnterIdle
| EnterTx
| EnterRx
| EnterCad.

Definition enter (t : transition) : LoRa -> LoRa :=
  match t with
  | EnterSleep => set_mode_sleep
  | EnterIdle => set_mode_idle
  | EnterTx => set_mode_tx
  | EnterRx => set_mode_rx
  | EnterCad => set_mode_cad
  end.

Definition target (t : transition) : Z :=
  match t with
  | EnterSleep => MODE_SLEEP
  | EnterIdle => MODE_STDBY
  | EnterTx => MODE_TX
  | EnterRx => MODE_RXCONTINUOUS
  | EnterCad => MODE_CAD
  end.

(** The bus transactions a transition makes when it is not a no-op. *)
Definition write_sequence (t : transition) : list (list Z) :=
  match t with
  | EnterSleep => [[Z.lor REG_01_OP_MODE 0x80; MODE_SLEEP]]
  | EnterIdle => [[Z.lor REG_01_OP_MODE 0x80; MODE_STDBY]]
  | EnterTx => [[Z.lor REG_01_OP_MODE 0x80; MODE_TX];
                [Z.lor REG_40_DIO_MAPPING1 0x80; 0x40]]
  | EnterRx => [[Z.lor REG_01_OP_MODE 0x80; MODE_RXCONTINUOUS];
                [Z.lor REG_40_DIO_MAPPING1 0x80; 0x00]]
  | EnterCad => [[Z.lor REG_01_OP_MODE 0x80; MODE_CAD];
                 [Z.lor REG_40_DIO_MAPPING1 0x80; 0x80]]
  end.

(** ** Methods that poll

    A method that reads the clock runs against a schedule: one element per
    point where the method looks outside ([time.time()] or [time.sleep]).
    [observe] says what happens at such a point: what has changed in the object
    by then and which time is read.  The methods are written once and used
    with two schedules: the foreground's, whose points deliver interrupts, and
    the handler's own, whose points only let time pass. *)

Inductive seen : Type :=
| Seen (t : Q) (s : LoRa)
| Cut (s : LoRa).

Definition seen_state (o : seen) : LoRa :=
  match o with
  | Seen _ s => s
  | Cut s => s
  end.

(** What every method but the first statement of [send_to_wait] leaves
    alone, and what it only adds to. *)
Record extends (s s' : LoRa) : Prop := {
  ext_receive_all : _receive_all s' = _receive_all s;
  ext_acks : _acks s' = _acks s;
  ext_this_address : _this_address s' = _this_address s;
  ext_last_header_id : _last_header_id s' = _last_header_id s;
  ext_crypto : crypto s' = crypto s;
  ext_cad_timeout : cad_timeout s' = cad_timeout s;
  ext_wait_packet_sent_timeout :
    wait_packet_sent_timeout s' = wait_packet_sent_timeout s;
  ext_retry_timeout : retry_timeout s' = retry_timeout s;
  ext_set_default_mode : _set_default_mode s' = _set_default_mode s;
  ext_ack : _ack s' = _ack s;
  ext_spi_log : exists l, spi_log s' = spi_log s ++ l;
  ext_recv_log : exists l, recv_log s' = recv_log s ++ l
}.

Section Polling.

Variable E : Type.
Variable observe : E -> LoRa -> seen.

(** Result of running a method: a value, an exception, or the schedule ended
    before the method did ([Starved], with the object as it was then). *)
Inductive outcome (A : Type) : Type :=
| Ret (a : A) (s : LoRa) (clk : list E)
| Raise (e : exn) (s : LoRa) (clk : list E)
| Starved (s : LoRa).

Arguments Ret {A} a s clk.
Arguments Raise {A} e s clk.
Arguments Starved {A} s.

Definition M (A : Type) : Type := LoRa -> list E -> outcome A.

Definition ret {A} (a : A) : M A := fun s clk => Ret a s clk.

Definition bind {A B} (c : M A) (k : A -> M B) : M B :=
  fun s clk =>
    match c s clk with
    | Ret a s' clk' => k a s' clk'
    | Raise e s' clk' => Raise e s' clk'
    | Starved s' => Starved s'
    end.

Notation "x <- c ;; k" := (bind c (fun x => k))
  (at level 61, c at next level, right associativity).
Notation "c ;;; k" := (bind c (fun _ => k))
  (at level 61, right associativity).

Definition get : M LoRa := fun s clk => Ret s s clk.

Definition modify (f : LoRa -> LoRa) : M unit := fun s clk => Ret tt (f s) clk.

Definition raise_or {A} (r : exn + A) : M A :=
  fun s clk =>
    match r with
    | inl e => Raise e s clk
    | inr a => Ret a s clk
    end.

(** [time.time()]: the next point of the schedule. *)
Definition time_time : M Q :=
  fun s clk =>
    match clk with
    | [] => Starved s
    | e :: clk' =>
      match observe e s with
      | Seen t s' => Ret t s' clk'
      | Cut s' => Starved s'
      end
    end.

(** [random()]. *)
Definition random : M Q :=
  fun s clk =>
    match random_supply s with
    | [] => Starved s
    | r :: rs => Ret r (with_random_supply rs s) clk
    end.

(** *** [wait_packet_sent] *)

Fixpoint wait_packet_sent_while (start : Q) (s : LoRa) (clk : list E)
  {struct clk} : outcome bool :=
  match clk with
  | [] => Starved s
  | e :: clk' =>
    match observe e s with
    | Cut s' => Starved s'
    | Seen t s' =>
      if Qltb (t - start) (wait_packet_sent_timeout s') then
        if negb (mode_is s' MODE_TX) then Ret true s' clk'
        else wait_packet_sent_while start s' clk'
      else Ret false s' clk'
    end
  end.

Definition wait_packet_sent : M bool :=
  start <- time_time ;;
  wait_packet_sent_while start.

(** *** [_is_channel_active] and [wait_cad]

    [_is_channel_active] is a generator.  Up to its loop it runs
    [set_mode_cad]; each time it is resumed it tests the mode and either
    yields (a bare [yield]: the value is [None]) or returns [self._cad].  A
    [for] statement binds the yielded values and drops the returned one. *)

Inductive generator_step : Set :=
| Yield (v : pyval)
| StopIteration (v : pyval).

Definition _is_channel_active_start (s : LoRa) : LoRa := set_mode_cad s.

Definition _is_channel_active_resume (s : LoRa) : generator_step :=
  if mode_is s MODE_CAD then Yield PyNone
  else StopIteration (match _cad s with
                      | Some n => PyInt n
                      | None => PyNone
                      end).

(** The [for status in self._is_channel_active()] loop, from the point where
    the generator is resumed. *)
Fixpoint wait_cad_for (start : Q) (s : LoRa) (clk : list E)
  {struct clk} : outcome pyval :=
  match _is_channel_active_resume s with
  | StopIteration _ => Ret PyNone s clk
  | Yield status =>
    match clk with
    | [] => Starved s
    | e1 :: clk1 =>
      match observe e1 s with
      | Cut s1 => Starved s1
      | Seen t s1 =>
        if Qltb (cad_timeout s1) (t - start) then Ret (PyBool true) s1 clk1
        else
          match status with
          | PyNone =>
            (* time.sleep(0.1); continue *)
            match clk1 with
            | [] => Starved s1
            | e2 :: clk2 =>
              match observe e2 s1 with
              | Cut s2 => Starved s2
              | Seen _ s2 => wait_cad_for start s2 clk2
              end
            end
          | _ => Ret status s1 clk1
          end
      end
    end
  end.

Definition wait_cad : M pyval :=
  s <- get ;;
  if negb (Qtruthy (cad_timeout s)) then ret (PyBool false)
  else
    start <- time_time ;;
    modify _is_channel_active_start ;;;
    wait_cad_for start.

(** *** [send] *)

(** [if self.crypto: data = [b for b in self._encrypt(bytes(data))]]. *)
Definition outgoing_data (s : LoRa) (data : list Z) : exn + list Z :=
  match crypto s with
  | Some c =>
    match bytes data with
    | inl e => inl e
    | inr b => _encrypt c b
    end
  | None => inr data
  end.

(** The part of [send] that loads the transmit buffer and starts the
    transmission, from the header on. *)
Definition load_and_transmit (payload : list Z) (s : LoRa) : LoRa :=
  set_mode_tx
    (_spi_write REG_22_PAYLOAD_LENGTH (DInt (Z.of_nat (length payload)))
       (_spi_write REG_00_FIFO (DList payload)
          (_spi_write REG_0D_FIFO_ADDR_PTR (DInt 0) s))).

Definition send (data : pydata) (header_to header_id header_flags : Z)
  : M bool :=
  wait_packet_sent ;;;
  CAD_status <- wait_cad ;;
  if py_eq_1 CAD_status then ret false
  else
    modify set_mode_idle ;;;
    s <- get ;;
    let header := [header_to; _this_address s; header_id; header_flags] in
    let data := coerce data in
    data <- raise_or (outgoing_data s data) ;;
    let payload := header ++ data in
    modify (load_and_transmit payload) ;;;
    wait_packet_sent.

(** *** [send_ack] *)

Definition send_ack (header_to header_id : Z) : M unit :=
  send (DBytes [33]) header_to header_id FLAGS_ACK ;;;
  wait_packet_sent ;;;
  ret tt.

(** *** [send_to_wait] *)

(** The test on [self._last_payload] inside the wait for an acknowledgment. *)
Definition ack_seen (s : LoRa) : bool :=
  match _last_payload s with
  | None => false
  | Some p =>
    (header_to p =? _this_address s)
    && truthy (Z.land (header_flags p) FLAGS_ACK)
    && (header_id p =? _last_header_id s)
  end.

(** The [while] loop: [true] when it returned from inside, [false] when its
    condition failed. *)
Fixpoint ack_wait_while (start : Q) (s : LoRa) (clk : list E)
  {struct clk} : outcome bool :=
  match clk with
  | [] => Starved s
  | e :: clk' =>
    match observe e s with
    | Cut s1 => Starved s1
    | Seen t s1 =>
      match random s1 clk' with
      | Ret r s2 _ =>
        if Qltb (t - start) (retry_timeout s2 + retry_timeout s2 * r) then
          if ack_seen s2 then Ret true s2 clk'
          else ack_wait_while start s2 clk'
        else Ret false s2 clk'
      | Raise x s2 _ => Raise x s2 clk'
      | Starved s2 => Starved s2
      end
    end
  end.

(** One iteration of the [for] loop, with [header_flags] as the iteration
    has just updated it: [Some b] when the iteration executes [return b],
    [None] when it ends and the loop goes on. *)
Definition attempt (data : pydata) (header_to header_flags : Z)
  : M (option bool) :=
  s <- get ;;
  success <- send data header_to (_last_header_id s) header_flags ;;
  if negb success then ret None
  else
    s <- get ;;
    if negb (_acks s) || (header_to =? BROADCAST_ADDRESS) then ret (Some true)
    else
      start <- time_time ;;
      acked <- ack_wait_while start ;;
      if acked then ret (Some true) else ret None.

(** The [for _ in range(n)] loop with [n] iterations left, and the
    [return False] after it. *)
Fixpoint send_to_wait_for (n : nat) (data : pydata)
  (header_to header_flags : Z) {struct n} : M bool :=
  match n with
  | O => ret false
  | S n' =>
    s <- get ;;
    let header_flags :=
      if _acks s then Z.lor header_flags FLAGS_REQ_ACK else header_flags in
    r <- attempt data header_to header_flags ;;
    match r with
    | Some b => ret b
    | None => send_to_wait_for n' data header_to header_flags
    end
  end.

Definition send_to_wait (data : pydata) (header_to header_flags retries : Z)
  : M bool :=
  modify (fun s =>
            with_last_header_id (Z.land (_last_header_id s + 1) 0xFF) s) ;;;
  send_to_wait_for (Z.to_nat (retries + 1)) data header_to header_flags.

(** [k] iterations of the loop in a row, none of which returned. *)
Inductive failed_attempts (data : pydata) (header_to header_flags : Z)
  : nat -> LoRa -> list E -> LoRa -> list E -> Prop :=
| failed_none s clk :
    failed_attempts data header_to header_flags 0 s clk s clk
| failed_next k s clk s1 clk1 s2 clk2 :
    attempt data header_to header_flags s clk = Ret None s1 clk1 ->
    failed_attempts data header_to header_flags k s1 clk1 s2 clk2 ->
    failed_attempts data header_to header_flags (S k) s clk s2 clk2.

(** A caller that makes the calls of [calls] one after the other. *)
Record Call : Type := {
  call_data : pydata;
  call_header_to : Z;
  call_header_flags : Z;
  call_retries : Z
}.

Fixpoint send_to_wait_calls (calls : list Call) : M (list bool) :=
  match calls with
  | [] => ret []
  | c :: calls' =>
    b <- send_to_wait (call_data c) (call_header_to c) (call_header_flags c)
           (call_retries c) ;;
    bs <- send_to_wait_calls calls' ;;
    ret (b :: bs)
  end.

End Polling.

Arguments Ret {E A} a s clk.
Arguments Raise {E A} e s clk.
Arguments Starved {E A} s.

(** ** The interrupt handler

    One invocation of [_handle_interrupt] runs on a snapshot of the chip: what
    each of its register reads returns.  [fifo] holds the bytes of the receive
    buffer from the current address on; a read of [n] bytes returns [n] bytes,
    as [spi.xfer] answers with as many bytes as it was sent. *)

Record Chip : Type := {
  irq_flags : Z;
  rx_nb_bytes : Z;
  fifo_rx_current_addr : Z;
  fifo : list Z;
  pkt_snr_value : Z;
  pkt_rssi_value : Z
}.

Definition fifo_read (chip : Chip) (n : Z) : list Z :=
  firstn (Z.to_nat n) (fifo chip ++ repeat 0 (Z.to_nat n)).

(** While the handler runs no other invocation of it runs: at its own clock
    readings only time passes. *)
Definition handler_observe (t : Q) (s : LoRa) : seen := Seen t s.

Definition H (A : Type) : Type := M Q A.

Notation "x <- c ;; k" := (bind Q c (fun x => k))
  (at level 61, c at next level, right associativity).
Notation "c ;;; k" := (bind Q c (fun _ => k))
  (at level 61, right associativity).

Definition on_recv (p : Payload) (s : LoRa) : LoRa :=
  with_recv_log (recv_log s ++ [p]) s.

(** [if self.crypto and len(message) % 16 == 0:
        message = self._decrypt(message)]. *)
Definition incoming_message (s : LoRa) (message : list Z) : exn + list Z :=
  match crypto s with
  | Some c =>
    if Z.of_nat (length message) mod 16 =? 0 then _decrypt c message
    else inr message
  | None => inr message
  end.

(** The branch taken on a completed reception.  The result is [true] when the
    method executed its [return] statement there. *)
Definition rx_done (chip : Chip) : H bool :=
  modify Q (_spi_read REG_13_RX_NB_BYTES 1) ;;;
  let packet_len := rx_nb_bytes chip in
  modify Q (_spi_read REG_10_FIFO_RX_CURRENT_ADDR 1) ;;;
  modify Q (_spi_write REG_0D_FIFO_ADDR_PTR
              (DInt (fifo_rx_current_addr chip))) ;;;
  modify Q (_spi_read REG_00_FIFO packet_len) ;;;
  let packet := fifo_read chip packet_len in
  modify Q (_spi_write REG_12_IRQ_FLAGS (DInt 0xff)) ;;;
  modify Q (_spi_read REG_19_PKT_SNR_VALUE 1) ;;;
  let snr := pkt_snr_value chip in
  modify Q (_spi_read REG_1A_PKT_RSSI_VALUE 1) ;;;
  let rssi := -137 + pkt_rssi_value chip in
  let snr := if snr >? 127 then (256 - snr) * -1 else snr in
  let snr := (inject_Z snr / 4)%Q in
  if packet_len >=? 4 then
    let header_to := nth 0 packet 0 in
    let header_from := nth 1 packet 0 in
    let header_id := nth 2 packet 0 in
    let header_flags := nth 3 packet 0 in
    message <- (if packet_len >? 4 then raise_or Q (bytes (skipn 4 packet))
                else ret Q []) ;;
    s <- get Q ;;
    if negb (_this_address s =? header_to)
       && negb (BROADCAST_ADDRESS =? header_to)
       && negb (_receive_all s)
    then ret Q true
    else
      message <- raise_or Q (incoming_message s message) ;;
      (if (header_to =? _this_address s)
          && truthy (Z.land header_flags FLAGS_REQ_ACK)
          && negb (truthy (Z.land header_flags FLAGS_ACK))
       then
         match _ack s with
         | None => raise_or Q (inl AttributeError)
         | Some a =>
           if negb a then send_ack Q handler_observe header_from header_id
           else ret Q tt
         end
       else ret Q tt) ;;;
      modify Q set_mode_rx ;;;
      let payload :=
        {| message := message; header_to := header_to;
           header_from := header_from; header_id := header_id;
           header_flags := header_flags; rssi := rssi; snr := snr |} in
      modify Q (with_last_payload (Some payload)) ;;;
      (if negb (truthy (Z.land header_flags FLAGS_ACK))
       then modify Q (on_recv payload)
       else ret Q tt) ;;;
      ret Q false
  else ret Q false.

Definition _handle_interrupt (chip : Chip) : H unit :=
  modify Q (_spi_read REG_12_IRQ_FLAGS 1) ;;;
  let irq_flags := irq_flags chip in
  s <- get Q ;;
  returned <-
    (if mode_is s MODE_RXCONTINUOUS && truthy (Z.land irq_flags RX_DONE) then
       rx_done chip
     else if mode_is s MODE_TX && truthy (Z.land irq_flags TX_DONE) then
       modify Q call_set_default_mode ;;; ret Q false
     else if mode_is s MODE_CAD && truthy (Z.land irq_flags CAD_DONE) then
       modify Q (with_cad (Some (Z.land irq_flags CAD_DETECTED))) ;;;
       modify Q call_set_default_mode ;;; ret Q false
     else if mode_is s MODE_RXCONTINUOUS
             && truthy (Z.land irq_flags RX_TIMEOUT) then
       ret Q false
     else ret Q false) ;;
  if returned : bool then ret Q tt
  else modify Q (_spi_write REG_12_IRQ_FLAGS (DInt 0xff)).

(** *** The handler, path by path

    Names for the pieces of [_handle_interrupt], to state what it does on
    each of its paths. *)

(** The packet and the fields the handler takes from it. *)
Definition packet_of (chip : Chip) : list Z :=
  fifo_read chip (rx_nb_bytes chip).

Definition raw_message (chip : Chip) : exn + list Z :=
  if rx_nb_bytes chip >? 4 then bytes (skipn 4 (packet_of chip))
  else inr [].

Definition rx_payload (chip : Chip) (message : list Z) : Payload :=
  {| message := message;
     header_to := nth 0 (packet_of chip) 0;
     header_from := nth 1 (packet_of chip) 0;
     header_id := nth 2 (packet_of chip) 0;
     header_flags := nth 3 (packet_of chip) 0;
     rssi := -137 + pkt_rssi_value chip;
     snr := (inject_Z (if pkt_snr_value chip >? 127
                       then (256 - pkt_snr_value chip) * -1
                       else pkt_snr_value chip) / 4)%Q |}.

(** The handler takes the reception branch. *)
Definition is_rx_done (chip : Chip) (s : LoRa) : bool :=
  mode_is s MODE_RXCONTINUOUS && truthy (Z.land (irq_flags chip) RX_DONE).

(** The bus transactions of the handler up to the end of the reception
    branch's locked block, the read of the interrupt flags included. *)
Definition rx_bus (chip : Chip) (s : LoRa) : LoRa :=
  _spi_read REG_1A_PKT_RSSI_VALUE 1
    (_spi_read REG_19_PKT_SNR_VALUE 1
       (_spi_write REG_12_IRQ_FLAGS (DInt 0xff)
          (_spi_read REG_00_FIFO (rx_nb_bytes chip)
             (_spi_write REG_0D_FIFO_ADDR_PTR
                (DInt (fifo_rx_current_addr chip))
                (_spi_read REG_10_FIFO_RX_CURRENT_ADDR 1
                   (_spi_read REG_13_RX_NB_BYTES 1
                      (_spi_read REG_12_IRQ_FLAGS 1 s))))))).

(** The condition of the [return] statement. *)
Definition address_filtered (chip : Chip) (s : LoRa) : bool :=
  negb (_this_address s =? nth 0 (packet_of chip) 0)
  && negb (BROADCAST_ADDRESS =? nth 0 (packet_of chip) 0)
  && negb (_receive_all s).

(** The condition in front of [and not self._ack]. *)
Definition ack_requested (chip : Chip) (s : LoRa) : bool :=
  (nth 0 (packet_of chip) 0 =? _this_address s)
  && truthy (Z.land (nth 3 (packet_of chip) 0) FLAGS_REQ_ACK)
  && negb (truthy (Z.land (nth 3 (packet_of chip) 0) FLAGS_ACK)).

(** The statement that may send the acknowledgment. *)
Definition ack_step (chip : Chip) (s : LoRa) : H unit :=
  if ack_requested chip s then
    match _ack s with
    | None => raise_or Q (inl AttributeError)
    | Some a =>
      if negb a
      then send_ack Q handler_observe (nth 1 (packet_of chip) 0)
             (nth 2 (packet_of chip) 0)
      else ret Q tt
    end
  else ret Q tt.

(** From [self.set_mode_rx()] to the end of the handler. *)
Definition finish (chip : Chip) (message : list Z) (s : LoRa) : LoRa :=
  let published :=
    with_last_payload (Some (rx_payload chip message)) (set_mode_rx s) in
  _spi_write REG_12_IRQ_FLAGS (DInt 0xff)
    (if negb (truthy (Z.land (nth 3 (packet_of chip) 0) FLAGS_ACK))
     then on_recv (rx_payload chip message) published
     else published).

(** The branches other than the reception, after the read of the flags. *)
Definition other_events (chip : Chip) (s : LoRa) : LoRa :=
  if mode_is s MODE_TX && truthy (Z.land (irq_flags chip) TX_DONE) then
    call_set_default_mode s
  else if mode_is s MODE_CAD && truthy (Z.land (irq_flags chip) CAD_DONE) then
    call_set_default_mode
      (with_cad (Some (Z.land (irq_flags chip) CAD_DETECTED)) s)
  else s.

Definition handler_paths (chip : Chip) : H unit :=
  fun s clk =>
    if is_rx_done chip s then
      if rx_nb_bytes chip >=? 4 then
        match raw_message chip with
        | inl e => Raise e (rx_bus chip s) clk
        | inr m =>
          if address_filtered chip s then Ret tt (rx_bus chip s) clk
          else
            match incoming_message s m with
            | inl e => Raise e (rx_bus chip s) clk
            | inr m' =>
              match ack_step chip s (rx_bus chip s) clk with
              | Ret _ s1 clk1 => Ret tt (finish chip m' s1) clk1
              | Raise e s1 clk1 => Raise e s1 clk1
              | Starved s1 => Starved s1
              end
            end
        end
      else Ret tt (_spi_write REG_12_IRQ_FLAGS (DInt 0xff) (rx_bus chip s)) clk
    else
      Ret tt
        (_spi_write REG_12_IRQ_FLAGS (DInt 0xff)
           (other_events chip (_spi_read REG_12_IRQ_FLAGS 1 s))) clk.


(** The bus transaction that clears all interrupt flags. *)
Definition clear_irq_flags : list Z := [Z.lor REG_12_IRQ_FLAGS 0x80; 0xff].

(** The bus transactions of a reception that the address filter drops. *)
Definition filtered_transactions (chip : Chip) : list (list Z) :=
  [[REG_12_IRQ_FLAGS; 0];
   [REG_13_RX_NB_BYTES; 0];
   [REG_10_FIFO_RX_CURRENT_ADDR; 0];
   [Z.lor REG_0D_FIFO_ADDR_PTR 0x80; fifo_rx_current_addr chip];
   REG_00_FIFO :: repeat 0 (Z.to_nat (rx_nb_bytes chip));
   clear_irq_flags;
   [REG_19_PKT_SNR_VALUE; 0];
   [REG_1A_PKT_RSSI_VALUE; 0]].

(** ** The foreground

    At each point where a foreground call looks outside, the interrupts
    raised since the previous point have been handled, one invocation after
    the other, each with the clock readings it makes itself.  An exception
    raised in an invocation stays in the thread that runs the callbacks: the
    object keeps what the invocation had done to it and the foreground goes
    on. *)

Record Irq : Type := {
  chip : Chip;
  handler_clock : list Q
}.

Record Obs : Type := {
  irqs : list Irq;
  now : Q
}.

Fixpoint deliver (l : list Irq) (t : Q) (s : LoRa) : seen :=
  match l with
  | [] => Seen t s
  | i :: l' =>
    match _handle_interrupt (chip i) s (handler_clock i) with
    | Ret _ s' _ => deliver l' t s'
    | Raise _ s' _ => deliver l' t s'
    | Starved s' => Cut s'
    end
  end.

Definition foreground_observe (o : Obs) (s : LoRa) : seen :=
  deliver (irqs o) (now o) s.

(** The object an outcome leaves behind. *)
Definition final {E A} (o : outcome E A) : LoRa :=
  match o with
  | Ret _ s _ => s
  | Raise _ s _ => s
  | Starved s => s
  end.

(** A method that only does what [extends] allows. *)
Definition frames {E A} (c : M E A) : Prop :=
  forall s clk, extends s (final (c s clk)).

End Driver.

Arguments Ret {E A} a s clk.
Arguments Raise {E A} e s clk.
Arguments Starved {E A} s.

(** ** Concrete data

    Values for the names of [constants.py], to run the methods on explicit
    inputs: the register addresses, mode codes and interrupt bits of the
    SX127x data sheet, and the header flags and broadcast address of
    RadioHead, whose packets the driver exchanges. *)

Definition sx127x : Constants := {|
  REG_00_FIFO := 0x00;
  REG_01_OP_MODE := 0x01;
  REG_0D_FIFO_ADDR_PTR := 0x0d;
  REG_10_FIFO_RX_CURRENT_ADDR := 0x10;
  REG_12_IRQ_FLAGS := 0x12;
  REG_13_RX_NB_BYTES := 0x13;
  REG_19_PKT_SNR_VALUE := 0x19;
  REG_1A_PKT_RSSI_VALUE := 0x1a;
  REG_22_PAYLOAD_LENGTH := 0x22;
  REG_40_DIO_MAPPING1 := 0x40;
  MODE_SLEEP := 0x00;
  MODE_STDBY := 0x01;
  MODE_TX := 0x03;
  MODE_RXCONTINUOUS := 0x05;
  MODE_CAD := 0x07;
  RX_TIMEOUT := 0x80;
  RX_DONE := 0x40;
  TX_DONE := 0x08;
  CAD_DONE := 0x04;
  CAD_DETECTED := 0x01;
  FLAGS_REQ_ACK := 0x40;
  FLAGS_ACK := 0x80;
  BROADCAST_ADDRESS := 255
|}.

(** A device as [__init__] leaves it once it listens, at address [addr],
    with the given [acks], [_ack], [cad_timeout], [crypto] and values of
    [random()]. *)
Definition station (addr : Z) (acks : bool) (ack : option bool) (cad : Q)
  (cipher : option Cipher) (rnd : list Q) : LoRa := {|
  _mode := Some 0x05;
  _cad := None;
  _receive_all := false;
  _acks := acks;
  _this_address := addr;
  _last_header_id := 0;
  _last_payload := None;
  crypto := cipher;
  cad_timeout := cad;
  wait_packet_sent_timeout := 2 # 10;
  retry_timeout := 2 # 10;
  _set_default_mode := DefaultRx;
  _ack := ack;
  spi_log := [];
  recv_log := [];
  random_supply := rnd
|}.

(** The same device with [receive_all=True]. *)
Definition promiscuous (addr : Z) : LoRa := {|
  _mode := Some 0x05;
  _cad := None;
  _receive_all := true;
  _acks := false;
  _this_address := addr;
  _last_header_id := 0;
  _last_payload := None;
  crypto := None;
  cad_timeout := 0;
  wait_packet_sent_timeout := 2 # 10;
  retry_timeout := 2 # 10;
  _set_default_mode := DefaultRx;
  _ack := None;
  spi_log := [];
  recv_log := [];
  random_supply := []
|}.

(** A cipher that reverses its input. *)
Definition reversing_cipher : Cipher := {|
  encrypt := @rev Z;
  decrypt := @rev Z
|}.

(** A cipher object whose [decrypt] returns its input, as a block cipher
    does on the empty input. *)
Definition identity_cipher : Cipher := {|
  encrypt := fun m => m;
  decrypt := fun m => m
|}.

(** The chip after it received the packet [l]. *)
Definition received (l : list Z) : Chip := {|
  irq_flags := 0x40;
  rx_nb_bytes := Z.of_nat (length l);
  fifo_rx_current_addr := 0;
  fifo := l;
  pkt_snr_value := 40;
  pkt_rssi_value := 100
|}.

(** The chip after an event that only raised the flags [flags]. *)
Definition flagged (flags : Z) : Chip := {|
  irq_flags := flags;
  rx_nb_bytes := 0;
  fifo_rx_current_addr := 0;
  fifo := [];
  pkt_snr_value := 0;
  pkt_rssi_value := 0
|}.

(** Points of a foreground schedule: nothing happened before the clock is
    read at [t]; one interrupt was handled on chip [c], with [hc] the clock
    readings of the handler. *)
Definition quiet (t : Q) : Obs := {| irqs := []; now := t |}.

Definition after (c : Chip) (hc : list Q) (t : Q) : Obs :=
  {| irqs := [{| chip := c; handler_clock := hc |}]; now := t |}.

(** A transmission that completes, followed by a wait in which an ACK for
    sequence id 1 arrives from address 3. *)
Definition third_party_ack : list Obs :=
  [quiet 0; quiet (1 # 100); quiet (2 # 100);
   after (flagged 0x08) [] (3 # 100);
   quiet (4 # 100); after (received [1; 3; 1; 0x80]) [] (5 # 100)].

(** Two transmissions that complete, each followed by a wait in which
    nothing arrives. *)
Definition no_ack : list Obs :=
  [quiet 0; quiet (1 # 100); quiet (2 # 100);
   after (flagged 0x08) [] (3 # 100);
   quiet (4 # 100); quiet (5 # 100); quiet 1;
   quiet 1; quiet (101 # 100); quiet (102 # 100);
   after (flagged 0x08) [] (103 # 100);
   quiet (104 # 100); quiet (105 # 100); quiet 2].

(** A transmission that completes. *)
Definition transmitted : list Obs :=
  [quiet 0; quiet (1 # 100); quiet (2 # 100);
   after (flagged 0x08) [] (3 # 100)].

(** A channel-activity detection that ends with activity detected (CadDone
    and CadDetected raised) while the foreground sleeps. *)
Definition cad_busy : list Obs :=
  [quiet 0; quiet (1 # 10); after (flagged 0x05) [] (2 # 10)].

(** A channel-activity detection that does not end within the second the
    device waits for it. *)
Definition cad_late : list Obs :=
  [quiet 0; quiet (1 # 10); quiet (2 # 10); quiet (12 # 10)].

(** Clock readings of a handler that sends an acknowledgment. *)
Definition ack_clock : list Q :=
  [0; 1 # 10; 2 # 10; 3 # 10; 4 # 10; 5 # 10; 6 # 10; 7 # 10]%Q.

(** A wait for the previous transmission, the detection of [cad_busy], and
    a transmission that completes. *)
Definition busy_then_sent : list Obs :=
  [quiet 0; quiet (1 # 100);
   quiet (2 # 100); quiet (1 # 10); after (flagged 0x05) [] (2 # 10);
   quiet (21 # 100); after (flagged 0x08) [] (22 # 100)].

(** Two transmissions that complete, one after the other. *)
Definition two_transmissions : list Obs :=
  transmitted
  ++ [quiet 1; quiet (101 # 100); quiet (102 # 100);
      after (flagged 0x08) [] (103 # 100)].

Definition two_calls : list Call :=
  [{| call_data := DBytes [104; 105]; call_header_to := 2;
      call_header_flags := 0; call_retries := 3 |};
   {| call_data := DStr [111; 107]; call_header_to := 2;
      call_header_flags := 0; call_retries := 3 |}].

(** ** Construction ([ModemConfig], [__init__])

    [__init__] uses further names of [constants.py], and the name [spiport],
    which is neither one of its parameters nor assigned in [lora.py]: it
    resolves only if [constants] exports it.  [FSTEP], the divisor of a
    float division, is taken as the binary64 number the division sees. *)

Class InitConstants := {
  LONG_RANGE_MODE : Z;
  REG_0E_FIFO_TX_BASE_ADDR : Z;
  REG_0F_FIFO_RX_BASE_ADDR : Z;
  REG_1D_MODEM_CONFIG1 : Z;
  REG_1E_MODEM_CONFIG2 : Z;
  REG_26_MODEM_CONFIG3 : Z;
  REG_20_PREAMBLE_MSB : Z;
  REG_21_PREAMBLE_LSB : Z;
  REG_06_FRF_MSB : Z;
  REG_07_FRF_MID : Z;
  REG_08_FRF_LSB : Z;
  REG_4D_PA_DAC : Z;
  PA_DAC_ENABLE : Z;
  PA_DAC_DISABLE : Z;
  REG_09_PA_CONFIG : Z;
  PA_SELECT : Z;
  FSTEP : PrimFloat.float
}.

Inductive ModemConfig : Set :=
| Bw125Cr45Sf128
| Bw500Cr45Sf128
| Bw31_25Cr48Sf512
| Bw125Cr48Sf4096.

Definition value (m : ModemConfig) : Z * Z * Z :=
  match m with
  | Bw125Cr45Sf128 => (0x72, 0x74, 0x04)
  | Bw500Cr45Sf128 => (0x92, 0x74, 0x04)
  | Bw31_25Cr48Sf512 => (0x48, 0x94, 0x04)
  | Bw125Cr48Sf4096 => (0x78, 0xc4, 0x0c)
  end.

(** The calls [__init__] makes to [RPi.GPIO], [time] and [spidev] other than
    [xfer], in call order. *)
Inductive platform_call : Type :=
| GPIO_setmode_BCM
| GPIO_setup_IN_PUD_DOWN (pin : Z)
| GPIO_add_event_detect_RISING (pin : Z)
| GPIO_setup_OUT (pin : Z)
| GPIO_output (pin : Z) (high : bool)
| time_sleep (seconds : Q)
| SpiDev_open (bus device : Z)
| SpiDev_max_speed_hz (hz : Z).

(** The exceptions of [__init__]: [NameError] on [spiport], [ValueError] on
    the default mode, [AssertionError] on the read-back of the mode, and
    those of the frequency computation: [OverflowError] on an [int] too large
    for a float or on [int] of an infinity, [ZeroDivisionError] on a zero
    [FSTEP], [ValueError] on [int] of a NaN. *)
Inductive construction_error : Set :=
| NameError_spiport
| ValueError_default_mode
| AssertionError_initialization
| OverflowError_frequency
| ZeroDivisionError_frequency
| ValueError_frequency.

(** The argument [freq]: an [int] (the default, 915) or a [float], which is
    a binary64 number. *)
Inductive number : Set :=
| Int (z : Z)
| Float (x : PrimFloat.float).

(** The constructed object: the attributes the methods use, the attributes
    only [__init__] uses, and the platform calls made. *)
Record Radio : Type := {
  lora : LoRa;
  _spiport : Z;
  _channel : Z;
  _interrupt : Z;
  _freq : number;
  _tx_power : Z;
  _modem_config : ModemConfig;
  send_retries : Z;
  platform_log : list platform_call
}.

(** What a call of the constructor leaves: the object, or an exception with
    the platform calls and bus transactions made before it. *)
Inductive construction : Type :=
| Constructed (r : Radio)
| Failed (e : construction_error) (platform : list platform_call)
    (bus : list (list Z)).

(** The conversion of an [int] operand of a float operation: the nearest
    binary64 number, ties to even; [None] stands for [OverflowError]. *)
Definition float_of_int (z : Z) : option PrimFloat.float :=
  match SpecFloat.binary_normalize FloatOps.prec FloatOps.emax z 0 false with
  | SpecFloat.S754_infinity _ => None
  | x => Some (FloatOps.SF2Prim x)
  end.

(** [int(x)] on a float: truncation towards zero; [OverflowError] on an
    infinity and [ValueError] on a NaN. *)
Definition py_int (x : PrimFloat.float) : construction_error + Z :=
  match FloatOps.Prim2SF x with
  | SpecFloat.S754_zero _ => inr 0
  | SpecFloat.S754_finite negative m e =>
    let magnitude := Z.shiftl (Z.pos m) e in
    inr (if negative then - magnitude else magnitude)
  | SpecFloat.S754_infinity _ => inl OverflowError_frequency
  | SpecFloat.S754_nan => inl ValueError_frequency
  end.

(** Truth value of [reset_pin]: [None] and 0 are false. *)
Definition pin_given (reset_pin : option Z) : bool :=
  match reset_pin with
  | Some p => negb (p =? 0)
  | None => false
  end.

Section Construction.

Context {K : Constants} {I : InitConstants}.

(** The default mode selected by the [if]/[elif] chain. *)
Definition select_default_mode (default_mode : Z) : option DefaultMode :=
  if default_mode =? 0 then Some DefaultRx
  else if default_mode =? 1 then Some DefaultIdle
  else if default_mode =? 2 then Some DefaultSleep
  else None.

(** [frf = int((self._freq * 1000000.0) / FSTEP)], in binary64 as Python
    computes it: the product is rounded, then the quotient, then [int]
    truncates. *)
Definition frf_of (freq : number) : construction_error + Z :=
  match (match freq with
         | Int z => float_of_int z
         | Float x => Some x
         end) with
  | None => inl OverflowError_frequency
  | Some x =>
    let hz := PrimFloat.mul x 1000000%float in
    if PrimFloat.eqb FSTEP 0%float then inl ZeroDivisionError_frequency
    else py_int (PrimFloat.div hz FSTEP)
  end.

(** The statements under [# Set tx power]: the power kept in [_tx_power]
    and the two bus writes. *)
Definition set_tx_power (tx_power : Z) (s : LoRa) : Z * LoRa :=
  let tx_power := if tx_power <? 5 then 5 else tx_power in
  let tx_power := if tx_power >? 23 then 23 else tx_power in
  let '(tx_power, s) :=
    if tx_power >? 20
    then (tx_power - 3, _spi_write REG_4D_PA_DAC (DInt PA_DAC_ENABLE) s)
    else (tx_power, _spi_write REG_4D_PA_DAC (DInt PA_DAC_DISABLE) s) in
  (tx_power,
   _spi_write REG_09_PA_CONFIG (DInt (Z.lor PA_SELECT (tx_power - 5))) s).

(** The statements from the FIFO base addresses to the preamble length. *)
Definition configure_modem (modem_config : ModemConfig) (s : LoRa) : LoRa :=
  let s := _spi_write REG_0E_FIFO_TX_BASE_ADDR (DInt 0) s in
  let s := _spi_write REG_0F_FIFO_RX_BASE_ADDR (DInt 0) s in
  let s := set_mode_idle s in
  let '(config1, config2, config3) := value modem_config in
  let s := _spi_write REG_1D_MODEM_CONFIG1 (DInt config1) s in
  let s := _spi_write REG_1E_MODEM_CONFIG2 (DInt config2) s in
  let s := _spi_write REG_26_MODEM_CONFIG3 (DInt config3) s in
  let s := _spi_write REG_20_PREAMBLE_MSB (DInt 0) s in
  _spi_write REG_21_PREAMBLE_LSB (DInt 8) s.

(** The three writes under [# set frequency]. *)
Definition set_frequency (frf : Z) (s : LoRa) : LoRa :=
  let s := _spi_write REG_06_FRF_MSB (DInt (Z.land (Z.shiftr frf 16) 0xff)) s in
  let s := _spi_write REG_07_FRF_MID (DInt (Z.land (Z.shiftr frf 8) 0xff)) s in
  _spi_write REG_08_FRF_LSB (DInt (Z.land frf 0xff)) s.

(** The bus writes from the FIFO base addresses to the frequency. *)
Definition configure (frf : Z) (modem_config : ModemConfig) (s : LoRa)
  : LoRa :=
  set_frequency frf (configure_modem modem_config s).

(** The platform calls up to the first bus transaction. *)
Definition platform_setup (channel interrupt : Z) (reset_pin : option Z)
  : list platform_call :=
  [GPIO_setmode_BCM;
   GPIO_setup_IN_PUD_DOWN interrupt;
   GPIO_add_event_detect_RISING interrupt]
  ++ (match reset_pin with
      | Some p =>
        if pin_given reset_pin
        then [GPIO_setup_OUT p; GPIO_output p false; time_sleep (1 # 100);
              GPIO_output p true; time_sleep (1 # 100)]
        else []
      | None => []
      end)
  ++ [SpiDev_open 0 channel; SpiDev_max_speed_hz 5000000].

(** [LoRa.__init__], on a chip that answers the read-back of the mode
    register with [op_mode], with no interrupt raised while it runs.
    [spiport] is what the name resolves to, [rnd] the values [random()] will
    return to the object's methods. *)
Definition __init__ (spiport : option Z) (op_mode : Z) (rnd : list Q)
  (channel interrupt this_address : Z) (reset_pin : option Z)
  (freq : number) (tx_power : Z) (modem_config : ModemConfig)
  (receive_all acks : bool) (crypto : option Cipher) (default_mode : Z)
  : construction :=
  match spiport with
  | None => Failed NameError_spiport [] []
  | Some port =>
    match select_default_mode default_mode with
    | None => Failed ValueError_default_mode [] []
    | Some set_default_mode =>
      let s :=
        {| _mode := None;
           _cad := None;
           _receive_all := receive_all;
           _acks := acks;
           _this_address := this_address;
           _last_header_id := 0;
           _last_payload := None;
           crypto := crypto;
           cad_timeout := 0;
           wait_packet_sent_timeout := 2 # 10;
           retry_timeout := 2 # 10;
           _set_default_mode := set_default_mode;
           _ack := None;
           spi_log := [];
           recv_log := [];
           random_supply := rnd |} in
      let platform := platform_setup channel interrupt reset_pin in
      let s :=
        _spi_write REG_01_OP_MODE (DInt (Z.lor MODE_SLEEP LONG_RANGE_MODE)) s in
      let platform := platform ++ [time_sleep (1 # 10)] in
      let s := _spi_read REG_01_OP_MODE 1 s in
      if op_mode =? Z.lor MODE_SLEEP LONG_RANGE_MODE then
        match frf_of freq with
        | inl e =>
          Failed e platform (spi_log (configure_modem modem_config s))
        | inr frf =>
          let s := configure frf modem_config s in
          let '(tx_power, s) := set_tx_power tx_power s in
          Constructed
            {| lora := s;
               _spiport := port;
               _channel := channel;
               _interrupt := interrupt;
               _freq := freq;
               _tx_power := tx_power;
               _modem_config := modem_config;
               send_retries := 2;
               platform_log := platform |}
        end
      else Failed AssertionError_initialization platform (spi_log s)
    end
  end.

End Construction.

(** Values for the names [__init__] uses: the SX127x data sheet again, the
    frequency step 32 MHz / 2^19, which is 61.03515625 Hz. *)
Definition sx127x_init : InitConstants := {|
  LONG_RANGE_MODE := 0x80;
  REG_0E_FIFO_TX_BASE_ADDR := 0x0e;
  REG_0F_FIFO_RX_BASE_ADDR := 0x0f;
  REG_1D_MODEM_CONFIG1 := 0x1d;
  REG_1E_MODEM_CONFIG2 := 0x1e;
  REG_26_MODEM_CONFIG3 := 0x26;
  REG_20_PREAMBLE_MSB := 0x20;
  REG_21_PREAMBLE_LSB := 0x21;
  REG_06_FRF_MSB := 0x06;
  REG_07_FRF_MID := 0x07;
  REG_08_FRF_LSB := 0x08;
  REG_4D_PA_DAC := 0x4d;
  PA_DAC_ENABLE := 0x07;
  PA_DAC_DISABLE := 0x04;
  REG_09_PA_CONFIG := 0x09;
  PA_SELECT := 0x80;
  FSTEP := 61.03515625%float
|}.

(** ** Names used in the further properties *)

Section FurtherNames.

Context {K : Constants}.

(** The mode a stored default-mode method enters. *)
Definition default_target (d : DefaultMode) : Z :=
  match d with
  | DefaultRx => MODE_RXCONTINUOUS
  | DefaultIdle => MODE_STDBY
  | DefaultSleep => MODE_SLEEP
  end.

(** The object after an invocation of the handler that only read and
    cleared the interrupt flags. *)
Definition flags_only (s : LoRa) : LoRa :=
  _spi_write REG_12_IRQ_FLAGS (DInt 0xff) (_spi_read REG_12_IRQ_FLAGS 1 s).

(** A register byte read as a signed number. *)
Definition signed_byte (v : Z) : Z := if v <? 128 then v else v - 256.

(** The bus transactions of [n] such invocations. *)
Fixpoint flag_transactions (n : nat) : list (list Z) :=
  match n with
  | O => []
  | S n => flag_transactions n ++ [[REG_12_IRQ_FLAGS; 0]; clear_irq_flags]
  end.

(** The bus transactions with which [send] loads a frame and starts its
    transmission. *)
Definition transmission (frame : list Z) : list (list Z) :=
  [[Z.lor REG_0D_FIFO_ADDR_PTR 0x80; 0];
   Z.lor REG_00_FIFO 0x80 :: frame;
   [Z.lor REG_22_PAYLOAD_LENGTH 0x80; Z.of_nat (length frame)]]
  ++ write_sequence EnterTx.

End FurtherNames.

(** ** Invariants *)

Section InvariantNames.

Context {K : Constants}.

(** A method keeps the property [P] of the object, however it ends. *)
Definition preserves {E A} (P : LoRa -> Prop) (c : M E A) : Prop :=
  forall s clk, P s -> P (final (c s clk)).

(** The value a bus transaction writes to the mode register, if it is such
    a write. *)
Definition op_mode_write (request : list Z) : option Z :=
  match request with
  | [register; v] =>
    if register =? Z.lor REG_01_OP_MODE 0x80 then Some v else None
  | _ => None
  end.

(** The last value written to the mode register. *)
Definition last_op_mode (log : list (list Z)) : option Z :=
  fold_left (fun last request =>
               match op_mode_write request with
               | Some v => Some v
               | None => last
               end) log None.

(** The stored mode, once there is one, is the last value written to the
    mode register. *)
Definition mode_in_step (s : LoRa) : Prop :=
  match _mode s with
  | Some m => last_op_mode (spi_log s) = Some m
  | None => True
  end.

(** No other bus transaction of the methods can be taken for a write to
    the mode register. *)
Definition registers_apart : Prop :=
  Forall (fun r => Z.lor r 0x80 <> Z.lor REG_01_OP_MODE 0x80)
    [REG_40_DIO_MAPPING1; REG_0D_FIFO_ADDR_PTR; REG_22_PAYLOAD_LENGTH;
     REG_12_IRQ_FLAGS]
  /\ Forall (fun r => r <> Z.lor REG_01_OP_MODE 0x80)
       [REG_12_IRQ_FLAGS; REG_13_RX_NB_BYTES; REG_10_FIFO_RX_CURRENT_ADDR;
        REG_00_FIFO; REG_19_PKT_SNR_VALUE; REG_1A_PKT_RSSI_VALUE].

(** [on_recv] has never been called with an ACK. *)
Definition no_ack_delivered (s : LoRa) : Prop :=
  Forall (fun p => Z.land (header_flags p) FLAGS_ACK = 0) (recv_log s).

End InvariantNames.

(** The same for the registers the constructor writes after it has entered
    standby. *)
Definition init_registers_apart {K : Constants} {I : InitConstants} : Prop :=
  Forall (fun r => Z.lor r 0x80 <> Z.lor REG_01_OP_MODE 0x80)
    [REG_1D_MODEM_CONFIG1; REG_1E_MODEM_CONFIG2; REG_26_MODEM_CONFIG3;
     REG_20_PREAMBLE_MSB; REG_21_PREAMBLE_LSB; REG_06_FRF_MSB;
     REG_07_FRF_MID; REG_08_FRF_LSB; REG_4D_PA_DAC; REG_09_PA_CONFIG].

(** A call of the constructor with the default frequency and modem
    configuration, 23 dBm asked for, on a chip that answers. *)
Definition bench : construction :=
  __init__ (K:=sx127x) (I:=sx127x_init) (Some 0) 0x80 [] 0 25 1 None
    (Int 915) 23 Bw125Cr45Sf128 false false None 0.

(** The frame [send] builds on device 1, with [reversing_cipher], for the
    data [b"hi"] sent to device 2 with id 7 and no flags. *)
Definition hi_encrypted : list Z :=
  [2; 1; 7; 0] ++ rev ([2; 104; 105] ++ repeat 0 13).

(** * Properties *)

(** ** Encryption framing *)

Lemma math_ceil_div_16 (a : Z) : math_ceil_div a 16 = (a + 15) / 16.
Proof.
  unfold math_ceil_div, Qceiling, Qfloor. cbn.
  rewrite Z.mul_1_r.
  Z.div_mod_to_equations. lia.
Qed.

Lemma padding_length (n : Z) :
  0 <= n ->
  0 <= math_ceil_div (n + 1) 16 * 16 - (n + 1) < 16
  /\ (n + 1 + (math_ceil_div (n + 1) 16 * 16 - (n + 1))) mod 16 = 0.
Proof.
  intros Hn. rewrite math_ceil_div_16.
  split.
  - Z.div_mod_to_equations. lia.
  - replace (n + 1 + ((n + 1 + 15) / 16 * 16 - (n + 1)))
      with ((n + 1 + 15) / 16 * 16) by lia.
    apply Z.mod_mul. lia.
Qed.

Lemma bytes_singleton (n : Z) : 0 <= n <= 255 -> bytes [n] = inr [n].
Proof.
  intros [H0 H1]. unfold bytes. cbn.
  apply Z.leb_le in H0, H1. now rewrite H0, H1.
Qed.

Lemma py_slice_frame (p pad : list Z) :
  py_slice (Z.of_nat (length p) :: p ++ pad) 1 (Z.of_nat (length p) + 1) = p.
Proof.
  unfold py_slice.
  assert (Hlt : (Z.of_nat (length p) + 1 <? 0) = false)
    by (apply Z.ltb_ge; lia).
  rewrite Hlt. change (Z.to_nat 1) with 1%nat. cbn [skipn].
  rewrite Z.min_r by (cbn [length]; rewrite Nat2Z.inj_succ, length_app; lia).
  replace (Z.of_nat (length p) + 1 - 1) with (Z.of_nat (length p)) by lia.
  rewrite Nat2Z.id.
  rewrite firstn_app, Nat.sub_diag, firstn_all. cbn. apply app_nil_r.
Qed.

(** C6.  For a cipher whose [decrypt] undoes [encrypt] on block-aligned
    input and a plaintext of at most 239 bytes, [_encrypt] hands the cipher
    the plaintext behind its one-byte length and in front of fewer than 16
    zero bytes, a multiple of 16 bytes in all, and [_decrypt] of the result
    is the plaintext. *)
Theorem encryption_round_trip (c : Cipher) (plaintext : list Z) :
  (forall m, Z.of_nat (length m) mod 16 = 0 -> decrypt c (encrypt c m) = m) ->
  (length plaintext <= 239)%nat ->
  exists padding,
    Forall (fun b => b = 0) padding
    /\ (length padding < 16)%nat
    /\ Z.of_nat (length (Z.of_nat (length plaintext) :: plaintext ++ padding))
         mod 16 = 0
    /\ _encrypt c plaintext
       = inr (encrypt c (Z.of_nat (length plaintext) :: plaintext ++ padding))
    /\ _decrypt c (encrypt c (Z.of_nat (length plaintext)
                                :: plaintext ++ padding))
       = inr plaintext.
Proof.
  intros Hinv Hlen.
  set (n := Z.of_nat (length plaintext)).
  assert (Hn : 0 <= n <= 255) by (unfold n; lia).
  destruct (padding_length n (proj1 Hn)) as [Hpad Hmod].
  set (k := math_ceil_div (n + 1) 16 * 16 - (n + 1)) in *.
  exists (repeat 0 (Z.to_nat k)).
  assert (Hframe : Z.of_nat (length (n :: plaintext ++ repeat 0 (Z.to_nat k)))
                   mod 16 = 0).
  { cbn [length]. rewrite Nat2Z.inj_succ, length_app, repeat_length.
    rewrite Nat2Z.inj_add, Z2Nat.id by lia. fold n.
    replace (Z.succ (n + k)) with (n + 1 + k) by lia. exact Hmod. }
  repeat split.
  - apply Forall_forall. intros b Hb. now apply repeat_spec in Hb.
  - rewrite repeat_length. lia.
  - exact Hframe.
  - unfold _encrypt. fold n. fold k. now rewrite bytes_singleton.
  - unfold _decrypt. rewrite (Hinv _ Hframe).
    unfold n. now rewrite py_slice_frame.
Qed.

(** ** Mode controller *)

Section ModeController.

Context {K : Constants}.

Lemma mode_is_with_mode (m : Z) (s : LoRa) :
  mode_is (with_mode (Some m) s) m = true.
Proof. unfold mode_is. cbn. apply Z.eqb_refl. Qed.

Lemma mode_is_exact (s : LoRa) (m : Z) :
  mode_is s m = true <-> _mode s = Some m.
Proof.
  unfold mode_is. destruct (_mode s) as [c|]; split; intros H;
    try discriminate.
  - apply Z.eqb_eq in H. now subst.
  - injection H as ->. apply Z.eqb_refl.
Qed.

Lemma mode_is_other (s : LoRa) (m m' : Z) :
  mode_is s m = true -> m <> m' -> mode_is s m' = false.
Proof.
  intros H Hne. apply mode_is_exact in H. unfold mode_is. rewrite H.
  now apply Z.eqb_neq.
Qed.

Lemma spi_log_spi_write (r : Z) (d : pydata) (s : LoRa) :
  spi_log (_spi_write r d s) = spi_log s ++ [Z.lor r 0x80 :: coerce d].
Proof. reflexivity. Qed.

Lemma spi_log_spi_read (r n : Z) (s : LoRa) :
  spi_log (_spi_read r n s) = spi_log s ++ [r :: repeat 0 (Z.to_nat n)].
Proof. reflexivity. Qed.

Lemma spi_log_with_last_payload (p : option Payload) (s : LoRa) :
  spi_log (with_last_payload p s) = spi_log s.
Proof. reflexivity. Qed.

Lemma enter_unfold (t : transition) (s : LoRa) :
  enter t s
  = if mode_is s (target t) then s
    else with_mode (Some (target t))
           (with_spi_log (spi_log s ++ write_sequence t) s).
Proof.
  destruct t; cbn [enter target write_sequence];
    unfold set_mode_sleep, set_mode_idle, set_mode_tx, set_mode_rx,
      set_mode_cad;
    destruct (mode_is s _); cbn [negb]; try reflexivity;
    unfold _spi_write, xfer, with_mode, with_spi_log; cbn;
    rewrite <- ?app_assoc; reflexivity.
Qed.

Lemma enter_reaches_target (t : transition) (s : LoRa) :
  mode_is (enter t s) (target t) = true.
Proof.
  rewrite enter_unfold. destruct (mode_is s (target t)) eqn:Hm.
  - exact Hm.
  - apply mode_is_with_mode.
Qed.

Lemma enter_log (t : transition) (s : LoRa) :
  mode_is s (target t) = false ->
  spi_log (enter t s) = spi_log s ++ write_sequence t.
Proof. intros H. rewrite enter_unfold, H. reflexivity. Qed.

(** C9.  A transition is the identity on an object already in its target
    mode, and otherwise makes the bus transactions of its write sequence and
    stores the mode; a second call right after the first changes nothing, so
    that two calls in a row leave the bus log with one write sequence (none
    when the object was in the target mode already). *)
Theorem set_mode_idempotent (t : transition) (s : LoRa) :
  enter t s
  = (if mode_is s (target t) then s
     else with_mode (Some (target t))
            (with_spi_log (spi_log s ++ write_sequence t) s))
  /\ enter t (enter t s) = enter t s
  /\ spi_log (enter t (enter t s))
     = (if mode_is s (target t) then spi_log s
        else spi_log s ++ write_sequence t).
Proof.
  assert (Hidem : enter t (enter t s) = enter t s).
  { rewrite (enter_unfold t (enter t s)).
    now rewrite enter_reaches_target. }
  split; [apply enter_unfold|]. split; [exact Hidem|].
  rewrite Hidem, enter_unfold.
  now destruct (mode_is s (target t)).
Qed.

End ModeController.

(** ** What the methods leave alone *)

Section Frame.

Context {K : Constants}.

Lemma extends_refl (s : LoRa) : extends s s.
Proof.
  constructor; try reflexivity; exists []; now rewrite app_nil_r.
Qed.

Lemma extends_trans (s1 s2 s3 : LoRa) :
  extends s1 s2 -> extends s2 s3 -> extends s1 s3.
Proof.
  intros [] []. constructor; try congruence.
  - destruct ext_spi_log0 as [l1 H1], ext_spi_log1 as [l2 H2].
    exists (l1 ++ l2). now rewrite H2, H1, app_assoc.
  - destruct ext_recv_log0 as [l1 H1], ext_recv_log1 as [l2 H2].
    exists (l1 ++ l2). now rewrite H2, H1, app_assoc.
Qed.

Lemma xfer_extends (r : list Z) (s : LoRa) : extends s (xfer r s).
Proof.
  constructor; try reflexivity.
  - now exists [r].
  - exists []. cbn. now rewrite app_nil_r.
Qed.

Lemma with_mode_extends (m : option Z) (s : LoRa) : extends s (with_mode m s).
Proof.
  constructor; try reflexivity; exists []; cbn; now rewrite app_nil_r.
Qed.

Lemma with_cad_extends (c : option Z) (s : LoRa) : extends s (with_cad c s).
Proof.
  constructor; try reflexivity; exists []; cbn; now rewrite app_nil_r.
Qed.

Lemma with_last_payload_extends (p : option Payload) (s : LoRa) :
  extends s (with_last_payload p s).
Proof.
  constructor; try reflexivity; exists []; cbn; now rewrite app_nil_r.
Qed.

Lemma with_random_supply_extends (l : list Q) (s : LoRa) :
  extends s (with_random_supply l s).
Proof.
  constructor; try reflexivity; exists []; cbn; now rewrite app_nil_r.
Qed.

Lemma on_recv_extends (p : Payload) (s : LoRa) : extends s (on_recv p s).
Proof.
  constructor; try reflexivity.
  - exists []. cbn. now rewrite app_nil_r.
  - now exists [p].
Qed.

Lemma _spi_write_extends (r : Z) (d : pydata) (s : LoRa) :
  extends s (_spi_write r d s).
Proof. apply xfer_extends. Qed.

Lemma _spi_read_extends (r n : Z) (s : LoRa) : extends s (_spi_read r n s).
Proof. apply xfer_extends. Qed.

Lemma enter_extends (t : transition) (s : LoRa) : extends s (enter t s).
Proof.
  rewrite enter_unfold. destruct (mode_is s (target t)).
  - apply extends_refl.
  - eapply extends_trans; [|apply with_mode_extends].
    constructor; try reflexivity.
    + now exists (write_sequence t).
    + exists []. cbn. now rewrite app_nil_r.
Qed.

Lemma call_set_default_mode_extends (s : LoRa) :
  extends s (call_set_default_mode s).
Proof.
  unfold call_set_default_mode. destruct (_set_default_mode s).
  - apply (enter_extends EnterRx).
  - apply (enter_extends EnterIdle).
  - apply (enter_extends EnterSleep).
Qed.

Lemma load_and_transmit_extends (payload : list Z) (s : LoRa) :
  extends s (load_and_transmit payload s).
Proof.
  unfold load_and_transmit.
  eapply extends_trans; [|apply (enter_extends EnterTx)].
  eapply extends_trans; [|apply _spi_write_extends].
  eapply extends_trans; [|apply _spi_write_extends].
  apply _spi_write_extends.
Qed.

Section PollingFrame.

Variable E : Type.
Variable observe : E -> LoRa -> seen.
Hypothesis observe_extends : forall e s, extends s (seen_state (observe e s)).

Lemma frames_ret {A} (a : A) : frames (ret E a).
Proof. intros s clk. apply extends_refl. Qed.

Lemma frames_bind {A B} (c : M E A) (k : A -> M E B) :
  frames c -> (forall a, frames (k a)) -> frames (bind E c k).
Proof.
  intros Hc Hk s clk. unfold bind.
  specialize (Hc s clk). destruct (c s clk) as [a s' clk'|x s' clk'|s'];
    cbn in *; auto.
  eapply extends_trans; [exact Hc|apply Hk].
Qed.

Lemma frames_get : frames (get E).
Proof. intros s clk. apply extends_refl. Qed.

Lemma frames_modify (f : LoRa -> LoRa) :
  (forall s, extends s (f s)) -> frames (modify E f).
Proof. intros Hf s clk. apply Hf. Qed.

Lemma frames_raise_or {A} (r : exn + A) : frames (raise_or E r).
Proof. intros s clk. unfold raise_or. destruct r; apply extends_refl. Qed.

Lemma frames_time_time : frames (time_time E observe).
Proof.
  intros s [|e clk]; cbn; [apply extends_refl|].
  specialize (observe_extends e s). now destruct (observe e s).
Qed.

Lemma frames_random : frames (random E).
Proof.
  intros s clk. unfold random. destruct (random_supply s); cbn.
  - apply extends_refl.
  - apply with_random_supply_extends.
Qed.

Lemma frames_wait_packet_sent_while (start : Q) :
  frames (wait_packet_sent_while E observe start).
Proof.
  intros s clk. revert s.
  induction clk as [|e clk IH]; intros s; cbn; [apply extends_refl|].
  specialize (observe_extends e s).
  destruct (observe e s) as [t s'|s']; cbn in *; auto.
  destruct (Qltb _ _); cbn; auto.
  destruct (mode_is s' MODE_TX); cbn; auto.
  eapply extends_trans; [exact observe_extends|apply IH].
Qed.

Lemma frames_wait_packet_sent : frames (wait_packet_sent E observe).
Proof.
  apply frames_bind; [apply frames_time_time|].
  intros start. apply frames_wait_packet_sent_while.
Qed.

Lemma frames_wait_cad_for (start : Q) :
  frames (wait_cad_for E observe start).
Proof.
  intros s clk.
  remember (length clk) as n eqn:Hn.
  assert (Hle : (length clk <= n)%nat) by lia. clear Hn.
  revert s clk Hle.
  induction n as [|n IH]; intros s clk Hle.
  - destruct clk; [|cbn in Hle; lia].
    cbn. destruct (_is_channel_active_resume s); apply extends_refl.
  - destruct clk as [|e1 clk1]; cbn.
    + destruct (_is_channel_active_resume s); apply extends_refl.
    + unfold _is_channel_active_resume.
      destruct (mode_is s MODE_CAD); [|apply extends_refl].
      pose proof (observe_extends e1 s) as H1.
      destruct (observe e1 s) as [t s1|s1]; cbn in *; auto.
      destruct (Qltb _ _); cbn; auto.
      destruct clk1 as [|e2 clk2]; cbn; auto.
      pose proof (observe_extends e2 s1) as H2.
      destruct (observe e2 s1) as [t2 s2|s2]; cbn in *.
      * eapply extends_trans; [exact H1|].
        eapply extends_trans; [exact H2|].
        apply IH. cbn in Hle. lia.
      * eapply extends_trans; eauto.
Qed.

Lemma frames_wait_cad : frames (wait_cad E observe).
Proof.
  apply frames_bind; [apply frames_get|]. intros s.
  destruct (negb (Qtruthy (cad_timeout s))); [apply frames_ret|].
  apply frames_bind; [apply frames_time_time|]. intros start.
  apply frames_bind; [|intros _; apply frames_wait_cad_for].
  apply frames_modify. intros s0. apply (enter_extends EnterCad).
Qed.

Lemma frames_send (data : pydata) (header_to header_id header_flags : Z) :
  frames (send E observe data header_to header_id header_flags).
Proof.
  apply frames_bind; [apply frames_wait_packet_sent|]. intros _.
  apply frames_bind; [apply frames_wait_cad|]. intros v.
  destruct (py_eq_1 v); [apply frames_ret|].
  apply frames_bind;
    [apply frames_modify; intros s0; apply (enter_extends EnterIdle)|].
  intros _.
  apply frames_bind; [apply frames_get|]. intros s.
  apply frames_bind; [apply frames_raise_or|]. intros body.
  apply frames_bind;
    [apply frames_modify; intros s0; apply load_and_transmit_extends|].
  intros _. apply frames_wait_packet_sent.
Qed.

Lemma frames_send_ack (header_to header_id : Z) :
  frames (send_ack E observe header_to header_id).
Proof.
  apply frames_bind; [apply frames_send|]. intros _.
  apply frames_bind; [apply frames_wait_packet_sent|]. intros _.
  apply frames_ret.
Qed.

Lemma frames_ack_wait_while (start : Q) :
  frames (ack_wait_while E observe start).
Proof.
  intros s clk. revert s.
  induction clk as [|e clk IH]; intros s; cbn; [apply extends_refl|].
  specialize (observe_extends e s).
  destruct (observe e s) as [t s1|s1]; cbn in *; auto.
  unfold random. destruct (random_supply s1) as [|r rs] eqn:Hr; cbn; auto.
  assert (H2 : extends s (with_random_supply rs s1)).
  { eapply extends_trans; [exact observe_extends|].
    apply with_random_supply_extends. }
  destruct (Qltb _ _); cbn; auto.
  destruct (ack_seen _); cbn; auto.
  eapply extends_trans; [exact H2|apply IH].
Qed.

Lemma frames_attempt (data : pydata) (header_to header_flags : Z) :
  frames (attempt E observe data header_to header_flags).
Proof.
  apply frames_bind; [apply frames_get|]. intros s.
  apply frames_bind; [apply frames_send|]. intros success.
  destruct (negb success); [apply frames_ret|].
  apply frames_bind; [apply frames_get|]. intros s1.
  destruct (negb (_acks s1) || (header_to =? BROADCAST_ADDRESS));
    [apply frames_ret|].
  apply frames_bind; [apply frames_time_time|]. intros start.
  apply frames_bind; [apply frames_ack_wait_while|]. intros acked.
  destruct acked; apply frames_ret.
Qed.

Lemma frames_send_to_wait_for (n : nat) (data : pydata)
  (header_to header_flags : Z) :
  frames (send_to_wait_for E observe n data header_to header_flags).
Proof.
  revert header_flags. induction n as [|n IH]; intros header_flags; cbn.
  - apply frames_ret.
  - apply frames_bind; [apply frames_get|]. intros s.
    apply frames_bind; [apply frames_attempt|]. intros [b|].
    + apply frames_ret.
    + apply IH.
Qed.

End PollingFrame.

Lemma handler_observe_extends (t : Q) (s : LoRa) :
  extends s (seen_state (handler_observe t s)).
Proof. apply extends_refl. Qed.

Lemma frames_rx_done (c : Chip) : frames (rx_done c).
Proof.
  unfold rx_done.
  repeat (apply frames_bind;
          [apply frames_modify; intros s0;
           first [apply _spi_read_extends | apply _spi_write_extends]|];
          intros _).
  destruct (rx_nb_bytes c >=? 4); [|apply frames_ret].
  apply frames_bind.
  { destruct (rx_nb_bytes c >? 4);
      [apply frames_raise_or|apply frames_ret]. }
  intros msg.
  apply frames_bind; [apply frames_get|]. intros s.
  destruct (_ && _ && _); [apply frames_ret|].
  apply frames_bind; [apply frames_raise_or|]. intros msg'.
  apply frames_bind.
  { destruct (_ && _ && _); [|apply frames_ret].
    destruct (_ack s) as [a|]; [|apply frames_raise_or].
    destruct (negb a); [|apply frames_ret].
    apply frames_send_ack. apply handler_observe_extends. }
  intros _.
  apply frames_bind;
    [apply frames_modify; intros s0; apply (enter_extends EnterRx)|].
  intros _.
  apply frames_bind;
    [apply frames_modify; intros s0; apply with_last_payload_extends|].
  intros _.
  apply frames_bind; [|intros _; apply frames_ret].
  destruct (negb _); [|apply frames_ret].
  apply frames_modify. intros s0. apply on_recv_extends.
Qed.

Lemma frames_handle_interrupt (c : Chip) : frames (_handle_interrupt c).
Proof.
  unfold _handle_interrupt.
  apply frames_bind;
    [apply frames_modify; intros s0; apply _spi_read_extends|].
  intros _.
  apply frames_bind; [apply frames_get|]. intros s.
  apply frames_bind.
  { destruct (_ && _); [apply frames_rx_done|].
    destruct (_ && _).
    { apply frames_bind; [|intros _; apply frames_ret].
      apply frames_modify. apply call_set_default_mode_extends. }
    destruct (_ && _).
    { apply frames_bind;
        [apply frames_modify; intros s0; apply with_cad_extends|].
      intros _.
      apply frames_bind; [|intros _; apply frames_ret].
      apply frames_modify. apply call_set_default_mode_extends. }
    destruct (_ && _); apply frames_ret. }
  intros [|]; [apply frames_ret|].
  apply frames_modify. intros s0. apply _spi_write_extends.
Qed.

Lemma deliver_extends (l : list Irq) (t : Q) (s : LoRa) :
  extends s (seen_state (deliver l t s)).
Proof.
  revert s. induction l as [|i l IH]; intros s; cbn [deliver];
    [apply extends_refl|].
  pose proof (frames_handle_interrupt (chip i) s (handler_clock i)) as H.
  destruct (_handle_interrupt (chip i) s (handler_clock i))
    as [u s' clk'|x s' clk'|s']; cbn [final seen_state] in *.
  - eapply extends_trans; [exact H|apply IH].
  - eapply extends_trans; [exact H|apply IH].
  - exact H.
Qed.

Lemma foreground_observe_extends (o : Obs) (s : LoRa) :
  extends s (seen_state (foreground_observe o s)).
Proof. apply deliver_extends. Qed.

End Frame.

(** ** Reliable send *)

Section ReliableSend.

Context {K : Constants}.

Section AnySchedule.

Variable E : Type.
Variable observe : E -> LoRa -> seen.
Hypothesis observe_extends : forall e s, extends s (seen_state (observe e s)).

Lemma send_to_wait_unfold (data : pydata) (header_to header_flags retries : Z)
  (s : LoRa) (clk : list E) :
  send_to_wait E observe data header_to header_flags retries s clk
  = send_to_wait_for E observe (Z.to_nat (retries + 1)) data header_to
      header_flags
      (with_last_header_id (Z.land (_last_header_id s + 1) 0xFF) s) clk.
Proof. reflexivity. Qed.

Lemma send_to_wait_advances (data : pydata)
  (header_to header_flags retries : Z) (s : LoRa) (clk : list E) :
  _last_header_id
    (final (send_to_wait E observe data header_to header_flags retries s clk))
  = Z.land (_last_header_id s + 1) 0xFF.
Proof.
  rewrite send_to_wait_unfold.
  now rewrite (ext_last_header_id _ _
                 (frames_send_to_wait_for E observe observe_extends _ _ _ _
                    _ clk)).
Qed.

Lemma land_0xFF (x : Z) : Z.land x 0xFF = x mod 256.
Proof. change 0xFF with (Z.ones 8). now rewrite Z.land_ones by lia. Qed.

Lemma send_to_wait_calls_advance (calls : list Call) :
  forall (s : LoRa) (clk : list E) bs s' clk',
    0 <= _last_header_id s < 256 ->
    send_to_wait_calls E observe calls s clk = Ret bs s' clk' ->
    _last_header_id s'
    = (_last_header_id s + Z.of_nat (length calls)) mod 256.
Proof.
  induction calls as [|c calls IH]; intros s clk bs s' clk' Hid Hrun.
  - cbn in Hrun. injection Hrun as _ <- _.
    rewrite Z.add_0_r. symmetry. now apply Z.mod_small.
  - cbn [send_to_wait_calls] in Hrun. unfold bind at 1 in Hrun.
    pose proof (send_to_wait_advances (call_data c) (call_header_to c)
                  (call_header_flags c) (call_retries c) s clk) as Hone.
    destruct (send_to_wait E observe _ _ _ _ s clk)
      as [b s1 clk1|x s1 clk1|s1]; try discriminate.
    cbn [final] in Hone. unfold bind at 1 in Hrun.
    destruct (send_to_wait_calls E observe calls s1 clk1)
      as [bs1 s2 clk2|x s2 clk2|s2] eqn:Hrest; try discriminate.
    injection Hrun as _ <- _.
    rewrite land_0xFF in Hone.
    rewrite (IH _ _ _ _ _ (eq_ind_r (fun i => 0 <= i < 256)
                             (Z.mod_pos_bound _ 256 eq_refl) Hone) Hrest).
    rewrite Hone, Zplus_mod_idemp_l. f_equal.
    cbn [length]. lia.
Qed.

Lemma ack_wait_while_true (start : Q) (clk : list E) :
  forall s s' clk',
    ack_wait_while E observe start s clk = Ret true s' clk' ->
    ack_seen s' = true.
Proof.
  induction clk as [|e clk IH]; intros s s' clk' H; cbn in H;
    [discriminate|].
  destruct (observe e s) as [t s1|s1]; [|discriminate].
  destruct (random E s1 clk) as [r s2 clk2|x s2 clk2|s2];
    try discriminate.
  destruct (Qltb _ _); [|discriminate].
  destruct (ack_seen s2) eqn:Hseen.
  - now injection H as <- _.
  - eapply IH; eauto.
Qed.

Lemma attempt_returns (data : pydata) (header_to header_flags : Z)
  (s : LoRa) (clk : list E) (b : bool) (s' : LoRa) (clk' : list E) :
  attempt E observe data header_to header_flags s clk = Ret (Some b) s' clk' ->
  b = true
  /\ (negb (_acks s') || (header_to =? BROADCAST_ADDRESS) = true
      \/ ack_seen s' = true).
Proof.
  unfold attempt, bind, get. intros H.
  destruct (send E observe _ _ _ _ s clk) as [ok s1 clk1|x s1 clk1|s1];
    try discriminate.
  destruct ok; cbn [negb] in H; [|discriminate].
  destruct (negb (_acks s1) || (header_to =? BROADCAST_ADDRESS)) eqn:Hb.
  - injection H as <- <- _. auto.
  - destruct (time_time E observe s1 clk1) as [start s2 clk2|x s2 clk2|s2];
      try discriminate.
    destruct (ack_wait_while E observe start s2 clk2)
      as [acked s3 clk3|x s3 clk3|s3] eqn:Hw; try discriminate.
    destruct acked; [|discriminate].
    injection H as <- <- _. split; [reflexivity|right].
    eapply ack_wait_while_true; eauto.
Qed.

Lemma send_to_wait_for_returns (n : nat) (data : pydata) (header_to : Z) :
  forall (header_flags : Z) (s : LoRa) (clk : list E) b s' clk',
    _acks s = true ->
    send_to_wait_for E observe n data header_to header_flags s clk
    = Ret b s' clk' ->
    (b = true ->
     (header_to =? BROADCAST_ADDRESS) = true \/ ack_seen s' = true)
    /\ (b = false ->
        failed_attempts E observe data header_to
          (Z.lor header_flags FLAGS_REQ_ACK) n s clk s' clk').
Proof.
  induction n as [|n IH]; intros header_flags s clk b s' clk' Hacks H.
  - cbn in H. injection H as <- <- <-.
    split; [discriminate|]. intros _. constructor.
  - cbn [send_to_wait_for] in H. unfold bind at 1, get at 1 in H.
    rewrite Hacks in H. unfold bind at 1 in H.
    pose proof (frames_attempt E observe observe_extends data header_to
                  (Z.lor header_flags FLAGS_REQ_ACK) s clk) as Hext.
    destruct (attempt E observe data header_to
                (Z.lor header_flags FLAGS_REQ_ACK) s clk)
      as [[b0|] s1 clk1|x s1 clk1|s1] eqn:Hatt; try discriminate.
    + cbn in H. injection H as <- <- <-.
      apply attempt_returns in Hatt. destruct Hatt as [-> Hwhy].
      split; [|discriminate]. intros _.
      cbn [final] in Hext.
      rewrite (ext_acks _ _ Hext), Hacks in Hwhy. exact Hwhy.
    + cbn [final] in Hext.
      destruct (IH _ _ _ _ _ _
                  (eq_trans (ext_acks _ _ Hext) Hacks) H) as [Ht Hf].
      split; [exact Ht|]. intros Hb.
      econstructor; [exact Hatt|].
      rewrite <- Z.lor_assoc, Z.lor_diag in Hf. auto.
Qed.

End AnySchedule.

(** C5.  Whatever the schedule and however a call of [send_to_wait] ends, it
    leaves the sequence id one higher modulo 256 than it found it; a caller
    that makes several calls in a row on an object whose id is a byte finds
    the id advanced, modulo 256, by the number of calls. *)
Theorem sequence_id_once_per_call (c : Call) (calls : list Call) (s : LoRa)
  (clk : list Obs) :
  _last_header_id
    (final (send_to_wait Obs foreground_observe (call_data c)
              (call_header_to c) (call_header_flags c) (call_retries c)
              s clk))
  = (_last_header_id s + 1) mod 256
  /\ (0 <= _last_header_id s < 256 ->
      forall bs s' clk',
        send_to_wait_calls Obs foreground_observe calls s clk
        = Ret bs s' clk' ->
        _last_header_id s'
        = (_last_header_id s + Z.of_nat (length calls)) mod 256).
Proof.
  split.
  - rewrite (send_to_wait_advances Obs foreground_observe
               foreground_observe_extends).
    apply land_0xFF.
  - intros Hid bs s' clk' Hrun.
    eapply (send_to_wait_calls_advance Obs foreground_observe
              foreground_observe_extends); eauto.
Qed.

Lemma ack_seen_true (s : LoRa) :
  ack_seen s = true ->
  exists p,
    _last_payload s = Some p
    /\ header_to p = _this_address s
    /\ Z.land (header_flags p) FLAGS_ACK <> 0
    /\ header_id p = _last_header_id s.
Proof.
  unfold ack_seen. destruct (_last_payload s) as [p|]; [|discriminate].
  intros H. apply andb_prop in H. destruct H as [H Hid].
  apply andb_prop in H. destruct H as [Hto Hack].
  exists p. repeat split.
  - now apply Z.eqb_eq.
  - unfold truthy in Hack. apply negb_true_iff in Hack.
    now apply Z.eqb_neq.
  - now apply Z.eqb_eq.
Qed.

(** C2 (amended).  A call of [send_to_wait] to a destination other than the
    broadcast address on an object with acknowledgments enabled returns
    [True] only with a most recent [Payload] that is addressed to this
    device, has the ACK flag and carries the sequence id of this call; it
    returns [False] only after [retries + 1] iterations of its loop, none of
    which returned. *)
Theorem send_to_wait_ack_correlation (data : pydata)
  (dest flags retries : Z) (s : LoRa) (clk : list Obs)
  (b : bool) (s' : LoRa) (clk' : list Obs) :
  _acks s = true ->
  dest <> BROADCAST_ADDRESS ->
  send_to_wait Obs foreground_observe data dest flags retries
    s clk = Ret b s' clk' ->
  (b = true ->
   exists p,
     _last_payload s' = Some p
     /\ header_to p = _this_address s
     /\ Z.land (header_flags p) FLAGS_ACK <> 0
     /\ header_id p = Z.land (_last_header_id s + 1) 0xFF)
  /\ (b = false ->
      failed_attempts Obs foreground_observe data dest
        (Z.lor flags FLAGS_REQ_ACK) (Z.to_nat (retries + 1))
        (with_last_header_id (Z.land (_last_header_id s + 1) 0xFF) s) clk
        s' clk').
Proof.
  intros Hacks Hto Hrun.
  rewrite send_to_wait_unfold in Hrun.
  pose proof (frames_send_to_wait_for Obs foreground_observe
                foreground_observe_extends (Z.to_nat (retries + 1)) data
                dest flags
                (with_last_header_id (Z.land (_last_header_id s + 1) 0xFF) s)
                clk) as Hext.
  rewrite Hrun in Hext. cbn [final] in Hext.
  destruct (send_to_wait_for_returns Obs foreground_observe
              foreground_observe_extends _ _ _ _ _ _ _ _ _
              (Hacks : _acks (with_last_header_id _ s) = true) Hrun)
    as [Ht Hf].
  split; [|exact Hf].
  intros Hb. destruct (Ht Hb) as [Hbc|Hseen].
  - apply Z.eqb_eq in Hbc. contradiction.
  - destruct (ack_seen_true _ Hseen) as (p & Hp & Hpto & Hpack & Hpid).
    exists p. repeat split; auto.
    + rewrite Hpto. apply (ext_this_address _ _ Hext).
    + rewrite Hpid. apply (ext_last_header_id _ _ Hext).
Qed.

End ReliableSend.

(** Witness of C5: two calls in a row on a device whose id is 0. *)
Lemma sequence_id_once_per_call_witness :
  0 <= _last_header_id (station 1 false None 0 None []) < 256
  /\ exists bs s' clk',
       send_to_wait_calls (K:=sx127x) Obs (foreground_observe (K:=sx127x)) two_calls
         (station 1 false None 0 None []) two_transmissions
       = Ret bs s' clk'
       /\ _last_header_id s'
          = (_last_header_id (station 1 false None 0 None [])
             + Z.of_nat (length two_calls)) mod 256.
Proof.
  split; [cbn; lia|].
  eexists _, _, _. split; [vm_compute; reflexivity|].
  eapply (proj2 (sequence_id_once_per_call (K:=sx127x)
                   {| call_data := DInt 0; call_header_to := 2;
                      call_header_flags := 0; call_retries := 0 |}
                   two_calls (station 1 false None 0 None [])
                   two_transmissions)).
  - cbn. lia.
  - vm_compute. reflexivity.
Defined.

(** Witness of C2: a call that returns [True] on an ACK with its sequence
    id, and a call with [retries=1] that returns [False] after two
    iterations in which nothing arrives. *)
Lemma send_to_wait_ack_correlation_witness :
  (exists s' clk',
     send_to_wait (K:=sx127x) Obs (foreground_observe (K:=sx127x))
       (DBytes [104; 105]) 2 0 2
       (station 1 true None 0 None [1 # 2]) third_party_ack
     = Ret true s' clk'
     /\ exists p,
          _last_payload s' = Some p
          /\ header_to p = 1
          /\ Z.land (header_flags p) 0x80 <> 0
          /\ header_id p = 1)
  /\ (exists s' clk',
        send_to_wait (K:=sx127x) Obs (foreground_observe (K:=sx127x))
          (DBytes [104; 105]) 2 0 1
          (station 1 true None 0 None [1 # 2; 1 # 2; 1 # 2; 1 # 2]) no_ack
        = Ret false s' clk'
        /\ failed_attempts (K:=sx127x) Obs (foreground_observe (K:=sx127x))
             (DBytes [104; 105]) 2 0x40 2
             (with_last_header_id 1
                (station 1 true None 0 None [1 # 2; 1 # 2; 1 # 2; 1 # 2]))
             no_ack s' clk').
Proof.
  split.
  - eexists _, _. split; [vm_compute; reflexivity|].
    refine (proj1 (send_to_wait_ack_correlation (K:=sx127x)
                     (DBytes [104; 105]) 2 0 2
                     (station 1 true None 0 None [1 # 2]) third_party_ack
                     true _ _ eq_refl _ _) eq_refl).
    + cbn. discriminate.
    + vm_compute. reflexivity.
  - eexists _, _. split; [vm_compute; reflexivity|].
    refine (proj2 (send_to_wait_ack_correlation (K:=sx127x)
                     (DBytes [104; 105]) 2 0 1
                     (station 1 true None 0 None [1 # 2; 1 # 2; 1 # 2; 1 # 2])
                     no_ack false _ _ eq_refl _ _) eq_refl).
    + cbn. discriminate.
    + vm_compute. reflexivity.
Defined.

(** Counterexample to C2 as stated: device 1 sends to device 2; the only
    packet that ever arrives is an ACK from device 3, and the call returns
    [True]. *)
Lemma ack_from_third_party_accepted :
  exists s' clk',
    send_to_wait (K:=sx127x) Obs (foreground_observe (K:=sx127x)) (DBytes [104; 105]) 2 0 2
      (station 1 true None 0 None [1 # 2]) third_party_ack
    = Ret true s' clk'
    /\ forall p, _last_payload s' = Some p -> header_from p <> 2.
Proof.
  eexists _, _. split; [vm_compute; reflexivity|].
  intros p Hp. injection Hp as <-. cbn. discriminate.
Qed.

(** ** Channel-activity wait and single-attempt send *)

Section SingleSend.

Context {K : Constants}.

Variable E : Type.
Variable observe : E -> LoRa -> seen.

Lemma wait_cad_for_values (start : Q) (n : nat) :
  forall (s : LoRa) (clk : list E) v s' clk',
    (length clk <= n)%nat ->
    wait_cad_for E observe start s clk = Ret v s' clk' ->
    v = PyBool true \/ v = PyNone.
Proof.
  induction n as [|n IH]; intros s clk v s' clk' Hle H.
  - destruct clk; [|cbn in Hle; lia]. cbn in H.
    destruct (_is_channel_active_resume s); [discriminate|].
    injection H as <- _ _. now right.
  - destruct clk as [|e1 clk1]; cbn in H.
    + destruct (_is_channel_active_resume s); [discriminate|].
      injection H as <- _ _. now right.
    + unfold _is_channel_active_resume in H.
      destruct (mode_is s MODE_CAD); [|injection H as <- _ _; now right].
      destruct (observe e1 s) as [t s1|s1]; [|discriminate].
      destruct (Qltb _ _); [injection H as <- _ _; now left|].
      destruct clk1 as [|e2 clk2]; [discriminate|].
      destruct (observe e2 s1) as [t2 s2|s2]; [|discriminate].
      eapply IH; [|exact H]. cbn in Hle. lia.
Qed.

(** A poll that finds the mode still at CAD and the timeout exceeded ends
    the wait with [True]. *)
Lemma wait_cad_for_timeout (start : Q) (s : LoRa) (e : E) (clk : list E)
  (t : Q) (s1 : LoRa) :
  mode_is s MODE_CAD = true ->
  observe e s = Seen t s1 ->
  Qltb (cad_timeout s1) (t - start) = true ->
  wait_cad_for E observe start s (e :: clk) = Ret (PyBool true) s1 clk.
Proof.
  intros Hmode Hobs Hlate. cbn. unfold _is_channel_active_resume.
  now rewrite Hmode, Hobs, Hlate.
Qed.

(** [wait_cad] returns [False], [True] or [None]: never the value the
    handler recorded in [_cad]. *)
Lemma wait_cad_values (s : LoRa) (clk : list E) v s' clk' :
  wait_cad E observe s clk = Ret v s' clk' ->
  v = PyBool false \/ v = PyBool true \/ v = PyNone.
Proof.
  unfold wait_cad, bind, get. intros H.
  destruct (negb (Qtruthy (cad_timeout s))).
  - injection H as <- _ _. now left.
  - destruct (time_time E observe s clk) as [start s1 clk1|x s1 clk1|s1];
      try discriminate.
    unfold modify in H. right.
    eapply wait_cad_for_values; [|exact H]. constructor.
Qed.

(** [send] from the point where its two waits have let it through. *)
Lemma send_loads_any_length (data : pydata) (dest id flags : Z)
  (s : LoRa) (clk : list E) b0 s1 clk1 v s2 clk2 body :
  wait_packet_sent E observe s clk = Ret b0 s1 clk1 ->
  wait_cad E observe s1 clk1 = Ret v s2 clk2 ->
  py_eq_1 v = false ->
  outgoing_data (set_mode_idle s2) (coerce data) = inr body ->
  send E observe data dest id flags s clk
  = wait_packet_sent E observe
      (load_and_transmit ([dest; _this_address s2; id; flags] ++ body)
         (set_mode_idle s2)) clk2.
Proof.
  intros H1 H2 H3 H4. unfold send.
  unfold bind at 1. rewrite H1.
  unfold bind at 1. rewrite H2, H3.
  unfold bind at 1, modify at 1.
  unfold bind at 1, get at 1.
  unfold bind at 1, raise_or at 1. rewrite H4.
  unfold bind at 1, modify at 1.
  replace (_this_address (set_mode_idle s2)) with (_this_address s2)
    by (symmetry; apply (ext_this_address _ _ (enter_extends EnterIdle s2))).
  reflexivity.
Qed.

Lemma load_and_transmit_log (payload : list Z) (s : LoRa) :
  exists l,
    spi_log (load_and_transmit payload s)
    = spi_log s
      ++ [[Z.lor REG_0D_FIFO_ADDR_PTR 0x80; 0];
          Z.lor REG_00_FIFO 0x80 :: payload;
          [Z.lor REG_22_PAYLOAD_LENGTH 0x80; Z.of_nat (length payload)]]
      ++ l.
Proof.
  unfold load_and_transmit.
  destruct (ext_spi_log _ _ (enter_extends EnterTx
              (_spi_write REG_22_PAYLOAD_LENGTH
                 (DInt (Z.of_nat (length payload)))
                 (_spi_write REG_00_FIFO (DList payload)
                    (_spi_write REG_0D_FIFO_ADDR_PTR (DInt 0) s)))))
    as [l Hl].
  exists l. cbn [enter] in Hl. rewrite Hl. cbn.
  now rewrite <- !app_assoc.
Qed.

(** Outside transmit mode, [send] loads the frame and starts the
    transmission with these transactions and no other. *)
Lemma load_and_transmit_starts (payload : list Z) (s : LoRa) :
  mode_is s MODE_TX = false ->
  spi_log (load_and_transmit payload s) = spi_log s ++ transmission payload.
Proof.
  intros Hmode. unfold load_and_transmit, transmission.
  change set_mode_tx with (enter EnterTx).
  rewrite enter_log by exact Hmode.
  rewrite !spi_log_spi_write. cbn [coerce].
  now rewrite <- !app_assoc.
Qed.

Lemma idle_then_transmit (payload : list Z) (s : LoRa) :
  MODE_STDBY <> MODE_TX ->
  spi_log (load_and_transmit payload (set_mode_idle s))
  = spi_log (set_mode_idle s) ++ transmission payload.
Proof.
  intros Hne. apply load_and_transmit_starts.
  exact (mode_is_other _ _ _ (enter_reaches_target EnterIdle s) Hne).
Qed.

End SingleSend.

(** C3.  On a device that waits up to one second for the channel, the
    detection ends with activity detected while the foreground sleeps: the
    handler records 1 in [_cad], and [wait_cad] returns [None]; [send] then
    loads its frame and transmits.  When the detection does not end in time
    [wait_cad] returns [True]. *)
Theorem wait_cad_drops_detection :
  (exists s',
     wait_cad (K:=sx127x) Obs (foreground_observe (K:=sx127x))
       (station 1 false None 1 None []) cad_busy
     = Ret PyNone s' []
     /\ _cad s' = Some 1)
  /\ (exists s',
        send (K:=sx127x) Obs (foreground_observe (K:=sx127x))
          (DBytes [104; 105]) 2 0 0 (station 1 false None 1 None [])
          busy_then_sent
        = Ret true s' []
        /\ _cad s' = Some 1
        /\ In [0x80; 2; 1; 0; 0; 104; 105] (spi_log s'))
  /\ (exists s',
        wait_cad (K:=sx127x) Obs (foreground_observe (K:=sx127x))
          (station 1 false None 1 None []) cad_late
        = Ret (PyBool true) s' []).
Proof.
  split; [|split].
  - eexists. split; vm_compute; reflexivity.
  - eexists. split; [vm_compute; reflexivity|].
    split; [vm_compute; reflexivity|].
    vm_compute. intuition.
  - eexists. vm_compute. reflexivity.
Qed.

(** C4 (amended).  [send] does not look at the length of the frame: once
    its wait for the previous transmission has returned, the channel-activity
    wait has returned something other than 1 and the payload is ready
    (encrypted when a cipher is configured), it goes on as [wait_packet_sent]
    after loading the header and the payload and entering transmit mode; the
    bus log then holds the write of the FIFO pointer, of the whole frame and
    of its length. *)
Theorem send_no_length_check (data : pydata) (dest id flags : Z)
  {K : Constants} (s : LoRa) (clk : list Obs) b0 s1 clk1 v s2 clk2 body :
  wait_packet_sent Obs foreground_observe s clk = Ret b0 s1 clk1 ->
  wait_cad Obs foreground_observe s1 clk1 = Ret v s2 clk2 ->
  py_eq_1 v = false ->
  outgoing_data (set_mode_idle s2) (coerce data) = inr body ->
  let frame := [dest; _this_address s2; id; flags] ++ body in
  send Obs foreground_observe data dest id flags s clk
  = wait_packet_sent Obs foreground_observe
      (load_and_transmit frame (set_mode_idle s2)) clk2
  /\ exists l,
       spi_log (final (send Obs foreground_observe data dest id flags s clk))
       = spi_log (set_mode_idle s2)
         ++ [[Z.lor REG_0D_FIFO_ADDR_PTR 0x80; 0];
             Z.lor REG_00_FIFO 0x80 :: frame;
             [Z.lor REG_22_PAYLOAD_LENGTH 0x80; Z.of_nat (length frame)]]
         ++ l.
Proof.
  intros H1 H2 H3 H4 frame.
  pose proof (send_loads_any_length Obs foreground_observe data dest id flags
                s clk b0 s1 clk1 v s2 clk2 body H1 H2 H3 H4) as Heq.
  fold frame in Heq. split; [exact Heq|].
  rewrite Heq.
  destruct (ext_spi_log _ _
              (frames_wait_packet_sent Obs foreground_observe
                 foreground_observe_extends
                 (load_and_transmit frame (set_mode_idle s2)) clk2))
    as [l2 Hl2].
  destruct (load_and_transmit_log frame (set_mode_idle s2)) as [l1 Hl1].
  exists (l1 ++ l2). rewrite Hl2, Hl1. now rewrite <- !app_assoc.
Qed.

(** Witness of C4: a frame of 256 bytes. *)
Lemma send_no_length_check_witness :
  let frame := [2; 1; 7; 0] ++ repeat 65 252 in
  send (K:=sx127x) Obs (foreground_observe (K:=sx127x))
    (DBytes (repeat 65 252)) 2 7 0 (station 1 false None 0 None [])
    transmitted
  = wait_packet_sent (K:=sx127x) Obs (foreground_observe (K:=sx127x))
      (load_and_transmit (K:=sx127x) frame
         (set_mode_idle (K:=sx127x) (station 1 false None 0 None [])))
      [quiet (2 # 100); after (flagged 0x08) [] (3 # 100)].
Proof.
  refine (proj1 (send_no_length_check (DBytes (repeat 65 252)) 2 7 0
                   (K:=sx127x) (station 1 false None 0 None []) transmitted
                   true (station 1 false None 0 None [])
                   [quiet (2 # 100); after (flagged 0x08) [] (3 # 100)]
                   (PyBool false) (station 1 false None 0 None [])
                   [quiet (2 # 100); after (flagged 0x08) [] (3 # 100)]
                   (repeat 65 252) _ _ _ _)).
  - vm_compute. reflexivity.
  - vm_compute. reflexivity.
  - reflexivity.
  - reflexivity.
Defined.

(** Counterexample to C4 as stated: a payload of 252 bytes makes a frame of
    256; [send] loads all of it, writes 256 as its length, transmits and
    returns [True]. *)
Lemma oversize_frame_sent :
  (255 < length ([2; 1; 7; 0] ++ repeat 65 252))%nat
  /\ exists s',
       send (K:=sx127x) Obs (foreground_observe (K:=sx127x))
         (DBytes (repeat 65 252)) 2 7 0 (station 1 false None 0 None [])
         transmitted
       = Ret true s' []
       /\ In (0x80 :: [2; 1; 7; 0] ++ repeat 65 252) (spi_log s')
       /\ In [0xA2; 256] (spi_log s')
       /\ In [0x81; 0x03] (spi_log s').
Proof.
  split; [cbn; lia|].
  eexists. split; [vm_compute; reflexivity|].
  repeat split; vm_compute; intuition.
Qed.

(** ** The interrupt handler *)

Section Handler.

Context {K : Constants}.

Ltac rx_accepted chip s :=
  fold (rx_bus chip s);
  change (_this_address (rx_bus chip s)) with (_this_address s);
  change (_receive_all (rx_bus chip s)) with (_receive_all s);
  change (_ack (rx_bus chip s)) with (_ack s);
  change (incoming_message (rx_bus chip s)) with (incoming_message s);
  fold (address_filtered chip s); fold (ack_requested chip s);
  destruct (address_filtered chip s); [reflexivity|];
  unfold raise_or at 1;
  destruct (incoming_message s _) as [e|m']; [reflexivity|];
  unfold ack_step, finish, rx_payload, ret, raise_or, _spi_write;
  destruct (ack_requested chip s);
  [destruct (_ack s) as [[|]|]; cbn [negb];
   try destruct (send_ack Q handler_observe _ _ (rx_bus chip s) _)|];
  destruct (negb (truthy (Z.land (nth 3 (packet_of chip) 0) FLAGS_ACK)));
  reflexivity.

(** [_handle_interrupt] takes exactly the paths of [handler_paths]. *)
Lemma handle_interrupt_paths (chip : Chip) (s : LoRa) (clk : list Q) :
  _handle_interrupt chip s clk = handler_paths chip s clk.
Proof.
  unfold _handle_interrupt, handler_paths, is_rx_done.
  unfold bind at 1, modify at 1. unfold bind at 1, get at 1.
  change (mode_is (_spi_read REG_12_IRQ_FLAGS 1 s)) with (mode_is s).
  destruct (mode_is s MODE_RXCONTINUOUS
            && truthy (Z.land (irq_flags chip) RX_DONE)).
  - unfold rx_done, bind, modify, get, ret. cbv beta iota.
    destruct (rx_nb_bytes chip >=? 4); [|reflexivity].
    unfold raw_message. fold (packet_of chip).
    destruct (rx_nb_bytes chip >? 4).
    + unfold raise_or at 1.
      destruct (bytes (skipn 4 (packet_of chip))) as [e|m]; [reflexivity|].
      rx_accepted chip s.
    + rx_accepted chip s.
  - unfold other_events, bind, modify, ret.
    change (mode_is (_spi_read REG_12_IRQ_FLAGS 1 s)) with (mode_is s).
    destruct (mode_is s MODE_TX && truthy (Z.land (irq_flags chip) TX_DONE));
      [reflexivity|].
    destruct (mode_is s MODE_CAD
              && truthy (Z.land (irq_flags chip) CAD_DONE)); [reflexivity|].
    destruct (mode_is s MODE_RXCONTINUOUS
              && truthy (Z.land (irq_flags chip) RX_TIMEOUT)); reflexivity.
Qed.

(** The packet has as many bytes as the chip announced: the header fields
    the handler reads at indices 0 to 3 exist whenever it reads them. *)
Lemma packet_of_length (chip : Chip) :
  length (packet_of chip) = Z.to_nat (rx_nb_bytes chip).
Proof.
  unfold packet_of, fifo_read.
  rewrite firstn_length_le; [reflexivity|].
  rewrite length_app, repeat_length. lia.
Qed.

Lemma rx_bus_log (chip : Chip) (s : LoRa) :
  spi_log (rx_bus chip s) = spi_log s ++ filtered_transactions chip.
Proof.
  unfold rx_bus, _spi_read, _spi_write, xfer, filtered_transactions,
    clear_irq_flags.
  cbn. now rewrite <- !app_assoc.
Qed.

Lemma enter_recv_log (t : transition) (s : LoRa) :
  recv_log (enter t s) = recv_log s.
Proof. rewrite enter_unfold. now destruct (mode_is s (target t)). Qed.

Lemma finish_recv_log (chip : Chip) (m : list Z) (s : LoRa) :
  recv_log (finish chip m s)
  = if negb (truthy (Z.land (nth 3 (packet_of chip) 0) FLAGS_ACK))
    then recv_log s ++ [rx_payload chip m]
    else recv_log s.
Proof.
  unfold finish.
  pose proof (enter_recv_log EnterRx s) as Hrx. cbn [enter] in Hrx.
  destruct (negb (truthy (Z.land (nth 3 (packet_of chip) 0) FLAGS_ACK)));
    cbn [recv_log _spi_write xfer with_spi_log on_recv with_recv_log
         with_last_payload];
    now rewrite Hrx.
Qed.

Lemma finish_spi_log (chip : Chip) (m : list Z) (s : LoRa) :
  exists l, spi_log (finish chip m s) = spi_log s ++ l ++ [clear_irq_flags].
Proof.
  unfold finish.
  destruct (ext_spi_log _ _ (enter_extends EnterRx s)) as [l Hl].
  cbn [enter] in Hl. exists l.
  unfold clear_irq_flags.
  destruct (negb (truthy (Z.land (nth 3 (packet_of chip) 0) FLAGS_ACK)));
    cbn [spi_log _spi_write xfer with_spi_log on_recv with_recv_log
         with_last_payload coerce app];
    rewrite Hl; now rewrite app_assoc.
Qed.

Lemma finish_last_payload (chip : Chip) (m : list Z) (s : LoRa) :
  _last_payload (finish chip m s) = Some (rx_payload chip m).
Proof.
  unfold finish.
  now destruct (negb (truthy (Z.land (nth 3 (packet_of chip) 0) FLAGS_ACK))).
Qed.

Lemma not_for_us (chip : Chip) (s : LoRa) :
  nth 0 (packet_of chip) 0 <> _this_address s ->
  nth 0 (packet_of chip) 0 <> BROADCAST_ADDRESS ->
  address_filtered chip s = negb (_receive_all s)
  /\ ack_requested chip s = false.
Proof.
  intros Hthis Hall. unfold address_filtered, ack_requested.
  assert (H1 : (_this_address s =? nth 0 (packet_of chip) 0) = false)
    by (apply Z.eqb_neq; congruence).
  assert (H2 : (BROADCAST_ADDRESS =? nth 0 (packet_of chip) 0) = false)
    by (apply Z.eqb_neq; congruence).
  assert (H3 : (nth 0 (packet_of chip) 0 =? _this_address s) = false)
    by (now apply Z.eqb_neq).
  now rewrite H1, H2, H3.
Qed.

(** C7 (amended).  On a received packet of at least 4 bytes whose
    destination is neither this device nor the broadcast address: with
    [receive_all] false, [on_recv] is not called, however the invocation
    ends; with [receive_all] true, the invocation returns after one call of
    [on_recv] with the packet, provided the packet is not an ACK and the
    message, decrypted when the handler decides to, is obtained without an
    exception. *)
Theorem filter_and_delivery (chip : Chip) (s : LoRa) (clk : list Q) :
  is_rx_done chip s = true ->
  4 <= rx_nb_bytes chip ->
  nth 0 (packet_of chip) 0 <> _this_address s ->
  nth 0 (packet_of chip) 0 <> BROADCAST_ADDRESS ->
  (_receive_all s = false ->
   recv_log (final (_handle_interrupt chip s clk)) = recv_log s)
  /\ (_receive_all s = true ->
      forall m m',
        raw_message chip = inr m ->
        incoming_message s m = inr m' ->
        Z.land (nth 3 (packet_of chip) 0) FLAGS_ACK = 0 ->
        exists s',
          _handle_interrupt chip s clk = Ret tt s' clk
          /\ recv_log s' = recv_log s ++ [rx_payload chip m']).
Proof.
  intros Hrx Hlen Hthis Hall.
  destruct (not_for_us chip s Hthis Hall) as [Hfilter Hack].
  rewrite handle_interrupt_paths. unfold handler_paths.
  rewrite Hrx. apply Z.geb_le in Hlen. rewrite Hlen.
  split.
  - intros Hra. rewrite Hfilter, Hra. cbn [negb].
    destruct (raw_message chip); reflexivity.
  - intros Hra m m' Hraw Hin Hflag.
    rewrite Hfilter, Hra, Hraw, Hin. cbn [negb].
    unfold ack_step. rewrite Hack. unfold ret.
    eexists. split; [reflexivity|].
    rewrite finish_recv_log, Hflag. reflexivity.
Qed.

(** C8 (amended).  An invocation that returns has cleared the interrupt
    flags: when the address filter drops a received packet, by the write in
    the reception branch, after which it only reads the SNR and RSSI
    registers and returns; on every other path the write that clears the
    flags is its last bus transaction. *)
Theorem handler_clears_flags (chip : Chip) (s : LoRa) (clk : list Q)
  (s' : LoRa) (clk' : list Q) :
  _handle_interrupt chip s clk = Ret tt s' clk' ->
  if is_rx_done chip s && (rx_nb_bytes chip >=? 4) && address_filtered chip s
  then spi_log s' = spi_log s ++ filtered_transactions chip
  else exists l, spi_log s' = l ++ [clear_irq_flags].
Proof.
  rewrite handle_interrupt_paths. unfold handler_paths.
  destruct (is_rx_done chip s); cbn [andb].
  - destruct (rx_nb_bytes chip >=? 4); cbn [andb].
    + destruct (raw_message chip) as [e|m]; [discriminate|].
      destruct (address_filtered chip s).
      * intros H. injection H as <- _. apply rx_bus_log.
      * destruct (incoming_message s m) as [e|m']; [discriminate|].
        destruct (ack_step chip s (rx_bus chip s) clk)
          as [u s1 clk1|e s1 clk1|s1]; try discriminate.
        intros H. injection H as <- _.
        destruct (finish_spi_log chip m' s1) as [l Hl].
        exists (spi_log s1 ++ l). rewrite Hl. now rewrite app_assoc.
    + intros H. injection H as <- _.
      exists (spi_log (rx_bus chip s)). reflexivity.
  - intros H. injection H as <- _.
    eexists. reflexivity.
Qed.

(** C10.  On a received packet of exactly 4 bytes that passes the address
    filter while a cipher is configured, the message the handler goes on
    with is [_decrypt] of the empty message: when the cipher's [decrypt]
    returns nothing for it, the invocation raises [IndexError] right after
    its bus reads; when it returns [n] followed by [rest], an invocation that
    returns has published the slice [1:n+1] of that, and has passed it to
    [on_recv] last when the packet is not an ACK. *)
Theorem empty_message_decrypted (chip : Chip) (s : LoRa) (clk : list Q)
  (c : Cipher) :
  is_rx_done chip s = true ->
  rx_nb_bytes chip = 4 ->
  address_filtered chip s = false ->
  crypto s = Some c ->
  raw_message chip = inr []
  /\ incoming_message s [] = _decrypt c []
  /\ (decrypt c [] = [] ->
      _handle_interrupt chip s clk = Raise IndexError (rx_bus chip s) clk)
  /\ (forall n rest s' clk',
        decrypt c [] = n :: rest ->
        _handle_interrupt chip s clk = Ret tt s' clk' ->
        let delivered := rx_payload chip (py_slice (n :: rest) 1 (n + 1)) in
        _last_payload s' = Some delivered
        /\ (Z.land (nth 3 (packet_of chip) 0) FLAGS_ACK = 0 ->
            exists l, recv_log s' = l ++ [delivered])).
Proof.
  intros Hrx Hlen Hfilter Hc.
  assert (Hraw : raw_message chip = inr [])
    by (unfold raw_message; now rewrite Hlen).
  assert (Hin : incoming_message s [] = _decrypt c [])
    by (unfold incoming_message; now rewrite Hc).
  split; [exact Hraw|]. split; [exact Hin|].
  rewrite handle_interrupt_paths. unfold handler_paths.
  rewrite Hrx, Hlen, Hraw, Hfilter, Hin. cbn [Z.geb Z.compare Pos.compare
    Pos.compare_cont]. unfold _decrypt.
  split.
  - intros ->. reflexivity.
  - intros n rest s' clk' ->.
    destruct (ack_step chip s (rx_bus chip s) clk)
      as [u s1 clk1|e s1 clk1|s1]; try discriminate.
    intros H. injection H as <- _. split; [apply finish_last_payload|].
    intros Hflag. rewrite finish_recv_log, Hflag. now exists (recv_log s1).
Qed.





Lemma extends_In (x : list Z) (s s' : LoRa) :
  extends s s' -> In x (spi_log s) -> In x (spi_log s').
Proof.
  intros Hext Hin. destruct (ext_spi_log _ _ Hext) as [l ->].
  apply in_or_app. now left.
Qed.




Lemma frame_loaded (frame : list Z) (s : LoRa) :
  In (Z.lor REG_00_FIFO 0x80 :: frame) (spi_log (load_and_transmit frame s)).
Proof.
  destruct (load_and_transmit_log frame s) as [l Hl]. rewrite Hl.
  apply in_or_app. right. apply in_or_app. left.
  right. left. reflexivity.
Qed.





End Handler.

(** Witness of C6. *)
Lemma encryption_round_trip_witness :
  exists padding,
    Forall (fun b => b = 0) padding
    /\ (length padding < 16)%nat
    /\ Z.of_nat (length (Z.of_nat (length [104; 105])
                         :: [104; 105] ++ padding)) mod 16 = 0
    /\ _encrypt reversing_cipher [104; 105]
       = inr (encrypt reversing_cipher
                (Z.of_nat (length [104; 105]) :: [104; 105] ++ padding))
    /\ _decrypt reversing_cipher
         (encrypt reversing_cipher
            (Z.of_nat (length [104; 105]) :: [104; 105] ++ padding))
       = inr [104; 105].
Proof.
  apply (encryption_round_trip reversing_cipher [104; 105]).
  - intros m _. apply rev_involutive.
  - cbn. lia.
Defined.



(** On the object as the class builds it, where nothing assigns [_ack], the
    same packet ends the invocation with [AttributeError] before anything is
    sent or published. *)
Remark missing_attribute_raises :
  exists s',
    _handle_interrupt (K:=sx127x) (received [1; 2; 7; 0x40])
      (station 1 false None 0 None []) ack_clock
    = Raise AttributeError s' ack_clock
    /\ _last_payload s' = None
    /\ recv_log s' = []
    /\ ~ In [0x80; 2; 1; 7; 0x80; 33] (spi_log s').
Proof.
  eexists. split; [vm_compute; reflexivity|].
  repeat split; vm_compute; intuition discriminate.
Qed.

(** Witness of C7: a packet for device 9 on device 1, without and with
    [receive_all]. *)
Lemma filter_and_delivery_witness :
  recv_log (final (_handle_interrupt (K:=sx127x) (received [9; 3; 1; 0])
                     (station 1 false None 0 None []) []))
  = []
  /\ exists s',
       _handle_interrupt (K:=sx127x) (received [9; 3; 1; 0]) (promiscuous 1) []
       = Ret tt s' []
       /\ recv_log s'
          = [] ++ [rx_payload (received [9; 3; 1; 0]) []].
Proof.
  split.
  - refine (proj1 (filter_and_delivery (K:=sx127x) (received [9; 3; 1; 0])
                     (station 1 false None 0 None []) [] _ _ _ _) eq_refl).
    + reflexivity.
    + cbn. lia.
    + cbn. discriminate.
    + cbn. discriminate.
  - refine (proj2 (filter_and_delivery (K:=sx127x) (received [9; 3; 1; 0])
                     (promiscuous 1) [] _ _ _ _) eq_refl [] [] _ _ _).
    + reflexivity.
    + cbn. lia.
    + cbn. discriminate.
    + cbn. discriminate.
    + reflexivity.
    + reflexivity.
    + reflexivity.
Defined.

(** Counterexample to C7 as stated: with [receive_all] true, an ACK for
    device 9 is handled to the end on device 1 and [on_recv] is not called. *)
Lemma ack_not_delivered :
  exists s',
    _handle_interrupt (K:=sx127x) (received [9; 3; 1; 0x80]) (promiscuous 1) []
    = Ret tt s' []
    /\ _receive_all (promiscuous 1) = true
    /\ recv_log s' = [].
Proof.
  eexists. split; [vm_compute; reflexivity|]. split; reflexivity.
Qed.

(** Witness of C8: a reception for device 9 and a reception for device 1,
    on device 1. *)
Lemma handler_clears_flags_witness :
  (exists s',
     _handle_interrupt (K:=sx127x) (received [9; 3; 1; 0])
       (station 1 false None 0 None []) []
     = Ret tt s' []
     /\ spi_log s'
        = [] ++ filtered_transactions (K:=sx127x) (received [9; 3; 1; 0]))
  /\ (exists s',
        _handle_interrupt (K:=sx127x) (received [1; 3; 1; 0])
          (station 1 false None 0 None []) []
        = Ret tt s' []
        /\ exists l, spi_log s' = l ++ [clear_irq_flags (K:=sx127x)]).
Proof.
  split.
  - eexists. split; [vm_compute; reflexivity|].
    refine (handler_clears_flags (K:=sx127x) (received [9; 3; 1; 0])
              (station 1 false None 0 None []) [] _ [] _).
    vm_compute. reflexivity.
  - eexists. split; [vm_compute; reflexivity|].
    refine (handler_clears_flags (K:=sx127x) (received [1; 3; 1; 0])
              (station 1 false None 0 None []) [] _ [] _).
    vm_compute. reflexivity.
Defined.

(** Counterexample to C8 as stated: the invocation on a packet for device 9
    returns on device 1 with the read of the RSSI register as its last bus
    transaction, two transactions after the write that clears the flags. *)
Lemma filtered_return_skips_final_clear :
  exists s',
    _handle_interrupt (K:=sx127x) (received [9; 3; 1; 0])
      (station 1 false None 0 None []) []
    = Ret tt s' []
    /\ last (spi_log s') [] = [0x1a; 0]
    /\ last (spi_log s') [] <> clear_irq_flags (K:=sx127x).
Proof.
  eexists. split; [vm_compute; reflexivity|].
  split; vm_compute; [reflexivity|discriminate].
Qed.

(** Witness of C10: a packet of 4 bytes for device 1, with a cipher whose
    [decrypt] returns the empty input as it is. *)
Lemma empty_message_decrypted_witness :
  _handle_interrupt (K:=sx127x) (received [1; 2; 7; 0])
    (station 1 false None 0 (Some identity_cipher) []) []
  = Raise IndexError
      (rx_bus (K:=sx127x) (received [1; 2; 7; 0])
         (station 1 false None 0 (Some identity_cipher) [])) [].
Proof.
  refine (proj1 (proj2 (proj2
            (empty_message_decrypted (K:=sx127x) (received [1; 2; 7; 0])
               (station 1 false None 0 (Some identity_cipher) []) []
               identity_cipher _ _ _ _))) eq_refl).
  - reflexivity.
  - reflexivity.
  - reflexivity.
  - reflexivity.
Defined.

(** * Further properties *)

(** ** Construction *)

Section ConstructionProperties.

Context {K : Constants} {I : InitConstants}.

Lemma set_tx_power_spec (tx_power : Z) (s : LoRa) :
  let p := Z.min 23 (Z.max 5 tx_power) in
  let kept := if 20 <? p then p - 3 else p in
  set_tx_power tx_power s
  = (kept,
     with_spi_log
       (spi_log s
        ++ [[Z.lor REG_4D_PA_DAC 0x80;
             if 20 <? tx_power then PA_DAC_ENABLE else PA_DAC_DISABLE];
            [Z.lor REG_09_PA_CONFIG 0x80; Z.lor PA_SELECT (kept - 5)]]) s).
Proof.
  cbv zeta. unfold set_tx_power.
  destruct (tx_power <? 5) eqn:H5.
  - apply Z.ltb_lt in H5.
    rewrite (Z.max_l 5 tx_power), (Z.min_r 23 5) by lia.
    replace (20 <? tx_power) with false by (symmetry; apply Z.ltb_ge; lia).
    cbn. unfold _spi_write, xfer. cbn. now rewrite <- app_assoc.
  - apply Z.ltb_ge in H5. rewrite (Z.max_r 5 tx_power) by lia.
    destruct (tx_power >? 23) eqn:H23.
    + apply Z.gtb_lt in H23. rewrite (Z.min_l 23 tx_power) by lia.
      replace (20 <? tx_power) with true by (symmetry; apply Z.ltb_lt; lia).
      cbn. unfold _spi_write, xfer. cbn. now rewrite <- app_assoc.
    + assert (H23' : tx_power <= 23)
        by (destruct (Z.gtb_spec tx_power 23); [discriminate|lia]).
      rewrite (Z.min_r 23 tx_power) by lia.
      rewrite (Z.gtb_ltb tx_power 20).
      destruct (20 <? tx_power);
        unfold _spi_write, xfer; cbn; now rewrite <- app_assoc.
Qed.

Lemma constructed_inv (spiport : option Z) (op_mode : Z) (rnd : list Q)
  (channel interrupt this_address : Z) (reset_pin : option Z)
  (freq : number) (tx_power : Z) (modem_config : ModemConfig)
  (receive_all acks : bool) (cipher : option Cipher) (default_mode : Z)
  (r : Radio) :
  __init__ spiport op_mode rnd channel interrupt this_address reset_pin freq
    tx_power modem_config receive_all acks cipher default_mode
  = Constructed r ->
  exists port set_default_mode s0 frf,
    spiport = Some port
    /\ frf_of freq = inr frf
    /\ select_default_mode default_mode = Some set_default_mode
    /\ op_mode = Z.lor MODE_SLEEP LONG_RANGE_MODE
    /\ spi_log s0
       = [[Z.lor REG_01_OP_MODE 0x80; Z.lor MODE_SLEEP LONG_RANGE_MODE];
          [REG_01_OP_MODE; 0]]
    /\ _mode s0 = None
    /\ _ack s0 = None
    /\ _cad s0 = None
    /\ _last_payload s0 = None
    /\ _last_header_id s0 = 0
    /\ recv_log s0 = []
    /\ _set_default_mode s0 = set_default_mode
    /\ lora r = snd (set_tx_power tx_power (configure frf modem_config s0))
    /\ _tx_power r = fst (set_tx_power tx_power (configure frf modem_config s0)).
Proof.
  unfold __init__. intros H.
  destruct spiport as [port|]; [|discriminate].
  destruct (select_default_mode default_mode) as [d|]; [|discriminate].
  destruct (op_mode =? Z.lor MODE_SLEEP LONG_RANGE_MODE) eqn:Hop;
    [|discriminate].
  apply Z.eqb_eq in Hop.
  destruct (frf_of freq) as [e|frf]; [discriminate|].
  match type of H with
  | context [configure frf modem_config ?s] => set (s0 := s) in *
  end.
  destruct (set_tx_power tx_power (configure frf modem_config s0))
    as [p s1] eqn:Hp.
  injection H as <-.
  exists port, d, s0, frf. cbn. rewrite Hp. repeat split; auto.
Qed.

Lemma configure_frames (frf : Z) (modem_config : ModemConfig) (s : LoRa) :
  extends s (configure frf modem_config s)
  /\ _cad (configure frf modem_config s) = _cad s
  /\ _last_payload (configure frf modem_config s) = _last_payload s
  /\ recv_log (configure frf modem_config s) = recv_log s
  /\ mode_is (configure frf modem_config s) MODE_STDBY = true.
Proof.
  unfold configure, set_frequency, configure_modem. destruct (value modem_config) as [[c1 c2] c3].
  set (sa := _spi_write REG_0F_FIFO_RX_BASE_ADDR (DInt 0)
               (_spi_write REG_0E_FIFO_TX_BASE_ADDR (DInt 0) s)).
  pose proof (enter_reaches_target EnterIdle sa) as Hmode.
  pose proof (enter_extends EnterIdle sa) as Hext.
  cbn [enter target] in Hmode, Hext.
  assert (Hsame : _cad (set_mode_idle sa) = _cad s
                  /\ _last_payload (set_mode_idle sa) = _last_payload s
                  /\ recv_log (set_mode_idle sa) = recv_log s).
  { unfold set_mode_idle. destruct (negb (mode_is sa MODE_STDBY)); now cbn. }
  destruct Hsame as (Hcad & Hpay & Hrecv).
  split; [|split; [exact Hcad|split; [exact Hpay|split;
    [exact Hrecv|exact Hmode]]]].
  repeat (eapply extends_trans; [|apply _spi_write_extends]).
  eapply extends_trans; [|exact Hext].
  unfold sa.
  repeat (eapply extends_trans; [|apply _spi_write_extends]).
  apply extends_refl.
Qed.

(** X1.  Whatever power is asked for, a constructed object keeps a power
    between 5 and 20: the request clamped to 5..23, less 3 when that exceeds
    20.  The last two bus transactions of the constructor switch the
    amplifier boost on exactly when more than 20 was asked for, and write
    the kept power less 5, a number from 0 to 15, next to [PA_SELECT]. *)
Theorem tx_power_clamped (spiport : option Z) (op_mode : Z) (rnd : list Q)
  (channel interrupt this_address : Z) (reset_pin : option Z)
  (freq : number) (tx_power : Z) (modem_config : ModemConfig)
  (receive_all acks : bool) (cipher : option Cipher) (default_mode : Z)
  (r : Radio) :
  __init__ spiport op_mode rnd channel interrupt this_address reset_pin freq
    tx_power modem_config receive_all acks cipher default_mode
  = Constructed r ->
  let p := Z.min 23 (Z.max 5 tx_power) in
  _tx_power r = (if 20 <? p then p - 3 else p)
  /\ 5 <= _tx_power r <= 20
  /\ 0 <= _tx_power r - 5 <= 15
  /\ exists earlier,
       spi_log (lora r)
       = earlier
         ++ [[Z.lor REG_4D_PA_DAC 0x80;
              if 20 <? tx_power then PA_DAC_ENABLE else PA_DAC_DISABLE];
             [Z.lor REG_09_PA_CONFIG 0x80;
              Z.lor PA_SELECT (_tx_power r - 5)]].
Proof.
  intros H p.
  destruct (constructed_inv _ _ _ _ _ _ _ _ _ _ _ _ _ _ _ H)
    as (port & d & s0 & frf & _ & _ & _ & _ & _ & _ & _ & _ & _ & _ & _ & _
        & Hl & Ht).
  rewrite set_tx_power_spec in Hl, Ht. cbn [fst snd] in Hl, Ht.
  fold p in Hl, Ht.
  assert (Hkept : 5 <= (if 20 <? p then p - 3 else p) <= 20).
  { unfold p. destruct (Z.ltb_spec 20 (Z.min 23 (Z.max 5 tx_power))); lia. }
  rewrite Ht. repeat split; try lia.
  exists (spi_log (configure frf modem_config s0)). now rewrite Hl.
Qed.

Lemma frf_bytes (frf : Z) :
  let msb := Z.land (Z.shiftr frf 16) 0xff in
  let mid := Z.land (Z.shiftr frf 8) 0xff in
  let lsb := Z.land frf 0xff in
  0 <= msb <= 255 /\ 0 <= mid <= 255 /\ 0 <= lsb <= 255
  /\ 65536 * msb + 256 * mid + lsb = frf mod 16777216.
Proof.
  cbv zeta. rewrite !land_0xFF, !Z.shiftr_div_pow2 by lia.
  change (2 ^ 16) with 65536. change (2 ^ 8) with 256.
  Z.div_mod_to_equations. lia.
Qed.

(** The bus transactions of the constructor on a chip that answers, up to
    the preamble length. *)
Lemma configure_modem_log (modem_config : ModemConfig) (s : LoRa) :
  _mode s = None ->
  spi_log (configure_modem modem_config s)
  = spi_log s
    ++ [[Z.lor REG_0E_FIFO_TX_BASE_ADDR 0x80; 0];
        [Z.lor REG_0F_FIFO_RX_BASE_ADDR 0x80; 0];
        [Z.lor REG_01_OP_MODE 0x80; MODE_STDBY];
        [Z.lor REG_1D_MODEM_CONFIG1 0x80; fst (fst (value modem_config))];
        [Z.lor REG_1E_MODEM_CONFIG2 0x80; snd (fst (value modem_config))];
        [Z.lor REG_26_MODEM_CONFIG3 0x80; snd (value modem_config)];
        [Z.lor REG_20_PREAMBLE_MSB 0x80; 0];
        [Z.lor REG_21_PREAMBLE_LSB 0x80; 8]].
Proof.
  intros Hmode. unfold configure_modem.
  destruct (value modem_config) as [[c1 c2] c3]. cbn [fst snd].
  unfold set_mode_idle, mode_is.
  cbn [_mode _spi_write xfer with_spi_log]. rewrite Hmode. cbn [negb].
  unfold _spi_write, xfer.
  cbn [spi_log with_spi_log with_mode coerce app].
  now rewrite <- !app_assoc.
Qed.

Lemma configure_log (frf : Z) (modem_config : ModemConfig) (s : LoRa) :
  spi_log (configure frf modem_config s)
  = spi_log (configure_modem modem_config s)
    ++ [[Z.lor REG_06_FRF_MSB 0x80; Z.land (Z.shiftr frf 16) 0xff];
        [Z.lor REG_07_FRF_MID 0x80; Z.land (Z.shiftr frf 8) 0xff];
        [Z.lor REG_08_FRF_LSB 0x80; Z.land frf 0xff]].
Proof.
  unfold configure, set_frequency.
  generalize (configure_modem modem_config s) as before. intros before.
  unfold _spi_write, xfer. cbn [spi_log with_spi_log coerce app].
  now rewrite <- !app_assoc.
Qed.

Lemma frf_of_errors (freq : number) (e : construction_error) :
  frf_of freq = inl e ->
  e = OverflowError_frequency \/ e = ZeroDivisionError_frequency
  \/ e = ValueError_frequency.
Proof.
  unfold frf_of.
  destruct (match freq with Int z => float_of_int z | Float x => Some x end)
    as [x|]; [|intros H; injection H as <-; auto].
  destruct (PrimFloat.eqb FSTEP 0); [intros H; injection H as <-; auto|].
  unfold py_int. destruct (FloatOps.Prim2SF _); intros H; try discriminate;
    injection H as <-; auto.
Qed.

(** X2.  The three frequency registers of a constructed object receive
    three bytes, most significant first, that make up [frf] modulo 2^24,
    where [frf] is [int((freq * 1000000.0) / FSTEP)] as binary64 arithmetic
    gives it: all of [frf] when it is below 2^24 and not negative. *)
Theorem frequency_registers (spiport : option Z) (op_mode : Z)
  (rnd : list Q) (channel interrupt this_address : Z) (reset_pin : option Z)
  (freq : number) (tx_power : Z) (modem_config : ModemConfig)
  (receive_all acks : bool) (cipher : option Cipher) (default_mode : Z)
  (r : Radio) :
  __init__ spiport op_mode rnd channel interrupt this_address reset_pin freq
    tx_power modem_config receive_all acks cipher default_mode
  = Constructed r ->
  exists frf earlier msb mid lsb pa_dac pa_config,
    frf_of freq = inr frf
    /\ spi_log (lora r)
       = earlier
         ++ [[Z.lor REG_06_FRF_MSB 0x80; msb];
             [Z.lor REG_07_FRF_MID 0x80; mid];
             [Z.lor REG_08_FRF_LSB 0x80; lsb];
             pa_dac; pa_config]
    /\ 0 <= msb <= 255 /\ 0 <= mid <= 255 /\ 0 <= lsb <= 255
    /\ 65536 * msb + 256 * mid + lsb = frf mod 16777216
    /\ (0 <= frf < 16777216 -> 65536 * msb + 256 * mid + lsb = frf).
Proof.
  intros H.
  destruct (constructed_inv _ _ _ _ _ _ _ _ _ _ _ _ _ _ _ H)
    as (port & d & s0 & frf & _ & Hfrf & _ & _ & _ & _ & _ & _ & _ & _ & _
        & _ & Hl & _).
  rewrite set_tx_power_spec in Hl. cbn [snd] in Hl.
  destruct (frf_bytes frf) as (H2 & H1 & H0 & Hsum).
  exists frf, (spi_log (configure_modem modem_config s0)),
    (Z.land (Z.shiftr frf 16) 0xff), (Z.land (Z.shiftr frf 8) 0xff),
    (Z.land frf 0xff).
  eexists _, _. split; [exact Hfrf|]. split.
  - rewrite Hl. cbn [spi_log with_spi_log]. rewrite configure_log.
    rewrite <- app_assoc. reflexivity.
  - repeat split; try lia.
    intros Hr. rewrite Hsum. now apply Z.mod_small.
Qed.

(** X3.  How a call of the constructor ends.  It fails on the name
    [spiport] or on a default mode other than 0, 1 and 2 before it has
    touched the platform or the bus.  It fails on a chip whose mode register
    does not read back as sleep in long-range mode after exactly one write
    and one read on the bus, with the interrupt callback already registered.
    It fails on a frequency whose [frf] cannot be computed after ten bus
    transactions, the chip in standby with its modem configuration and
    preamble length written.  In every other case it returns an object. *)
Theorem construction_outcomes (spiport : option Z) (op_mode : Z)
  (rnd : list Q) (channel interrupt this_address : Z) (reset_pin : option Z)
  (freq : number) (tx_power : Z) (modem_config : ModemConfig)
  (receive_all acks : bool) (cipher : option Cipher) (default_mode : Z) :
  match
    __init__ spiport op_mode rnd channel interrupt this_address reset_pin
      freq tx_power modem_config receive_all acks cipher default_mode
  with
  | Failed NameError_spiport platform bus =>
    spiport = None /\ platform = [] /\ bus = []
  | Failed ValueError_default_mode platform bus =>
    spiport <> None
    /\ default_mode <> 0 /\ default_mode <> 1 /\ default_mode <> 2
    /\ platform = [] /\ bus = []
  | Failed AssertionError_initialization platform bus =>
    spiport <> None
    /\ 0 <= default_mode <= 2
    /\ op_mode <> Z.lor MODE_SLEEP LONG_RANGE_MODE
    /\ In (GPIO_add_event_detect_RISING interrupt) platform
    /\ bus = [[Z.lor REG_01_OP_MODE 0x80; Z.lor MODE_SLEEP LONG_RANGE_MODE];
              [REG_01_OP_MODE; 0]]
  | Failed ((OverflowError_frequency | ZeroDivisionError_frequency
             | ValueError_frequency) as e) platform bus =>
    spiport <> None
    /\ 0 <= default_mode <= 2
    /\ op_mode = Z.lor MODE_SLEEP LONG_RANGE_MODE
    /\ frf_of freq = inl e
    /\ In (GPIO_add_event_detect_RISING interrupt) platform
    /\ bus = [[Z.lor REG_01_OP_MODE 0x80; Z.lor MODE_SLEEP LONG_RANGE_MODE];
              [REG_01_OP_MODE; 0];
              [Z.lor REG_0E_FIFO_TX_BASE_ADDR 0x80; 0];
              [Z.lor REG_0F_FIFO_RX_BASE_ADDR 0x80; 0];
              [Z.lor REG_01_OP_MODE 0x80; MODE_STDBY];
              [Z.lor REG_1D_MODEM_CONFIG1 0x80;
               fst (fst (value modem_config))];
              [Z.lor REG_1E_MODEM_CONFIG2 0x80;
               snd (fst (value modem_config))];
              [Z.lor REG_26_MODEM_CONFIG3 0x80; snd (value modem_config)];
              [Z.lor REG_20_PREAMBLE_MSB 0x80; 0];
              [Z.lor REG_21_PREAMBLE_LSB 0x80; 8]]
  | Constructed r =>
    spiport <> None
    /\ 0 <= default_mode <= 2
    /\ op_mode = Z.lor MODE_SLEEP LONG_RANGE_MODE
    /\ exists frf, frf_of freq = inr frf
  end.
Proof.
  unfold __init__.
  destruct spiport as [port|]; [|auto].
  assert (Hport : Some port <> None) by discriminate.
  assert (Hevent : In (GPIO_add_event_detect_RISING interrupt)
                     (platform_setup channel interrupt reset_pin
                      ++ [time_sleep (1 # 10)])).
  { unfold platform_setup. cbn. auto. }
  destruct (select_default_mode default_mode) as [d|] eqn:Hd.
  - assert (Hrange : 0 <= default_mode <= 2).
    { unfold select_default_mode in Hd.
      destruct (Z.eqb_spec default_mode 0); [lia|].
      destruct (Z.eqb_spec default_mode 1); [lia|].
      destruct (Z.eqb_spec default_mode 2); [lia|discriminate]. }
    destruct (Z.eqb_spec op_mode (Z.lor MODE_SLEEP LONG_RANGE_MODE))
      as [Hop|Hop]; [|repeat split; auto; lia].
    destruct (frf_of freq) as [e|frf] eqn:Hfrf.
    + rewrite configure_modem_log by reflexivity.
      destruct (frf_of_errors freq e Hfrf) as [->|[->| ->]];
        repeat split; auto; lia.
    + destruct (set_tx_power _ _) as [p s1].
      repeat split; auto; try lia. now exists frf.
  - unfold select_default_mode in Hd.
    destruct (Z.eqb_spec default_mode 0); [discriminate|].
    destruct (Z.eqb_spec default_mode 1); [discriminate|].
    destruct (Z.eqb_spec default_mode 2); [discriminate|].
    repeat split; auto.
Qed.

End ConstructionProperties.

(** ** The interrupt handler, branch by branch *)

Section HandlerBranches.

Context {K : Constants}.

Lemma handler_no_event (chip : Chip) (s : LoRa) (clk : list Q) :
  mode_is s MODE_RXCONTINUOUS = false ->
  mode_is s MODE_TX = false ->
  mode_is s MODE_CAD = false ->
  _handle_interrupt chip s clk = Ret tt (flags_only s) clk.
Proof.
  intros Hrx Htx Hcad. rewrite handle_interrupt_paths.
  unfold handler_paths, is_rx_done, other_events, flags_only.
  change (mode_is (_spi_read REG_12_IRQ_FLAGS 1 s)) with (mode_is s).
  now rewrite Hrx, Htx, Hcad.
Qed.

(** What an invocation publishes when it handles an accepted packet to the
    end. *)
Lemma handler_publishes (chip : Chip) (s : LoRa) (clk : list Q) (s' : LoRa)
  (clk' : list Q) :
  is_rx_done chip s = true ->
  4 <= rx_nb_bytes chip ->
  address_filtered chip s = false ->
  _handle_interrupt chip s clk = Ret tt s' clk' ->
  exists m m',
    raw_message chip = inr m
    /\ incoming_message s m = inr m'
    /\ _last_payload s' = Some (rx_payload chip m')
    /\ mode_is s' MODE_RXCONTINUOUS = true.
Proof.
  intros Hrx Hlen Hfilter. rewrite handle_interrupt_paths.
  unfold handler_paths. apply Z.geb_le in Hlen. rewrite Hrx, Hlen.
  destruct (raw_message chip) as [e|m]; [discriminate|].
  rewrite Hfilter.
  destruct (incoming_message s m) as [e|m'] eqn:Hin; [discriminate|].
  destruct (ack_step chip s (rx_bus chip s) clk)
    as [u s1 clk1|e s1 clk1|s1]; try discriminate.
  intros H. injection H as <- _.
  exists m, m'.
  split; [reflexivity|split; [exact Hin|split;
    [apply finish_last_payload|]]].
  unfold finish.
  destruct (negb (truthy (Z.land (nth 3 (packet_of chip) 0) FLAGS_ACK)));
    apply (enter_reaches_target EnterRx).
Qed.

(** X5.  A completed reception of fewer than 4 bytes is dropped: the
    invocation returns after its bus reads and two clearing writes, without
    calling [on_recv] and without touching the last payload or the mode. *)
Theorem short_packet_dropped (chip : Chip) (s : LoRa) (clk : list Q) :
  is_rx_done chip s = true ->
  rx_nb_bytes chip < 4 ->
  exists s',
    _handle_interrupt chip s clk = Ret tt s' clk
    /\ recv_log s' = recv_log s
    /\ _last_payload s' = _last_payload s
    /\ _mode s' = _mode s
    /\ spi_log s'
       = spi_log s ++ filtered_transactions chip ++ [clear_irq_flags].
Proof.
  intros Hrx Hlen. rewrite handle_interrupt_paths. unfold handler_paths.
  assert (Hge : (rx_nb_bytes chip >=? 4) = false).
  { rewrite Z.geb_leb. apply Z.leb_gt. lia. }
  rewrite Hrx, Hge. eexists. split; [reflexivity|].
  repeat split.
  cbn [spi_log _spi_write xfer with_spi_log coerce app].
  rewrite rx_bus_log. now rewrite <- app_assoc.
Qed.

Lemma enter_keeps (t : transition) (s : LoRa) :
  _mode (enter t s) = Some (target t)
  /\ _cad (enter t s) = _cad s
  /\ _last_payload (enter t s) = _last_payload s
  /\ recv_log (enter t s) = recv_log s.
Proof.
  rewrite enter_unfold. destruct (mode_is s (target t)) eqn:Hm.
  - apply mode_is_exact in Hm. now repeat split.
  - now repeat split.
Qed.

Lemma call_set_default_mode_keeps (s : LoRa) :
  _mode (call_set_default_mode s)
  = Some (default_target (_set_default_mode s))
  /\ _cad (call_set_default_mode s) = _cad s
  /\ _last_payload (call_set_default_mode s) = _last_payload s
  /\ recv_log (call_set_default_mode s) = recv_log s.
Proof.
  unfold call_set_default_mode.
  destruct (_set_default_mode s); cbn [default_target].
  - apply (enter_keeps EnterRx).
  - apply (enter_keeps EnterIdle).
  - apply (enter_keeps EnterSleep).
Qed.

(** X6.  When a transmission completes (mode TX, TxDone raised) the
    invocation enters the default mode chosen at construction and clears the
    flags; it does not touch the channel-activity result, the last payload
    or the callback. *)
Theorem tx_done_enters_default_mode (chip : Chip) (s : LoRa) (clk : list Q) :
  MODE_TX <> MODE_RXCONTINUOUS ->
  mode_is s MODE_TX = true ->
  Z.land (irq_flags chip) TX_DONE <> 0 ->
  exists s',
    _handle_interrupt chip s clk = Ret tt s' clk
    /\ _mode s' = Some (default_target (_set_default_mode s))
    /\ _cad s' = _cad s
    /\ _last_payload s' = _last_payload s
    /\ recv_log s' = recv_log s.
Proof.
  intros Hne Hmode Hflag. rewrite handle_interrupt_paths.
  unfold handler_paths, is_rx_done, other_events.
  change (mode_is (_spi_read REG_12_IRQ_FLAGS 1 s)) with (mode_is s).
  rewrite (mode_is_other s _ _ Hmode Hne), Hmode.
  unfold truthy at 2. apply Z.eqb_neq in Hflag. rewrite Hflag.
  cbn [andb negb]. eexists. split; [reflexivity|].
  exact (call_set_default_mode_keeps (_spi_read REG_12_IRQ_FLAGS 1 s)).
Qed.

(** X7.  When a channel-activity detection completes (mode CAD, CadDone
    raised) the invocation records the CadDetected bit of the flags in
    [_cad], enters the default mode and clears the flags. *)
Theorem cad_done_records_result (chip : Chip) (s : LoRa) (clk : list Q) :
  MODE_CAD <> MODE_RXCONTINUOUS ->
  MODE_CAD <> MODE_TX ->
  mode_is s MODE_CAD = true ->
  Z.land (irq_flags chip) CAD_DONE <> 0 ->
  exists s',
    _handle_interrupt chip s clk = Ret tt s' clk
    /\ _cad s' = Some (Z.land (irq_flags chip) CAD_DETECTED)
    /\ _mode s' = Some (default_target (_set_default_mode s))
    /\ _last_payload s' = _last_payload s
    /\ recv_log s' = recv_log s.
Proof.
  intros Hrx Htx Hmode Hflag. rewrite handle_interrupt_paths.
  unfold handler_paths, is_rx_done, other_events.
  change (mode_is (_spi_read REG_12_IRQ_FLAGS 1 s)) with (mode_is s).
  rewrite (mode_is_other s _ _ Hmode Hrx), (mode_is_other s _ _ Hmode Htx),
    Hmode.
  unfold truthy at 3. apply Z.eqb_neq in Hflag. rewrite Hflag.
  cbn [andb negb]. eexists. split; [reflexivity|].
  destruct (call_set_default_mode_keeps
              (with_cad (Some (Z.land (irq_flags chip) CAD_DETECTED))
                 (_spi_read REG_12_IRQ_FLAGS 1 s)))
    as (Hm & Hc & Hp & Hr).
  repeat split; assumption.
Qed.

(** X8.  In a mode other than receive, transmit and channel-activity
    detection (sleep, standby, or none yet) an interrupt changes nothing:
    the invocation reads the flags, clears them and returns, whatever the
    flags are. *)
Theorem interrupt_outside_active_modes (chip : Chip) (s : LoRa)
  (clk : list Q) :
  mode_is s MODE_RXCONTINUOUS = false ->
  mode_is s MODE_TX = false ->
  mode_is s MODE_CAD = false ->
  exists s',
    _handle_interrupt chip s clk = Ret tt s' clk
    /\ spi_log s' = spi_log s ++ [[REG_12_IRQ_FLAGS; 0]; clear_irq_flags]
    /\ with_spi_log (spi_log s) s' = s.
Proof.
  intros Hrx Htx Hcad. rewrite (handler_no_event chip s clk Hrx Htx Hcad).
  eexists. split; [reflexivity|].
  unfold flags_only, _spi_write, _spi_read, xfer, clear_irq_flags.
  cbn. rewrite <- app_assoc. split; [reflexivity|].
  now destruct s.
Qed.

Lemma rx_bus_keeps (chip : Chip) (s : LoRa) :
  _mode (rx_bus chip s) = _mode s
  /\ _cad (rx_bus chip s) = _cad s
  /\ _last_payload (rx_bus chip s) = _last_payload s
  /\ recv_log (rx_bus chip s) = recv_log s.
Proof. now repeat split. Qed.

Lemma finish_of_ack (chip : Chip) (m : list Z) (s : LoRa) :
  Z.land (nth 3 (packet_of chip) 0) FLAGS_ACK <> 0 ->
  mode_is s MODE_RXCONTINUOUS = true ->
  finish chip m s
  = _spi_write REG_12_IRQ_FLAGS (DInt 0xff)
      (with_last_payload (Some (rx_payload chip m)) s).
Proof.
  intros Hack Hmode. unfold finish, truthy.
  apply Z.eqb_neq in Hack. rewrite Hack. cbn [negb].
  pose proof (enter_unfold EnterRx s) as Hu.
  cbn [enter target] in Hu. now rewrite Hu, Hmode.
Qed.

(** X9.  An ACK that passes the address filter is never passed to
    [on_recv] and never answered.  When its message is taken without an
    exception (no cipher, a length that is not a multiple of 16, or a
    decryption that succeeds) it is published as the last payload, for
    [send_to_wait] to find, and the invocation returns without reading the
    clock, its bus log ending with the reads of the reception and the final
    clearing write.  When the decryption raises, the exception leaves the
    handler after the reads of the reception and nothing is published. *)
Theorem ack_published_not_delivered (chip : Chip) (s : LoRa) (clk : list Q)
  (m : list Z) :
  is_rx_done chip s = true ->
  4 <= rx_nb_bytes chip ->
  address_filtered chip s = false ->
  Z.land (nth 3 (packet_of chip) 0) FLAGS_ACK <> 0 ->
  raw_message chip = inr m ->
  match incoming_message s m with
  | inr m' =>
    exists s',
      _handle_interrupt chip s clk = Ret tt s' clk
      /\ _last_payload s' = Some (rx_payload chip m')
      /\ recv_log s' = recv_log s
      /\ spi_log s'
         = spi_log s ++ filtered_transactions chip ++ [clear_irq_flags]
  | inl e =>
    exists s',
      _handle_interrupt chip s clk = Raise e s' clk
      /\ _last_payload s' = _last_payload s
      /\ recv_log s' = recv_log s
      /\ spi_log s' = spi_log s ++ filtered_transactions chip
  end.
Proof.
  intros Hrx Hlen Hfilter Hack Hraw.
  assert (Hnoreq : ack_requested chip s = false).
  { unfold ack_requested, truthy at 2. apply Z.eqb_neq in Hack.
    rewrite Hack. cbn [negb]. now rewrite andb_false_r. }
  assert (Hmode : mode_is (rx_bus chip s) MODE_RXCONTINUOUS = true).
  { change (mode_is (rx_bus chip s)) with (mode_is s).
    unfold is_rx_done in Hrx. now apply andb_prop in Hrx. }
  rewrite handle_interrupt_paths. unfold handler_paths.
  apply Z.geb_le in Hlen. rewrite Hrx, Hlen, Hraw, Hfilter.
  destruct (rx_bus_keeps chip s) as (_ & _ & Hpay & Hlog).
  destruct (incoming_message s m) as [e|m'].
  - exists (rx_bus chip s). split; [reflexivity|].
    split; [exact Hpay|]. split; [exact Hlog|]. apply rx_bus_log.
  - unfold ack_step. rewrite Hnoreq. unfold ret.
    exists (finish chip m' (rx_bus chip s)). split; [reflexivity|].
    rewrite (finish_of_ack chip m' (rx_bus chip s) Hack Hmode).
    split; [reflexivity|]. split; [exact Hlog|].
    rewrite spi_log_spi_write, spi_log_with_last_payload, rx_bus_log.
    rewrite <- app_assoc. reflexivity.
Qed.

(** X10.  On an object whose [_ack] attribute is missing, as on every
    object the constructor returns, a packet addressed to this device that
    requests an ACK and is not one ends the invocation with an exception
    right after the bus reads of the reception: the exception of the
    decryption when the message is decrypted and that raises,
    [AttributeError] in every other case.  Either way the packet is neither
    published nor passed to [on_recv], no acknowledgment is sent, and the
    final clearing write is not made. *)
Theorem ack_request_raises_without_attribute (chip : Chip) (s : LoRa)
  (clk : list Q) (m : list Z) :
  _ack s = None ->
  is_rx_done chip s = true ->
  4 <= rx_nb_bytes chip ->
  nth 0 (packet_of chip) 0 = _this_address s ->
  Z.land (nth 3 (packet_of chip) 0) FLAGS_REQ_ACK <> 0 ->
  Z.land (nth 3 (packet_of chip) 0) FLAGS_ACK = 0 ->
  raw_message chip = inr m ->
  exists s',
    _handle_interrupt chip s clk
    = Raise (match incoming_message s m with
             | inl e => e
             | inr _ => AttributeError
             end) s' clk
    /\ _last_payload s' = _last_payload s
    /\ recv_log s' = recv_log s
    /\ _mode s' = _mode s
    /\ spi_log s' = spi_log s ++ filtered_transactions chip.
Proof.
  intros Hattr Hrx Hlen Hto Hreq Hnack Hraw.
  assert (Hfilter : address_filtered chip s = false).
  { unfold address_filtered. rewrite Hto, Z.eqb_refl. reflexivity. }
  assert (Hwant : ack_requested chip s = true).
  { unfold ack_requested, truthy.
    rewrite Hto, Z.eqb_refl, Hnack.
    apply Z.eqb_neq in Hreq. now rewrite Hreq. }
  rewrite handle_interrupt_paths. unfold handler_paths.
  apply Z.geb_le in Hlen. rewrite Hrx, Hlen, Hraw, Hfilter.
  destruct (rx_bus_keeps chip s) as (Hmode & _ & Hpay & Hlog).
  exists (rx_bus chip s).
  split; [|split; [exact Hpay|split; [exact Hlog|split;
    [exact Hmode|apply rx_bus_log]]]].
  destruct (incoming_message s m) as [e|m']; [reflexivity|].
  unfold ack_step. rewrite Hwant, Hattr. reflexivity.
Qed.

Lemma signed_byte_range (v : Z) :
  0 <= v <= 255 ->
  -128 <= signed_byte v <= 127 /\ signed_byte v mod 256 = v.
Proof.
  intros Hv. unfold signed_byte. destruct (Z.ltb_spec v 128).
  - split; [lia|]. apply Z.mod_small. lia.
  - split; [lia|].
    replace (v - 256) with (v + (-1) * 256) by lia.
    rewrite Z.mod_add by lia. apply Z.mod_small. lia.
Qed.

(** X11.  The signal figures of a published payload.  For register bytes,
    the SNR is a quarter of the SNR register read as a signed byte, hence
    between -32 and 31.75, and the RSSI is the RSSI register less 137,
    hence between -137 and 118. *)
Theorem signal_figures (chip : Chip) (s : LoRa) (clk : list Q) (s' : LoRa)
  (clk' : list Q) :
  is_rx_done chip s = true ->
  4 <= rx_nb_bytes chip ->
  address_filtered chip s = false ->
  0 <= pkt_snr_value chip <= 255 ->
  0 <= pkt_rssi_value chip <= 255 ->
  _handle_interrupt chip s clk = Ret tt s' clk' ->
  exists p,
    _last_payload s' = Some p
    /\ (snr p == inject_Z (signed_byte (pkt_snr_value chip)) / 4)%Q
    /\ (-32 <= snr p)%Q /\ (snr p <= 127 # 4)%Q
    /\ rssi p = pkt_rssi_value chip - 137
    /\ -137 <= rssi p <= 118.
Proof.
  intros Hrx Hlen Hfilter Hsnr Hrssi Hrun.
  destruct (handler_publishes chip s clk s' clk' Hrx Hlen Hfilter Hrun)
    as (m & m' & _ & _ & Hp & _).
  exists (rx_payload chip m'). split; [exact Hp|].
  assert (Hsigned : (if pkt_snr_value chip >? 127
                     then (256 - pkt_snr_value chip) * -1
                     else pkt_snr_value chip)
                    = signed_byte (pkt_snr_value chip)).
  { unfold signed_byte. rewrite Z.gtb_ltb.
    destruct (Z.ltb_spec 127 (pkt_snr_value chip));
      destruct (Z.ltb_spec (pkt_snr_value chip) 128); lia. }
  destruct (signed_byte_range _ Hsnr) as [Hrange _].
  cbn [snr rssi rx_payload]. rewrite Hsigned.
  split; [reflexivity|].
  split; [|split; [|split; lia]].
  - unfold Qle, Qdiv, Qmult, Qinv, inject_Z. cbn. lia.
  - unfold Qle, Qdiv, Qmult, Qinv, inject_Z. cbn. lia.
Qed.

(** X12.  A receiver with a cipher does not decrypt an accepted message
    whose length is not a multiple of 16.  When no acknowledgment is to be
    sent for the packet (it is not addressed to this device, does not
    request one, is an ACK itself, or [_ack] is true) the invocation
    returns without reading the clock, the message published byte for byte
    as it was received and, when the packet is not an ACK, passed to
    [on_recv].  When an acknowledgment is to be sent, the same holds of the
    invocation if it returns. *)
Theorem unaligned_message_not_decrypted (chip : Chip) (s : LoRa)
  (clk : list Q) (c : Cipher) (m : list Z) :
  is_rx_done chip s = true ->
  4 <= rx_nb_bytes chip ->
  address_filtered chip s = false ->
  crypto s = Some c ->
  raw_message chip = inr m ->
  Z.of_nat (length m) mod 16 <> 0 ->
  (ack_requested chip s = false \/ _ack s = Some true ->
   exists s',
     _handle_interrupt chip s clk = Ret tt s' clk
     /\ _last_payload s' = Some (rx_payload chip m)
     /\ recv_log s'
        = if negb (truthy (Z.land (nth 3 (packet_of chip) 0) FLAGS_ACK))
          then recv_log s ++ [rx_payload chip m]
          else recv_log s)
  /\ (forall s' clk',
        _handle_interrupt chip s clk = Ret tt s' clk' ->
        _last_payload s' = Some (rx_payload chip m)
        /\ (Z.land (nth 3 (packet_of chip) 0) FLAGS_ACK = 0 ->
            exists earlier, recv_log s' = earlier ++ [rx_payload chip m])).
Proof.
  intros Hrx Hlen Hfilter Hc Hraw Hmod.
  assert (Hin : incoming_message s m = inr m).
  { unfold incoming_message. rewrite Hc.
    apply Z.eqb_neq in Hmod. now rewrite Hmod. }
  rewrite handle_interrupt_paths. unfold handler_paths.
  apply Z.geb_le in Hlen. rewrite Hrx, Hlen, Hraw, Hfilter, Hin.
  split.
  - intros Hnone.
    assert (Hstep : ack_step chip s (rx_bus chip s) clk
                    = Ret tt (rx_bus chip s) clk).
    { unfold ack_step. destruct Hnone as [Hno|Hattr].
      - now rewrite Hno.
      - rewrite Hattr. now destruct (ack_requested chip s). }
    rewrite Hstep. exists (finish chip m (rx_bus chip s)).
    split; [reflexivity|]. split; [apply finish_last_payload|].
    rewrite finish_recv_log.
    destruct (rx_bus_keeps chip s) as (_ & _ & _ & Hlog). now rewrite Hlog.
  - intros s' clk'.
    destruct (ack_step chip s (rx_bus chip s) clk)
      as [u s1 clk1|e s1 clk1|s1]; try discriminate.
    intros H. injection H as <- _.
    split; [apply finish_last_payload|].
    intros Hflag. rewrite finish_recv_log, Hflag. now exists (recv_log s1).
Qed.

End HandlerBranches.

(** ** A constructed object *)

Section AfterConstruction.

Context {K : Constants} {I : InitConstants}.

Lemma flags_only_mode (s : LoRa) (m : Z) :
  mode_is (flags_only s) m = mode_is s m.
Proof. reflexivity. Qed.

Lemma flags_only_log (s : LoRa) :
  spi_log (flags_only s)
  = spi_log s ++ [[REG_12_IRQ_FLAGS; 0]; clear_irq_flags].
Proof.
  unfold flags_only. rewrite spi_log_spi_write, spi_log_spi_read.
  now rewrite <- app_assoc.
Qed.

Lemma flags_only_rest (l : list (list Z)) (s : LoRa) :
  with_spi_log l (flags_only s) = with_spi_log l s.
Proof. reflexivity. Qed.

Lemma flags_only_iter (n : nat) (s : LoRa) (m : Z) :
  mode_is (Nat.iter n flags_only s) m = mode_is s m
  /\ spi_log (Nat.iter n flags_only s) = spi_log s ++ flag_transactions n
  /\ with_spi_log (spi_log s) (Nat.iter n flags_only s) = s.
Proof.
  induction n as [|n (IHmode & IHlog & IHrest)].
  - cbn. rewrite app_nil_r. repeat split. now destruct s.
  - rewrite Nat.iter_succ. cbn [flag_transactions].
    rewrite flags_only_mode, flags_only_log, flags_only_rest, IHlog.
    rewrite <- app_assoc. now repeat split.
Qed.

(** Interrupts handled one after the other in a mode in which the handler
    takes no branch. *)
Lemma deliver_no_event (l : list Irq) (t : Q) :
  forall s,
    mode_is s MODE_RXCONTINUOUS = false ->
    mode_is s MODE_TX = false ->
    mode_is s MODE_CAD = false ->
    deliver l t s = Seen t (Nat.iter (length l) flags_only s).
Proof.
  induction l as [|i l IH]; intros s Hrx Htx Hcad; [reflexivity|].
  cbn [deliver length].
  rewrite (handler_no_event (chip i) s (handler_clock i) Hrx Htx Hcad).
  rewrite Nat.iter_succ_r. apply IH; now rewrite flags_only_mode.
Qed.

(** X4.  The constructor leaves the object in standby, with sequence id 0,
    no payload, no channel-activity result and no [_ack] attribute.  Until
    a method changes the mode, a call of [set_mode_idle] does nothing and
    every interrupt, however many have come before it and whatever its
    flags, makes two bus transactions, the read of the flags and the write
    that clears them, and leaves everything else as the constructor left it:
    no packet is read, published or passed to [on_recv] before
    [set_mode_rx] is called. *)
Theorem constructed_in_standby (spiport : option Z) (op_mode : Z)
  (rnd : list Q) (channel interrupt this_address : Z) (reset_pin : option Z)
  (freq : number) (tx_power : Z) (modem_config : ModemConfig)
  (receive_all acks : bool) (cipher : option Cipher) (default_mode : Z)
  (r : Radio) :
  MODE_STDBY <> MODE_RXCONTINUOUS ->
  MODE_STDBY <> MODE_TX ->
  MODE_STDBY <> MODE_CAD ->
  __init__ spiport op_mode rnd channel interrupt this_address reset_pin freq
    tx_power modem_config receive_all acks cipher default_mode
  = Constructed r ->
  _mode (lora r) = Some MODE_STDBY
  /\ _last_header_id (lora r) = 0
  /\ _last_payload (lora r) = None
  /\ _cad (lora r) = None
  /\ _ack (lora r) = None
  /\ recv_log (lora r) = []
  /\ set_mode_idle (lora r) = lora r
  /\ (forall n chip clk,
        let before := Nat.iter n flags_only (lora r) in
        _handle_interrupt chip before clk = Ret tt (flags_only before) clk
        /\ spi_log before = spi_log (lora r) ++ flag_transactions n
        /\ with_spi_log (spi_log (lora r)) before = lora r)
  /\ (forall l t,
        deliver l t (lora r)
        = Seen t (Nat.iter (length l) flags_only (lora r))).
Proof.
  intros Hrx Htx Hcad H.
  destruct (constructed_inv _ _ _ _ _ _ _ _ _ _ _ _ _ _ _ H)
    as (port & d & s0 & frf & _ & _ & _ & _ & _ & Hm0 & Ha0 & Hc0 & Hp0 & Hi0
        & Hr0 & _ & Hl & _).
  rewrite set_tx_power_spec in Hl. cbn [snd] in Hl.
  destruct (configure_frames frf modem_config s0)
    as (Hext & Hc & Hp & Hr & Hmode).
  set (configured := configure frf modem_config s0) in *.
  clearbody configured.
  assert (Hstandby : mode_is (lora r) MODE_STDBY = true)
    by (rewrite Hl; exact Hmode).
  rewrite Hl.
  split; [apply mode_is_exact; exact Hmode|].
  split; [cbn; rewrite (ext_last_header_id _ _ Hext); exact Hi0|].
  split; [cbn; congruence|].
  split; [cbn; congruence|].
  split; [cbn; rewrite (ext_ack _ _ Hext); exact Ha0|].
  split; [cbn; congruence|].
  rewrite <- Hl. clear Hl.
  generalize dependent (lora r). intros built Hstandby.
  pose proof (mode_is_other _ _ _ Hstandby Hrx) as Hnrx.
  pose proof (mode_is_other _ _ _ Hstandby Htx) as Hntx.
  pose proof (mode_is_other _ _ _ Hstandby Hcad) as Hncad.
  split; [|split].
  - pose proof (enter_unfold EnterIdle built) as Hu.
    cbn [enter target] in Hu. now rewrite Hu, Hstandby.
  - intros n chip clk before.
    destruct (flags_only_iter n built MODE_RXCONTINUOUS) as (Ha & Hlog & Hrest).
    destruct (flags_only_iter n built MODE_TX) as (Hb & _ & _).
    destruct (flags_only_iter n built MODE_CAD) as (Hd & _ & _).
    fold before in Ha, Hb, Hd, Hlog, Hrest.
    split; [|split; assumption].
    apply handler_no_event; congruence.
  - intros l t. now apply deliver_no_event.
Qed.

End AfterConstruction.

(** ** What a successful send has done *)

Section SendSuccess.

Context {K : Constants}.

Lemma outgoing_data_crypto (s s' : LoRa) (data : list Z) :
  crypto s' = crypto s -> outgoing_data s' data = outgoing_data s data.
Proof. intros H. unfold outgoing_data. now rewrite H. Qed.

Section AnyScheduleSend.

Variable E : Type.
Variable observe : E -> LoRa -> seen.
Hypothesis observe_extends : forall e s, extends s (seen_state (observe e s)).

Lemma wait_packet_sent_while_true (start : Q) (clk : list E) :
  forall s s' clk',
    wait_packet_sent_while E observe start s clk = Ret true s' clk' ->
    mode_is s' MODE_TX = false.
Proof.
  induction clk as [|e clk IH]; intros s s' clk' H; cbn in H;
    [discriminate|].
  destruct (observe e s) as [t s1|s1]; [|discriminate].
  destruct (Qltb _ _); [|discriminate].
  destruct (mode_is s1 MODE_TX) eqn:Hm; cbn [negb] in H.
  - eapply IH; eauto.
  - now injection H as <- _.
Qed.

Lemma wait_packet_sent_true (s : LoRa) (clk : list E) s' clk' :
  wait_packet_sent E observe s clk = Ret true s' clk' ->
  mode_is s' MODE_TX = false.
Proof.
  unfold wait_packet_sent, bind. intros H.
  destruct (time_time E observe s clk) as [start s1 clk1|x s1 clk1|s1];
    try discriminate.
  eapply wait_packet_sent_while_true; eauto.
Qed.

Lemma send_true (data : pydata) (dest id flags : Z) (s : LoRa)
  (clk : list E) (s' : LoRa) (clk' : list E) :
  send E observe data dest id flags s clk = Ret true s' clk' ->
  mode_is s' MODE_TX = false
  /\ extends s s'
  /\ exists body,
       outgoing_data s (coerce data) = inr body
       /\ In (Z.lor REG_00_FIFO 0x80
              :: [dest; _this_address s; id; flags] ++ body)
            (spi_log s').
Proof.
  intros H.
  pose proof (frames_send E observe observe_extends data dest id flags s clk)
    as Hall.
  rewrite H in Hall. cbn [final] in Hall.
  unfold send in H. unfold bind at 1 in H.
  pose proof (frames_wait_packet_sent E observe observe_extends s clk) as H1.
  destruct (wait_packet_sent E observe s clk)
    as [b0 s1 clk1|x s1 clk1|s1]; try discriminate.
  cbn [final] in H1. unfold bind at 1 in H.
  pose proof (frames_wait_cad E observe observe_extends s1 clk1) as H2.
  destruct (wait_cad E observe s1 clk1)
    as [v s2 clk2|x s2 clk2|s2]; try discriminate.
  cbn [final] in H2.
  destruct (py_eq_1 v); [discriminate|].
  unfold bind at 1, modify at 1 in H.
  unfold bind at 1, get at 1 in H.
  unfold bind at 1, raise_or at 1 in H.
  pose proof (extends_trans _ _ _ (extends_trans _ _ _ H1 H2)
                (enter_extends EnterIdle s2)) as H3.
  cbn [enter] in H3.
  destruct (outgoing_data (set_mode_idle s2) (coerce data))
    as [x|body] eqn:Hbody; [discriminate|].
  unfold bind at 1, modify at 1 in H.
  split; [eapply wait_packet_sent_true; exact H|].
  split; [exact Hall|].
  exists body. split.
  - rewrite <- Hbody. symmetry.
    apply outgoing_data_crypto. apply (ext_crypto _ _ H3).
  - pose proof (frames_wait_packet_sent E observe observe_extends
                  (load_and_transmit
                     ([dest; _this_address (set_mode_idle s2); id; flags]
                      ++ body) (set_mode_idle s2)) clk2) as H4.
    rewrite H in H4. cbn [final] in H4.
    rewrite <- (ext_this_address _ _ H3).
    exact (extends_In _ _ _ H4 (frame_loaded _ _)).
Qed.

(** The same call, with the place of the transmission in the bus log. *)
Lemma send_true_log (data : pydata) (dest id flags : Z) (s : LoRa)
  (clk : list E) (s' : LoRa) (clk' : list E) :
  MODE_STDBY <> MODE_TX ->
  send E observe data dest id flags s clk = Ret true s' clk' ->
  exists body earlier later,
    outgoing_data s (coerce data) = inr body
    /\ spi_log s'
       = spi_log s ++ earlier
         ++ transmission ([dest; _this_address s; id; flags] ++ body)
         ++ later.
Proof.
  intros Hne H.
  unfold send in H. unfold bind at 1 in H.
  pose proof (frames_wait_packet_sent E observe observe_extends s clk) as H1.
  destruct (wait_packet_sent E observe s clk)
    as [b0 s1 clk1|x s1 clk1|s1]; try discriminate.
  cbn [final] in H1. unfold bind at 1 in H.
  pose proof (frames_wait_cad E observe observe_extends s1 clk1) as H2.
  destruct (wait_cad E observe s1 clk1)
    as [v s2 clk2|x s2 clk2|s2]; try discriminate.
  cbn [final] in H2.
  destruct (py_eq_1 v); [discriminate|].
  unfold bind at 1, modify at 1 in H.
  unfold bind at 1, get at 1 in H.
  unfold bind at 1, raise_or at 1 in H.
  pose proof (extends_trans _ _ _ (extends_trans _ _ _ H1 H2)
                (enter_extends EnterIdle s2)) as H3.
  cbn [enter] in H3.
  destruct (outgoing_data (set_mode_idle s2) (coerce data))
    as [x|body] eqn:Hbody; [discriminate|].
  unfold bind at 1, modify at 1 in H.
  pose proof (frames_wait_packet_sent E observe observe_extends
                (load_and_transmit
                   ([dest; _this_address (set_mode_idle s2); id; flags]
                    ++ body) (set_mode_idle s2)) clk2) as H4.
  rewrite H in H4. cbn [final] in H4.
  destruct (ext_spi_log _ _ H4) as [later Hlater].
  destruct (ext_spi_log _ _ H3) as [earlier Hearlier].
  rewrite (idle_then_transmit _ s2 Hne), Hearlier,
    (ext_this_address _ _ H3) in Hlater.
  exists body, earlier, later. split.
  - rewrite <- Hbody. symmetry.
    apply outgoing_data_crypto. apply (ext_crypto _ _ H3).
  - rewrite Hlater. now rewrite <- !app_assoc.
Qed.

Lemma attempt_true (data : pydata) (dest flags : Z) (s : LoRa)
  (clk : list E) (b : bool) (s' : LoRa) (clk' : list E) :
  attempt E observe data dest flags s clk = Ret (Some b) s' clk' ->
  exists body,
    outgoing_data s (coerce data) = inr body
    /\ In (Z.lor REG_00_FIFO 0x80
           :: [dest; _this_address s; _last_header_id s; flags] ++ body)
         (spi_log s').
Proof.
  unfold attempt. unfold bind at 1, get at 1. unfold bind at 1. intros H.
  destruct (send E observe data dest (_last_header_id s) flags s clk)
    as [ok s1 clk1|x s1 clk1|s1] eqn:Hsend; try discriminate.
  destruct ok; cbn [negb] in H; [|discriminate].
  destruct (send_true _ _ _ _ _ _ _ _ Hsend) as (_ & _ & body & Hbody & Hin).
  exists body. split; [exact Hbody|].
  unfold bind at 1, get at 1 in H.
  destruct (negb (_acks s1) || (dest =? BROADCAST_ADDRESS)).
  - now injection H as _ <- _.
  - unfold bind at 1 in H.
    pose proof (frames_time_time E observe observe_extends s1 clk1) as Ht.
    destruct (time_time E observe s1 clk1) as [start s2 clk2|x s2 clk2|s2];
      try discriminate.
    cbn [final] in Ht. unfold bind at 1 in H.
    pose proof (frames_ack_wait_while E observe observe_extends start s2
                  clk2) as Hw.
    destruct (ack_wait_while E observe start s2 clk2)
      as [acked s3 clk3|x s3 clk3|s3]; try discriminate.
    cbn [final] in Hw.
    assert (Hs : s' = s3) by (destruct acked; now injection H as _ <- _).
    subst s'.
    exact (extends_In _ _ _ (extends_trans _ _ _ Ht Hw) Hin).
Qed.

Lemma send_to_wait_for_true (n : nat) (data : pydata) (dest : Z) :
  forall (flags : Z) (s : LoRa) (clk : list E) s' clk',
    send_to_wait_for E observe n data dest flags s clk = Ret true s' clk' ->
    exists body,
      outgoing_data s (coerce data) = inr body
      /\ In (Z.lor REG_00_FIFO 0x80
             :: [dest; _this_address s; _last_header_id s;
                 if _acks s then Z.lor flags FLAGS_REQ_ACK else flags]
                ++ body)
           (spi_log s').
Proof.
  induction n as [|n IH]; intros flags s clk s' clk' H.
  - discriminate.
  - cbn [send_to_wait_for] in H. unfold bind at 1, get at 1 in H.
    set (g := if _acks s then Z.lor flags FLAGS_REQ_ACK else flags) in *.
    unfold bind at 1 in H.
    pose proof (frames_attempt E observe observe_extends data dest g s clk)
      as Hext.
    destruct (attempt E observe data dest g s clk)
      as [[b0|] s1 clk1|x s1 clk1|s1] eqn:Hatt; try discriminate.
    + cbn in H. injection H as _ <- _.
      exact (attempt_true _ _ _ _ _ _ _ _ Hatt).
    + cbn [final] in Hext.
      destruct (IH _ _ _ _ _ H) as (body & Hbody & Hin).
      exists body. split.
      * rewrite <- Hbody. symmetry.
        apply outgoing_data_crypto. apply (ext_crypto _ _ Hext).
      * rewrite (ext_this_address _ _ Hext), (ext_last_header_id _ _ Hext),
          (ext_acks _ _ Hext) in Hin.
        replace (if _acks s then Z.lor g FLAGS_REQ_ACK else g) with g in Hin;
          [exact Hin|].
        unfold g. destruct (_acks s); [|reflexivity].
        now rewrite <- Z.lor_assoc, Z.lor_diag.
Qed.

End AnyScheduleSend.

(** X13.  [send] returns [True] only when it has loaded the frame and
    entered transmit mode, and the stored mode has left transmit since: the
    bus log holds, after what was there, the writes of the FIFO pointer, of
    the frame, of its length, of the transmit mode and of the interrupt
    mapping, one after the other.  The frame is the destination, this
    device's address, the id and the flags given, followed by the data,
    encryption-framed when a cipher is configured.  The call changes none
    of the object's settings. *)
Theorem send_true_means_transmitted (data : pydata) (dest id flags : Z)
  (s : LoRa) (clk : list Obs) (s' : LoRa) (clk' : list Obs) :
  MODE_STDBY <> MODE_TX ->
  send Obs foreground_observe data dest id flags s clk = Ret true s' clk' ->
  mode_is s' MODE_TX = false
  /\ extends s s'
  /\ exists body earlier later,
       outgoing_data s (coerce data) = inr body
       /\ spi_log s'
          = spi_log s ++ earlier
            ++ transmission ([dest; _this_address s; id; flags] ++ body)
            ++ later.
Proof.
  intros Hne H.
  destruct (send_true Obs foreground_observe foreground_observe_extends
              _ _ _ _ _ _ _ _ H) as (Hmode & Hext & _).
  split; [exact Hmode|]. split; [exact Hext|].
  exact (send_true_log Obs foreground_observe foreground_observe_extends
           _ _ _ _ _ _ _ _ Hne H).
Qed.

(** X14.  [send_to_wait] returns [True] only after a frame with its data
    has been written to the FIFO under the sequence id of the call, the id
    it found plus one modulo 256, with the ACK-request flag added to the
    flags given when acknowledgments are enabled (also for the broadcast
    address). *)
Theorem send_to_wait_true_means_transmitted (data : pydata)
  (dest flags retries : Z) (s : LoRa) (clk : list Obs) (s' : LoRa)
  (clk' : list Obs) :
  send_to_wait Obs foreground_observe data dest flags retries s clk
  = Ret true s' clk' ->
  exists body,
    outgoing_data s (coerce data) = inr body
    /\ In (Z.lor REG_00_FIFO 0x80
           :: [dest; _this_address s; Z.land (_last_header_id s + 1) 0xFF;
               if _acks s then Z.lor flags FLAGS_REQ_ACK else flags]
              ++ body)
         (spi_log s').
Proof.
  rewrite send_to_wait_unfold. intros H.
  exact (send_to_wait_for_true Obs foreground_observe
           foreground_observe_extends _ _ _ _ _ _ _ _ H).
Qed.

End SendSuccess.

(** ** From [send] to the receiver's handler *)

Section EndToEnd.

Context {K : Constants}.

Lemma bytes_inr (l b : list Z) : bytes l = inr b -> b = l.
Proof.
  unfold bytes. destruct (forallb _ l); [|discriminate].
  now intros [= <-].
Qed.

Lemma encrypt_frame (c : Cipher) (m ct : list Z) :
  _encrypt c m = inr ct ->
  exists padding,
    ct = encrypt c (Z.of_nat (length m) :: m ++ padding)
    /\ Z.of_nat (length (Z.of_nat (length m) :: m ++ padding)) mod 16 = 0.
Proof.
  unfold _encrypt. intros H.
  destruct (bytes [Z.of_nat (length m)]) as [e|head] eqn:Hhead;
    [discriminate|].
  apply bytes_inr in Hhead. subst head. injection H as <-.
  destruct (padding_length (Z.of_nat (length m)) (Nat2Z.is_nonneg _))
    as [Hpad Hmod].
  eexists. split; [reflexivity|].
  cbn [length app]. rewrite Nat2Z.inj_succ, length_app, repeat_length.
  rewrite Nat2Z.inj_add, Z2Nat.id by lia.
  match goal with
  | |- Z.succ (?n + ?k) mod 16 = 0 =>
    replace (Z.succ (n + k)) with (n + 1 + k) by lia
  end.
  exact Hmod.
Qed.

Lemma packet_of_whole (chip : Chip) :
  rx_nb_bytes chip = Z.of_nat (length (fifo chip)) ->
  packet_of chip = fifo chip.
Proof.
  intros Hn. unfold packet_of, fifo_read. rewrite Hn, Nat2Z.id.
  rewrite firstn_app, Nat.sub_diag, firstn_all. cbn. apply app_nil_r.
Qed.

(** X15.  What one device sends another receives.  Take the frame [send]
    builds on the sender (header, then the data, encryption-framed when a
    cipher is configured) and let it be the packet in the receiver's FIFO.
    With the same cipher on both sides, one whose [decrypt] undoes
    [encrypt] on block-aligned input and which keeps block-aligned lengths
    block-aligned, an invocation of the receiver's handler that handles the
    packet to the end publishes a payload with the data and the four header
    fields exactly as they were given to [send]. *)
Theorem end_to_end_delivery (sender receiver : LoRa) (data : pydata)
  (dest id flags : Z) (body : list Z) (chip : Chip) (clk : list Q)
  (r' : LoRa) (clk' : list Q) :
  crypto receiver = crypto sender ->
  (forall c m,
      crypto sender = Some c ->
      Z.of_nat (length m) mod 16 = 0 ->
      decrypt c (encrypt c m) = m
      /\ Z.of_nat (length (encrypt c m)) mod 16 = 0) ->
  outgoing_data sender (coerce data) = inr body ->
  bytes body = inr body ->
  fifo chip = [dest; _this_address sender; id; flags] ++ body ->
  rx_nb_bytes chip = Z.of_nat (length (fifo chip)) ->
  is_rx_done chip receiver = true ->
  address_filtered chip receiver = false ->
  _handle_interrupt chip receiver clk = Ret tt r' clk' ->
  exists p,
    _last_payload r' = Some p
    /\ message p = coerce data
    /\ header_to p = dest
    /\ header_from p = _this_address sender
    /\ header_id p = id
    /\ header_flags p = flags.
Proof.
  intros Hsame Hcipher Hout Hbytes Hfifo Hlen Hrx Hfilter Hrun.
  pose proof (packet_of_whole chip Hlen) as Hpacket.
  assert (Hlen4 : 4 <= rx_nb_bytes chip).
  { rewrite Hlen, Hfifo, length_app. cbn [length]. lia. }
  destruct (handler_publishes chip receiver clk r' clk' Hrx Hlen4 Hfilter
              Hrun) as (m & m' & Hraw & Hin & Hp & _).
  assert (Hm : m = body).
  { unfold raw_message in Hraw. rewrite Hpacket, Hfifo in Hraw.
    cbn [app skipn] in Hraw.
    destruct (rx_nb_bytes chip >? 4) eqn:Hgt.
    - rewrite Hbytes in Hraw. now injection Hraw as <-.
    - injection Hraw as <-.
      rewrite Hlen, Hfifo, length_app in Hgt. cbn [length] in Hgt.
      destruct body; [reflexivity|].
      cbn [length] in Hgt.
      destruct (Z.gtb_spec (Z.of_nat (4 + S (length body))) 4);
        [discriminate|lia]. }
  subst m.
  assert (Hdata : m' = coerce data).
  { unfold incoming_message in Hin. rewrite Hsame in Hin.
    unfold outgoing_data in Hout.
    destruct (crypto sender) as [c|] eqn:Hc.
    - destruct (bytes (coerce data)) as [e|b] eqn:Hb; [discriminate|].
      apply bytes_inr in Hb. subst b.
      destruct (encrypt_frame c _ _ Hout) as (padding & -> & Haligned).
      destruct (Hcipher c _ eq_refl Haligned) as [Hinv Hkeep].
      apply Z.eqb_eq in Hkeep. rewrite Hkeep in Hin.
      unfold _decrypt in Hin. rewrite Hinv in Hin.
      rewrite py_slice_frame in Hin. now injection Hin as <-.
    - injection Hout as <-. now injection Hin as <-. }
  subst m'.
  exists (rx_payload chip (coerce data)). split; [exact Hp|].
  unfold rx_payload. cbn [message header_to header_from header_id
                           header_flags].
  rewrite Hpacket, Hfifo. cbn [app nth]. repeat split.
Qed.

End EndToEnd.

(** ** Invariants of the object *)

Section Invariants.

Context {K : Constants}.

Section AnyInvariant.

Variable P : LoRa -> Prop.

Hypothesis P_write :
  forall r d s,
    In r [REG_0D_FIFO_ADDR_PTR; REG_22_PAYLOAD_LENGTH; REG_12_IRQ_FLAGS] ->
    P s -> P (_spi_write r d s).
Hypothesis P_fifo :
  forall payload s,
    (4 <= length payload)%nat ->
    P s -> P (_spi_write REG_00_FIFO (DList payload) s).
Hypothesis P_read :
  forall r n s,
    In r [REG_12_IRQ_FLAGS; REG_13_RX_NB_BYTES; REG_10_FIFO_RX_CURRENT_ADDR;
          REG_00_FIFO; REG_19_PKT_SNR_VALUE; REG_1A_PKT_RSSI_VALUE] ->
    P s -> P (_spi_read r n s).
Hypothesis P_enter : forall t s, P s -> P (enter t s).
Hypothesis P_cad : forall c s, P s -> P (with_cad c s).
Hypothesis P_payload : forall p s, P s -> P (with_last_payload p s).
Hypothesis P_random : forall l s, P s -> P (with_random_supply l s).
Hypothesis P_id : forall i s, P s -> P (with_last_header_id i s).
Hypothesis P_recv :
  forall p s,
    Z.land (header_flags p) FLAGS_ACK = 0 -> P s -> P (on_recv p s).

Lemma P_call_set_default_mode (s : LoRa) : P s -> P (call_set_default_mode s).
Proof.
  unfold call_set_default_mode. destruct (_set_default_mode s).
  - apply (P_enter EnterRx).
  - apply (P_enter EnterIdle).
  - apply (P_enter EnterSleep).
Qed.

Lemma P_load_and_transmit (payload : list Z) (s : LoRa) :
  (4 <= length payload)%nat -> P s -> P (load_and_transmit payload s).
Proof.
  intros Hlen Hs. unfold load_and_transmit.
  apply (P_enter EnterTx).
  apply P_write; [cbn; auto|].
  apply P_fifo; [exact Hlen|].
  apply P_write; [cbn; auto|]. exact Hs.
Qed.

Lemma P_rx_bus (chip : Chip) (s : LoRa) : P s -> P (rx_bus chip s).
Proof.
  intros Hs. unfold rx_bus.
  apply P_read; [cbn; auto 10|]. apply P_read; [cbn; auto 10|].
  apply P_write; [cbn; auto|]. apply P_read; [cbn; auto 10|].
  apply P_write; [cbn; auto|]. apply P_read; [cbn; auto 10|].
  apply P_read; [cbn; auto 10|]. apply P_read; [cbn; auto 10|].
  exact Hs.
Qed.

Lemma P_finish (chip : Chip) (m : list Z) (s : LoRa) :
  P s -> P (finish chip m s).
Proof.
  intros Hs. unfold finish. apply P_write; [cbn; auto|].
  unfold truthy.
  destruct (Z.eqb_spec (Z.land (nth 3 (packet_of chip) 0) FLAGS_ACK) 0)
    as [Hz|Hz]; cbn [negb].
  - apply P_recv; [exact Hz|]. apply P_payload. now apply (P_enter EnterRx).
  - apply P_payload. now apply (P_enter EnterRx).
Qed.

Lemma P_other_events (chip : Chip) (s : LoRa) :
  P s -> P (other_events chip s).
Proof.
  intros Hs. unfold other_events.
  destruct (_ && _); [now apply P_call_set_default_mode|].
  destruct (_ && _); [|exact Hs].
  apply P_call_set_default_mode. now apply P_cad.
Qed.

Section AnyScheduleInvariant.

Variable E : Type.
Variable observe : E -> LoRa -> seen.
Hypothesis P_observe : forall e s, P s -> P (seen_state (observe e s)).

Lemma preserves_ret {A} (a : A) : preserves P (ret E a).
Proof. intros s clk Hs. exact Hs. Qed.

Lemma preserves_bind {A B} (c : M E A) (k : A -> M E B) :
  preserves P c -> (forall a, preserves P (k a)) ->
  preserves P (bind E c k).
Proof.
  intros Hc Hk s clk Hs. unfold bind.
  specialize (Hc s clk Hs).
  destruct (c s clk) as [a s' clk'|x s' clk'|s']; cbn [final] in *; auto.
  now apply Hk.
Qed.

Lemma preserves_get : preserves P (get E).
Proof. intros s clk Hs. exact Hs. Qed.

Lemma preserves_modify (f : LoRa -> LoRa) :
  (forall s, P s -> P (f s)) -> preserves P (modify E f).
Proof. intros Hf s clk Hs. now apply Hf. Qed.

Lemma preserves_raise_or {A} (r : exn + A) : preserves P (raise_or E r).
Proof. intros s clk Hs. unfold raise_or. now destruct r. Qed.

Lemma preserves_time_time : preserves P (time_time E observe).
Proof.
  intros s [|e clk] Hs; cbn; [exact Hs|].
  specialize (P_observe e s Hs). now destruct (observe e s).
Qed.

Lemma preserves_wait_packet_sent_while (start : Q) :
  preserves P (wait_packet_sent_while E observe start).
Proof.
  intros s clk. revert s.
  induction clk as [|e clk IH]; intros s Hs; cbn; [exact Hs|].
  specialize (P_observe e s Hs).
  destruct (observe e s) as [t s'|s']; cbn [seen_state final] in *; auto.
  destruct (Qltb _ _); cbn [final]; auto.
  destruct (mode_is s' MODE_TX); cbn [negb final]; auto.
Qed.

Lemma preserves_wait_packet_sent : preserves P (wait_packet_sent E observe).
Proof.
  apply preserves_bind; [apply preserves_time_time|].
  intros start. apply preserves_wait_packet_sent_while.
Qed.

Lemma preserves_wait_cad_for (start : Q) :
  preserves P (wait_cad_for E observe start).
Proof.
  intros s clk.
  remember (length clk) as n eqn:Hn.
  assert (Hle : (length clk <= n)%nat) by lia. clear Hn.
  revert s clk Hle.
  induction n as [|n IH]; intros s clk Hle Hs.
  - destruct clk; [|cbn in Hle; lia].
    cbn. now destruct (_is_channel_active_resume s).
  - destruct clk as [|e1 clk1]; cbn.
    + now destruct (_is_channel_active_resume s).
    + unfold _is_channel_active_resume.
      destruct (mode_is s MODE_CAD); [|exact Hs].
      pose proof (P_observe e1 s Hs) as H1.
      destruct (observe e1 s) as [t s1|s1]; cbn [seen_state final] in *;
        auto.
      destruct (Qltb _ _); cbn [final]; auto.
      destruct clk1 as [|e2 clk2]; cbn [final]; auto.
      pose proof (P_observe e2 s1 H1) as H2.
      destruct (observe e2 s1) as [t2 s2|s2]; cbn [seen_state final] in *;
        auto.
      apply IH; [cbn in Hle; lia|exact H2].
Qed.

Lemma preserves_wait_cad : preserves P (wait_cad E observe).
Proof.
  apply preserves_bind; [apply preserves_get|]. intros s.
  destruct (negb (Qtruthy (cad_timeout s))); [apply preserves_ret|].
  apply preserves_bind; [apply preserves_time_time|]. intros start.
  apply preserves_bind; [|intros _; apply preserves_wait_cad_for].
  apply preserves_modify. apply (P_enter EnterCad).
Qed.

Lemma preserves_send (data : pydata) (dest id flags : Z) :
  preserves P (send E observe data dest id flags).
Proof.
  apply preserves_bind; [apply preserves_wait_packet_sent|]. intros _.
  apply preserves_bind; [apply preserves_wait_cad|]. intros v.
  destruct (py_eq_1 v); [apply preserves_ret|].
  apply preserves_bind;
    [apply preserves_modify; apply (P_enter EnterIdle)|].
  intros _.
  apply preserves_bind; [apply preserves_get|]. intros s.
  apply preserves_bind; [apply preserves_raise_or|]. intros body.
  apply preserves_bind; [|intros _; apply preserves_wait_packet_sent].
  apply preserves_modify. intros s0. apply P_load_and_transmit.
  rewrite length_app. cbn [length]. lia.
Qed.

Lemma preserves_send_ack (dest id : Z) :
  preserves P (send_ack E observe dest id).
Proof.
  apply preserves_bind; [apply preserves_send|]. intros _.
  apply preserves_bind; [apply preserves_wait_packet_sent|]. intros _.
  apply preserves_ret.
Qed.

Lemma preserves_ack_wait_while (start : Q) :
  preserves P (ack_wait_while E observe start).
Proof.
  intros s clk. revert s.
  induction clk as [|e clk IH]; intros s Hs; cbn; [exact Hs|].
  specialize (P_observe e s Hs).
  destruct (observe e s) as [t s1|s1]; cbn [seen_state final] in *; auto.
  unfold random. destruct (random_supply s1) as [|r rs]; cbn [final]; auto.
  pose proof (P_random rs s1 P_observe) as H2.
  destruct (Qltb _ _); cbn [final]; auto.
  destruct (ack_seen _); cbn [final]; auto.
Qed.

Lemma preserves_attempt (data : pydata) (dest flags : Z) :
  preserves P (attempt E observe data dest flags).
Proof.
  apply preserves_bind; [apply preserves_get|]. intros s.
  apply preserves_bind; [apply preserves_send|]. intros success.
  destruct (negb success); [apply preserves_ret|].
  apply preserves_bind; [apply preserves_get|]. intros s1.
  destruct (negb (_acks s1) || (dest =? BROADCAST_ADDRESS));
    [apply preserves_ret|].
  apply preserves_bind; [apply preserves_time_time|]. intros start.
  apply preserves_bind; [apply preserves_ack_wait_while|]. intros acked.
  destruct acked; apply preserves_ret.
Qed.

Lemma preserves_send_to_wait_for (n : nat) (data : pydata) (dest : Z) :
  forall flags, preserves P (send_to_wait_for E observe n data dest flags).
Proof.
  induction n as [|n IH]; intros flags; cbn.
  - apply preserves_ret.
  - apply preserves_bind; [apply preserves_get|]. intros s.
    apply preserves_bind; [apply preserves_attempt|]. intros [b|].
    + apply preserves_ret.
    + apply IH.
Qed.

Lemma preserves_send_to_wait (data : pydata) (dest flags retries : Z) :
  preserves P (send_to_wait E observe data dest flags retries).
Proof.
  apply preserves_bind; [|intros _; apply preserves_send_to_wait_for].
  apply preserves_modify. intros s. apply P_id.
Qed.

End AnyScheduleInvariant.

Lemma preserves_handle_interrupt (chip : Chip) :
  preserves P (_handle_interrupt chip).
Proof.
  intros s clk Hs. rewrite handle_interrupt_paths. unfold handler_paths.
  pose proof (P_rx_bus chip s Hs) as Hbus.
  destruct (is_rx_done chip s).
  - destruct (rx_nb_bytes chip >=? 4).
    + destruct (raw_message chip) as [e|m]; [exact Hbus|].
      destruct (address_filtered chip s); [exact Hbus|].
      destruct (incoming_message s m) as [e|m']; [exact Hbus|].
      assert (Hack : preserves P (ack_step chip s)).
      { unfold ack_step. destruct (ack_requested chip s);
          [|intros s0 clk0 H0; exact H0].
        destruct (_ack s) as [a|]; [|intros s0 clk0 H0; exact H0].
        destruct (negb a); [|intros s0 clk0 H0; exact H0].
        apply preserves_send_ack. intros t s0 H0. exact H0. }
      specialize (Hack (rx_bus chip s) clk Hbus).
      destruct (ack_step chip s (rx_bus chip s) clk)
        as [u s1 clk1|e s1 clk1|s1]; cbn [final] in *; auto.
      now apply P_finish.
    + cbn [final]. apply P_write; [cbn; auto|]. exact Hbus.
  - cbn [final]. apply P_write; [cbn; auto|].
    apply P_other_events. apply P_read; [cbn; auto 10|]. exact Hs.
Qed.

Lemma P_deliver (l : list Irq) (t : Q) (s : LoRa) :
  P s -> P (seen_state (deliver l t s)).
Proof.
  revert s. induction l as [|i l IH]; intros s Hs; cbn [deliver];
    [exact Hs|].
  pose proof (preserves_handle_interrupt (chip i) s (handler_clock i) Hs)
    as H.
  destruct (_handle_interrupt (chip i) s (handler_clock i))
    as [u s' clk'|x s' clk'|s']; cbn [final seen_state] in *; auto.
Qed.

Lemma P_foreground_observe (o : Obs) (s : LoRa) :
  P s -> P (seen_state (foreground_observe o s)).
Proof. apply P_deliver. Qed.

End AnyInvariant.

End Invariants.

(** ** Two invariants *)

Section TwoInvariants.

Context {K : Constants}.

Lemma last_op_mode_snoc (log : list (list Z)) (request : list Z) :
  last_op_mode (log ++ [request])
  = match op_mode_write request with
    | Some v => Some v
    | None => last_op_mode log
    end.
Proof. unfold last_op_mode. now rewrite fold_left_app. Qed.

Lemma in_step_xfer (request : list Z) (s : LoRa) :
  op_mode_write request = None ->
  mode_in_step s -> mode_in_step (xfer request s).
Proof.
  intros Hreq Hs. unfold mode_in_step in *.
  change (_mode (xfer request s)) with (_mode s).
  change (spi_log (xfer request s)) with (spi_log s ++ [request]).
  destruct (_mode s); [|exact I].
  now rewrite last_op_mode_snoc, Hreq.
Qed.

Lemma other_register_write (r : Z) (values : list Z) :
  Z.lor r 0x80 <> Z.lor REG_01_OP_MODE 0x80 ->
  op_mode_write (Z.lor r 0x80 :: values) = None.
Proof.
  intros Hr. unfold op_mode_write.
  destruct values as [|v [|w values]]; try reflexivity.
  apply Z.eqb_neq in Hr. now rewrite Hr.
Qed.

Lemma other_register_read (r : Z) (n : nat) :
  r <> Z.lor REG_01_OP_MODE 0x80 ->
  op_mode_write (r :: repeat 0 n) = None.
Proof.
  intros Hr. unfold op_mode_write.
  destruct n as [|[|n]]; try reflexivity.
  cbn [repeat]. apply Z.eqb_neq in Hr. now rewrite Hr.
Qed.

Lemma in_step_write (r : Z) (d : pydata) (s : LoRa) :
  Z.lor r 0x80 <> Z.lor REG_01_OP_MODE 0x80 ->
  mode_in_step s -> mode_in_step (_spi_write r d s).
Proof.
  intros Hr. apply in_step_xfer. now apply other_register_write.
Qed.

Lemma in_step_enter (t : transition) (s : LoRa) :
  Z.lor REG_40_DIO_MAPPING1 0x80 <> Z.lor REG_01_OP_MODE 0x80 ->
  mode_in_step s -> mode_in_step (enter t s).
Proof.
  intros H40 Hs. rewrite enter_unfold.
  destruct (mode_is s (target t)); [exact Hs|].
  unfold mode_in_step.
  change (_mode (with_mode (Some (target t))
                   (with_spi_log (spi_log s ++ write_sequence t) s)))
    with (Some (target t)).
  change (spi_log (with_mode (Some (target t))
                     (with_spi_log (spi_log s ++ write_sequence t) s)))
    with (spi_log s ++ write_sequence t).
  assert (Hmode : forall log v,
             last_op_mode (log ++ [[Z.lor REG_01_OP_MODE 0x80; v]]) = Some v).
  { intros log v. rewrite last_op_mode_snoc. unfold op_mode_write.
    now rewrite Z.eqb_refl. }
  assert (Hdio : forall log v w,
             last_op_mode (log ++ [[Z.lor REG_01_OP_MODE 0x80; v];
                                   [Z.lor REG_40_DIO_MAPPING1 0x80; w]])
             = Some v).
  { intros log v w.
    change [[Z.lor REG_01_OP_MODE 0x80; v];
            [Z.lor REG_40_DIO_MAPPING1 0x80; w]]
      with ([[Z.lor REG_01_OP_MODE 0x80; v]]
            ++ [[Z.lor REG_40_DIO_MAPPING1 0x80; w]]).
    rewrite app_assoc, last_op_mode_snoc.
    rewrite (other_register_write _ [w] H40). apply Hmode. }
  destruct t; cbn [write_sequence target]; auto.
Qed.

Lemma registers_apart_writes :
  registers_apart ->
  Z.lor REG_40_DIO_MAPPING1 0x80 <> Z.lor REG_01_OP_MODE 0x80
  /\ (forall r,
         In r [REG_0D_FIFO_ADDR_PTR; REG_22_PAYLOAD_LENGTH;
               REG_12_IRQ_FLAGS] ->
         Z.lor r 0x80 <> Z.lor REG_01_OP_MODE 0x80)
  /\ (forall r,
         In r [REG_12_IRQ_FLAGS; REG_13_RX_NB_BYTES;
               REG_10_FIFO_RX_CURRENT_ADDR; REG_00_FIFO;
               REG_19_PKT_SNR_VALUE; REG_1A_PKT_RSSI_VALUE] ->
         r <> Z.lor REG_01_OP_MODE 0x80).
Proof.
  intros [Hw Hr]. rewrite Forall_forall in Hw, Hr.
  split; [apply Hw; cbn; auto|].
  split; [|exact Hr].
  intros r Hin. apply Hw. cbn in *. intuition.
Qed.

Section KeptInStep.

Hypothesis apart : registers_apart.

Lemma in_step_handle_interrupt (chip : Chip) :
  preserves mode_in_step (_handle_interrupt chip).
Proof.
  destruct (registers_apart_writes apart) as (H40 & Hw & Hr).
  apply preserves_handle_interrupt.
  - intros r d s Hin. apply in_step_write. now apply Hw.
  - intros payload s Hlen. apply in_step_xfer.
    unfold op_mode_write. cbn [coerce app].
    destruct payload as [|a [|b payload]]; try reflexivity.
    cbn in Hlen. lia.
  - intros r n s Hin. apply in_step_xfer.
    apply other_register_read. now apply Hr.
  - intros t s. now apply in_step_enter.
  - intros c s Hs. exact Hs.
  - intros p s Hs. exact Hs.
  - intros p s _ Hs. exact Hs.
Qed.

Lemma in_step_foreground (o : Obs) (s : LoRa) :
  mode_in_step s -> mode_in_step (seen_state (foreground_observe o s)).
Proof.
  destruct (registers_apart_writes apart) as (H40 & Hw & Hr).
  apply P_foreground_observe.
  - intros r d s0 Hin. apply in_step_write. now apply Hw.
  - intros payload s0 Hlen. apply in_step_xfer.
    unfold op_mode_write. cbn [coerce app].
    destruct payload as [|a [|b payload]]; try reflexivity.
    cbn in Hlen. lia.
  - intros r n s0 Hin. apply in_step_xfer.
    apply other_register_read. now apply Hr.
  - intros t s0. now apply in_step_enter.
  - intros c s0 Hs. exact Hs.
  - intros p s0 Hs. exact Hs.
  - intros p s0 _ Hs. exact Hs.
Qed.

Lemma in_step_send_to_wait (data : pydata) (dest flags retries : Z) :
  preserves mode_in_step
    (send_to_wait Obs foreground_observe data dest flags retries).
Proof.
  destruct (registers_apart_writes apart) as (H40 & Hw & Hr).
  apply preserves_send_to_wait.
  - intros r d s Hin. apply in_step_write. now apply Hw.
  - intros payload s Hlen. apply in_step_xfer.
    unfold op_mode_write. cbn [coerce app].
    destruct payload as [|a [|b payload]]; try reflexivity.
    cbn in Hlen. lia.
  - intros t s. now apply in_step_enter.
  - intros l s Hs. exact Hs.
  - intros i s Hs. exact Hs.
  - apply in_step_foreground.
Qed.

Lemma in_step_send (data : pydata) (dest id flags : Z) :
  preserves mode_in_step (send Obs foreground_observe data dest id flags).
Proof.
  destruct (registers_apart_writes apart) as (H40 & Hw & Hr).
  apply preserves_send.
  - intros r d s Hin. apply in_step_write. now apply Hw.
  - intros payload s Hlen. apply in_step_xfer.
    unfold op_mode_write. cbn [coerce app].
    destruct payload as [|a [|b payload]]; try reflexivity.
    cbn in Hlen. lia.
  - intros t s. now apply in_step_enter.
  - apply in_step_foreground.
Qed.

End KeptInStep.

Lemma no_ack_on_recv (p : Payload) (s : LoRa) :
  Z.land (header_flags p) FLAGS_ACK = 0 ->
  no_ack_delivered s -> no_ack_delivered (on_recv p s).
Proof.
  intros Hp Hs. unfold no_ack_delivered, on_recv.
  change (recv_log (with_recv_log (recv_log s ++ [p]) s))
    with (recv_log s ++ [p]).
  apply Forall_app. split; [exact Hs|]. now constructor.
Qed.

Lemma no_ack_unchanged (s s' : LoRa) :
  recv_log s' = recv_log s -> no_ack_delivered s -> no_ack_delivered s'.
Proof. unfold no_ack_delivered. now intros ->. Qed.

Lemma no_ack_handle_interrupt (chip : Chip) :
  preserves no_ack_delivered (_handle_interrupt chip).
Proof.
  apply preserves_handle_interrupt.
  - intros r d s _. now apply no_ack_unchanged.
  - intros payload s _. now apply no_ack_unchanged.
  - intros r n s _. now apply no_ack_unchanged.
  - intros t s. apply no_ack_unchanged. apply enter_recv_log.
  - intros c s. now apply no_ack_unchanged.
  - intros p s. now apply no_ack_unchanged.
  - apply no_ack_on_recv.
Qed.

Lemma no_ack_foreground (o : Obs) (s : LoRa) :
  no_ack_delivered s -> no_ack_delivered (seen_state (foreground_observe o s)).
Proof.
  apply P_foreground_observe.
  - intros r d s0 _. now apply no_ack_unchanged.
  - intros payload s0 _. now apply no_ack_unchanged.
  - intros r n s0 _. now apply no_ack_unchanged.
  - intros t s0. apply no_ack_unchanged. apply enter_recv_log.
  - intros c s0. now apply no_ack_unchanged.
  - intros p s0. now apply no_ack_unchanged.
  - apply no_ack_on_recv.
Qed.

Lemma no_ack_send_to_wait (data : pydata) (dest flags retries : Z) :
  preserves no_ack_delivered
    (send_to_wait Obs foreground_observe data dest flags retries).
Proof.
  apply preserves_send_to_wait.
  - intros r d s _. now apply no_ack_unchanged.
  - intros payload s _. now apply no_ack_unchanged.
  - intros t s. apply no_ack_unchanged. apply enter_recv_log.
  - intros l s. now apply no_ack_unchanged.
  - intros i s. now apply no_ack_unchanged.
  - apply no_ack_foreground.
Qed.

Lemma no_ack_send (data : pydata) (dest id flags : Z) :
  preserves no_ack_delivered
    (send Obs foreground_observe data dest id flags).
Proof.
  apply preserves_send.
  - intros r d s _. now apply no_ack_unchanged.
  - intros payload s _. now apply no_ack_unchanged.
  - intros t s. apply no_ack_unchanged. apply enter_recv_log.
  - apply no_ack_foreground.
Qed.

End TwoInvariants.

Section InvariantTheorems.

Context {K : Constants} {I : InitConstants}.

Lemma in_step_configure (frf : Z) (modem_config : ModemConfig) (s : LoRa) :
  registers_apart ->
  init_registers_apart ->
  _mode s = None ->
  mode_in_step (configure frf modem_config s).
Proof.
  intros Hregs Hinit Hnone.
  destruct (registers_apart_writes Hregs) as (H40 & _ & _).
  unfold init_registers_apart in Hinit. rewrite Forall_forall in Hinit.
  unfold configure, set_frequency, configure_modem. destruct (value modem_config) as [[c1 c2] c3].
  repeat (apply in_step_write; [apply Hinit; cbn; auto 12|]).
  apply (in_step_enter EnterIdle); [exact H40|].
  unfold mode_in_step.
  change (_mode (_spi_write REG_0F_FIFO_RX_BASE_ADDR (DInt 0)
                   (_spi_write REG_0E_FIFO_TX_BASE_ADDR (DInt 0) s)))
    with (_mode s).
  now rewrite Hnone.
Qed.

Lemma in_step_constructed (spiport : option Z) (op_mode : Z) (rnd : list Q)
  (channel interrupt this_address : Z) (reset_pin : option Z)
  (freq : number) (tx_power : Z) (modem_config : ModemConfig)
  (receive_all acks : bool) (cipher : option Cipher) (default_mode : Z)
  (r : Radio) :
  registers_apart ->
  init_registers_apart ->
  __init__ spiport op_mode rnd channel interrupt this_address reset_pin freq
    tx_power modem_config receive_all acks cipher default_mode
  = Constructed r ->
  mode_in_step (lora r).
Proof.
  intros Hregs Hinit H.
  destruct (constructed_inv _ _ _ _ _ _ _ _ _ _ _ _ _ _ _ H)
    as (port & d & s0 & frf & _ & _ & _ & _ & _ & Hm0 & _ & _ & _ & _ & _ & _
        & Hl & _).
  pose proof (in_step_configure frf modem_config s0 Hregs Hinit Hm0) as Hc.
  unfold set_tx_power in Hl.
  unfold init_registers_apart in Hinit. rewrite Forall_forall in Hinit.
  rewrite Hl.
  destruct (_ >? 20); cbn [snd];
    do 2 (apply in_step_write; [apply Hinit; cbn; auto 12|]);
    exact Hc.
Qed.

(** X16.  The stored mode and the chip stay in step.  When no other bus
    transaction of the driver can be taken for a write to the mode
    register, the mode the object stores is the last value written to that
    register: this holds of every object the constructor returns, and, once
    it holds, after every mode transition, every invocation of the
    interrupt handler, every [send] and every [send_to_wait], whatever the
    schedule and however the call ends. *)
Theorem stored_mode_in_step :
  registers_apart ->
  init_registers_apart ->
  (forall spiport op_mode rnd channel interrupt this_address reset_pin freq
          tx_power modem_config receive_all acks cipher default_mode r,
      __init__ spiport op_mode rnd channel interrupt this_address reset_pin
        freq tx_power modem_config receive_all acks cipher default_mode
      = Constructed r ->
      mode_in_step (lora r))
  /\ (forall s,
        mode_in_step s ->
        (forall t, mode_in_step (enter t s))
        /\ (forall chip clk,
              mode_in_step (final (_handle_interrupt chip s clk)))
        /\ (forall data dest id flags clk,
              mode_in_step
                (final (send Obs foreground_observe data dest id flags
                          s clk)))
        /\ (forall data dest flags retries clk,
              mode_in_step
                (final (send_to_wait Obs foreground_observe data dest flags
                          retries s clk)))).
Proof.
  intros Hregs Hinit. split.
  - intros. eapply in_step_constructed; eauto.
  - intros s Hs.
    destruct (registers_apart_writes Hregs) as (H40 & _ & _).
    split; [intros t; now apply in_step_enter|].
    split; [intros chip clk; now apply in_step_handle_interrupt|].
    split.
    + intros data dest id flags clk. now apply in_step_send.
    + intros data dest flags retries clk. now apply in_step_send_to_wait.
Qed.

(** X17.  [on_recv] never gets an ACK.  No payload with the ACK flag is in
    the list of callback arguments of an object the constructor returns,
    and none is added by an invocation of the interrupt handler, by [send]
    or by [send_to_wait], whatever the schedule and however the call
    ends. *)
Theorem callback_never_gets_ack :
  (forall spiport op_mode rnd channel interrupt this_address reset_pin freq
          tx_power modem_config receive_all acks cipher default_mode r,
      __init__ spiport op_mode rnd channel interrupt this_address reset_pin
        freq tx_power modem_config receive_all acks cipher default_mode
      = Constructed r ->
      no_ack_delivered (lora r))
  /\ (forall s,
        no_ack_delivered s ->
        (forall chip clk,
            no_ack_delivered (final (_handle_interrupt chip s clk)))
        /\ (forall data dest id flags clk,
              no_ack_delivered
                (final (send Obs foreground_observe data dest id flags
                          s clk)))
        /\ (forall data dest flags retries clk,
              no_ack_delivered
                (final (send_to_wait Obs foreground_observe data dest flags
                          retries s clk)))).
Proof.
  split.
  - intros spiport op_mode rnd channel interrupt this_address reset_pin freq
      tx_power modem_config receive_all acks cipher default_mode r H.
    destruct (constructed_inv _ _ _ _ _ _ _ _ _ _ _ _ _ _ _ H)
      as (port & d & s0 & frf & _ & _ & _ & _ & _ & _ & _ & _ & _ & _ & Hr0
          & _ & Hl & _).
    rewrite set_tx_power_spec in Hl. cbn [snd] in Hl.
    destruct (configure_frames frf modem_config s0)
      as (_ & _ & _ & Hr & _).
    unfold no_ack_delivered. rewrite Hl.
    change (recv_log (with_spi_log _ (configure frf modem_config s0)))
      with (recv_log (configure frf modem_config s0)).
    rewrite Hr, Hr0. constructor.
  - intros s Hs.
    split; [intros chip clk; now apply no_ack_handle_interrupt|].
    split.
    + intros data dest id flags clk. now apply no_ack_send.
    + intros data dest flags retries clk. now apply no_ack_send_to_wait.
Qed.

End InvariantTheorems.

(** ** The further properties on explicit inputs *)

Lemma sx127x_registers_apart : registers_apart (K:=sx127x).
Proof.
  split; repeat constructor; vm_compute; discriminate.
Qed.

Lemma sx127x_init_registers_apart :
  init_registers_apart (K:=sx127x) (I:=sx127x_init).
Proof.
  unfold init_registers_apart. repeat constructor; vm_compute; discriminate.
Qed.

(** Witness of X1. *)
Lemma tx_power_clamped_witness :
  exists r,
    bench = Constructed r
    /\ _tx_power r = 20
    /\ exists earlier,
         spi_log (lora r) = earlier ++ [[0xcd; 0x07]; [0x89; Z.lor 0x80 15]].
Proof.
  eexists. split; [vm_compute; reflexivity|].
  pose proof (tx_power_clamped (K:=sx127x) (I:=sx127x_init) (Some 0) 0x80 []
                0 25 1 None (Int 915) 23 Bw125Cr45Sf128 false false None 0 _
                ltac:(vm_compute; reflexivity)) as H.
  cbv zeta in H. destruct H as (Hp & _ & _ & Hlog).
  split; [exact Hp|exact Hlog].
Defined.

(** Witness of X2: 915 MHz is 14991360 steps, 0xE4C000. *)
Lemma frequency_registers_witness :
  exists r earlier msb mid lsb pa_dac pa_config,
    bench = Constructed r
    /\ frf_of (I:=sx127x_init) (Int 915) = inr 14991360
    /\ spi_log (lora r)
       = earlier
         ++ [[0x86; msb]; [0x87; mid]; [0x88; lsb]; pa_dac; pa_config]
    /\ 65536 * msb + 256 * mid + lsb = 14991360.
Proof.
  destruct (frequency_registers (K:=sx127x) (I:=sx127x_init) (Some 0) 0x80 []
              0 25 1 None (Int 915) 23 Bw125Cr45Sf128 false false None 0 _
              ltac:(vm_compute; reflexivity))
    as (frf & earlier & msb & mid & lsb & dac & cfg & Hfrf & Hlog & _ & _ & _
        & _ & Hsum).
  assert (Hvalue : frf_of (I:=sx127x_init) (Int 915) = inr 14991360)
    by (vm_compute; reflexivity).
  eexists. exists earlier, msb, mid, lsb, dac, cfg.
  split; [vm_compute; reflexivity|].
  split; [exact Hvalue|].
  split; [exact Hlog|].
  rewrite Hvalue in Hfrf. injection Hfrf as <-.
  apply Hsum. lia.
Defined.

(** The roundings of the frequency computation show at 58634237.04962158,
    the binary64 number 0x1.bf57fe865ap+25, which is 0x1bf57fe865a / 2^15:
    its exact quotient truncates to 960663339821, the computed [frf] is
    960663339820. *)
Example frf_rounds_twice :
  frf_of (I:=sx127x_init) (Float 0x1.bf57fe865ap+25%float)
  = inr 960663339820
  /\ Qfloor ((0x1bf57fe865a # 32768) * 1000000 / (32000000 # 524288))
     = 960663339821.
Proof. split; vm_compute; reflexivity. Qed.

(** A frequency for which [frf] cannot be computed stops the constructor
    after the preamble length has been written. *)
Example frequency_not_a_number :
  exists platform bus,
    __init__ (K:=sx127x) (I:=sx127x_init) (Some 0) 0x80 [] 0 25 1 None
      (Float PrimFloat.nan) 23 Bw125Cr45Sf128 false false None 0
    = Failed ValueError_frequency platform bus
    /\ last bus [] = [0xa1; 8].
Proof. eexists _, _. split; vm_compute; reflexivity. Qed.

(** Witness of X4: two interrupts on the object of [bench], then a
    third. *)
Lemma constructed_in_standby_witness :
  exists r,
    bench = Constructed r
    /\ _mode (lora r) = Some 1
    /\ _handle_interrupt (K:=sx127x) (received [1; 2; 7; 0])
         (Nat.iter 2 (flags_only (K:=sx127x)) (lora r)) []
       = Ret tt (Nat.iter 3 (flags_only (K:=sx127x)) (lora r)) []
    /\ spi_log (Nat.iter 2 (flags_only (K:=sx127x)) (lora r))
       = spi_log (lora r) ++ [[0x12; 0]; [0x92; 0xff]; [0x12; 0]; [0x92; 0xff]].
Proof.
  eexists. split; [vm_compute; reflexivity|].
  pose proof (constructed_in_standby (K:=sx127x) (I:=sx127x_init) (Some 0)
                0x80 [] 0 25 1 None (Int 915) 23 Bw125Cr45Sf128 false false
                None 0
                _ ltac:(vm_compute; discriminate)
                ltac:(vm_compute; discriminate)
                ltac:(vm_compute; discriminate)
                ltac:(vm_compute; reflexivity)) as H.
  destruct H as (Hmode & _ & _ & _ & _ & _ & _ & Hirq & _).
  split; [exact Hmode|].
  destruct (Hirq 2%nat (received [1; 2; 7; 0]) []) as (Hrun & Hlog & _).
  split; [exact Hrun|exact Hlog].
Defined.

(** Witness of X5: a packet of 3 bytes. *)
Lemma short_packet_dropped_witness :
  exists s',
    _handle_interrupt (K:=sx127x) (received [1; 2; 7])
      (station 1 false None 0 None []) []
    = Ret tt s' []
    /\ recv_log s' = recv_log (station 1 false None 0 None [])
    /\ _last_payload s' = _last_payload (station 1 false None 0 None [])
    /\ _mode s' = _mode (station 1 false None 0 None [])
    /\ spi_log s'
       = spi_log (station 1 false None 0 None [])
         ++ filtered_transactions (K:=sx127x) (received [1; 2; 7])
         ++ [clear_irq_flags (K:=sx127x)].
Proof.
  apply (short_packet_dropped (K:=sx127x)).
  - reflexivity.
  - vm_compute. reflexivity.
Defined.

(** Witness of X6: a device in transmit mode whose default mode is receive. *)
Lemma tx_done_enters_default_mode_witness :
  exists s',
    _handle_interrupt (K:=sx127x) (flagged 0x08)
      (set_mode_tx (K:=sx127x) (station 1 false None 0 None [])) []
    = Ret tt s' []
    /\ _mode s' = Some 5
    /\ _cad s' = None
    /\ _last_payload s' = None
    /\ recv_log s' = [].
Proof.
  apply (tx_done_enters_default_mode (K:=sx127x) (flagged 0x08)
           (set_mode_tx (K:=sx127x) (station 1 false None 0 None [])) []).
  - vm_compute. discriminate.
  - reflexivity.
  - vm_compute. discriminate.
Defined.

(** Witness of X7: a detection that ends with activity detected. *)
Lemma cad_done_records_result_witness :
  exists s',
    _handle_interrupt (K:=sx127x) (flagged 0x05)
      (set_mode_cad (K:=sx127x) (station 1 false None 1 None [])) []
    = Ret tt s' []
    /\ _cad s' = Some (Z.land 0x05 0x01)
    /\ _mode s' = Some 5
    /\ _last_payload s' = None
    /\ recv_log s' = [].
Proof.
  apply (cad_done_records_result (K:=sx127x) (flagged 0x05)
           (set_mode_cad (K:=sx127x) (station 1 false None 1 None [])) []).
  - vm_compute. discriminate.
  - vm_compute. discriminate.
  - reflexivity.
  - vm_compute. discriminate.
Defined.

(** Witness of X8: a device asleep, and flags that announce a reception. *)
Lemma interrupt_outside_active_modes_witness :
  exists s',
    _handle_interrupt (K:=sx127x) (received [1; 2; 7; 0])
      (set_mode_sleep (K:=sx127x) (station 1 false None 0 None [])) []
    = Ret tt s' []
    /\ spi_log s'
       = spi_log (set_mode_sleep (K:=sx127x) (station 1 false None 0 None []))
         ++ [[0x12; 0]; clear_irq_flags (K:=sx127x)]
    /\ with_spi_log
         (spi_log (set_mode_sleep (K:=sx127x)
                     (station 1 false None 0 None []))) s'
       = set_mode_sleep (K:=sx127x) (station 1 false None 0 None []).
Proof.
  apply (interrupt_outside_active_modes (K:=sx127x) (received [1; 2; 7; 0])
           (set_mode_sleep (K:=sx127x) (station 1 false None 0 None [])) []).
  - reflexivity.
  - reflexivity.
  - reflexivity.
Defined.

(** Witness of X9: an ACK for device 1, on a device without a cipher and
    on one whose cipher returns nothing for the empty message. *)
Lemma ack_published_not_delivered_witness :
  (exists s',
     _handle_interrupt (K:=sx127x) (received [1; 3; 1; 0x80])
       (station 1 true None 0 None []) []
     = Ret tt s' []
     /\ _last_payload s' = Some (rx_payload (received [1; 3; 1; 0x80]) [])
     /\ recv_log s' = recv_log (station 1 true None 0 None [])
     /\ spi_log s'
        = spi_log (station 1 true None 0 None [])
          ++ filtered_transactions (K:=sx127x) (received [1; 3; 1; 0x80])
          ++ [clear_irq_flags (K:=sx127x)])
  /\ (exists s',
        _handle_interrupt (K:=sx127x) (received [1; 3; 1; 0x80])
          (station 1 true None 0 (Some identity_cipher) []) []
        = Raise IndexError s' []
        /\ _last_payload s'
           = _last_payload (station 1 true None 0 (Some identity_cipher) [])
        /\ recv_log s'
           = recv_log (station 1 true None 0 (Some identity_cipher) [])
        /\ spi_log s'
           = spi_log (station 1 true None 0 (Some identity_cipher) [])
             ++ filtered_transactions (K:=sx127x)
                  (received [1; 3; 1; 0x80])).
Proof.
  split.
  - apply (ack_published_not_delivered (K:=sx127x) (received [1; 3; 1; 0x80])
             (station 1 true None 0 None []) [] []).
    + reflexivity.
    + vm_compute. discriminate.
    + reflexivity.
    + vm_compute. discriminate.
    + reflexivity.
  - apply (ack_published_not_delivered (K:=sx127x) (received [1; 3; 1; 0x80])
             (station 1 true None 0 (Some identity_cipher) []) [] []).
    + reflexivity.
    + vm_compute. discriminate.
    + reflexivity.
    + vm_compute. discriminate.
    + reflexivity.
Defined.

(** Witness of X10: a packet for device 1 that requests an ACK, on a device
    without a cipher and on one whose cipher returns nothing for the empty
    message. *)
Lemma ack_request_raises_without_attribute_witness :
  (exists s',
     _handle_interrupt (K:=sx127x) (received [1; 2; 7; 0x40])
       (station 1 false None 0 None []) ack_clock
     = Raise AttributeError s' ack_clock
     /\ _last_payload s' = _last_payload (station 1 false None 0 None [])
     /\ recv_log s' = recv_log (station 1 false None 0 None [])
     /\ _mode s' = _mode (station 1 false None 0 None [])
     /\ spi_log s'
        = spi_log (station 1 false None 0 None [])
          ++ filtered_transactions (K:=sx127x) (received [1; 2; 7; 0x40]))
  /\ (exists s',
        _handle_interrupt (K:=sx127x) (received [1; 2; 7; 0x40])
          (station 1 false None 0 (Some identity_cipher) []) ack_clock
        = Raise IndexError s' ack_clock
        /\ _last_payload s'
           = _last_payload (station 1 false None 0 (Some identity_cipher) [])
        /\ recv_log s'
           = recv_log (station 1 false None 0 (Some identity_cipher) [])
        /\ _mode s'
           = _mode (station 1 false None 0 (Some identity_cipher) [])
        /\ spi_log s'
           = spi_log (station 1 false None 0 (Some identity_cipher) [])
             ++ filtered_transactions (K:=sx127x)
                  (received [1; 2; 7; 0x40])).
Proof.
  split.
  - apply (ack_request_raises_without_attribute (K:=sx127x)
             (received [1; 2; 7; 0x40]) (station 1 false None 0 None [])
             ack_clock []).
    + reflexivity.
    + reflexivity.
    + vm_compute. discriminate.
    + reflexivity.
    + vm_compute. discriminate.
    + reflexivity.
    + reflexivity.
  - apply (ack_request_raises_without_attribute (K:=sx127x)
             (received [1; 2; 7; 0x40])
             (station 1 false None 0 (Some identity_cipher) [])
             ack_clock []).
    + reflexivity.
    + reflexivity.
    + vm_compute. discriminate.
    + reflexivity.
    + vm_compute. discriminate.
    + reflexivity.
    + reflexivity.
Defined.

(** Witness of X11: SNR register 40, RSSI register 100. *)
Lemma signal_figures_witness :
  exists s' p,
    _handle_interrupt (K:=sx127x) (received [1; 2; 7; 0])
      (station 1 false None 0 None []) []
    = Ret tt s' []
    /\ _last_payload s' = Some p
    /\ (snr p == 10)%Q
    /\ rssi p = -37.
Proof.
  eexists.
  destruct (signal_figures (K:=sx127x) (received [1; 2; 7; 0])
              (station 1 false None 0 None []) [] _ []
              ltac:(reflexivity) ltac:(vm_compute; discriminate)
              ltac:(reflexivity) ltac:(cbn; lia)
              ltac:(cbn; lia)
              ltac:(vm_compute; reflexivity))
    as (p & Hp & Hsnr & _ & _ & Hrssi & _).
  exists p. split; [vm_compute; reflexivity|].
  split; [exact Hp|]. split; [|exact Hrssi].
  rewrite Hsnr. reflexivity.
Defined.

(** Witness of X12: two bytes in the clear for a device with a cipher, in a
    packet that requests no acknowledgment. *)
Lemma unaligned_message_not_decrypted_witness :
  exists s',
    _handle_interrupt (K:=sx127x) (received [1; 2; 7; 0; 104; 105])
      (station 1 false None 0 (Some reversing_cipher) []) []
    = Ret tt s' []
    /\ _last_payload s'
       = Some (rx_payload (received [1; 2; 7; 0; 104; 105]) [104; 105])
    /\ recv_log s'
       = [rx_payload (received [1; 2; 7; 0; 104; 105]) [104; 105]].
Proof.
  refine (proj1 (unaligned_message_not_decrypted (K:=sx127x)
                   (received [1; 2; 7; 0; 104; 105])
                   (station 1 false None 0 (Some reversing_cipher) []) []
                   reversing_cipher [104; 105] _ _ _ _ _ _) _).
  - reflexivity.
  - vm_compute. discriminate.
  - reflexivity.
  - reflexivity.
  - reflexivity.
  - vm_compute. discriminate.
  - left. reflexivity.
Defined.

(** Witness of X13. *)
Lemma send_true_means_transmitted_witness :
  exists s' clk',
    send (K:=sx127x) Obs (foreground_observe (K:=sx127x)) (DBytes [104; 105])
      2 7 0 (station 1 false None 0 None []) transmitted
    = Ret true s' clk'
    /\ mode_is s' 0x03 = false
    /\ exists earlier later,
         spi_log s'
         = spi_log (station 1 false None 0 None []) ++ earlier
           ++ [[0x8d; 0]; [0x80; 2; 1; 7; 0; 104; 105]; [0xa2; 6];
               [0x81; 0x03]; [0xc0; 0x40]]
           ++ later.
Proof.
  eexists _, _. split; [vm_compute; reflexivity|].
  destruct (send_true_means_transmitted (K:=sx127x) (DBytes [104; 105]) 2 7 0
              (station 1 false None 0 None []) transmitted _ _
              ltac:(vm_compute; discriminate)
              ltac:(vm_compute; reflexivity))
    as (Hmode & _ & body & earlier & later & Hbody & Hlog).
  split; [exact Hmode|].
  injection Hbody as <-. exists earlier, later. exact Hlog.
Defined.

(** Witness of X14: acknowledgments enabled, sequence id 0 before the
    call. *)
Lemma send_to_wait_true_means_transmitted_witness :
  exists s' clk',
    send_to_wait (K:=sx127x) Obs (foreground_observe (K:=sx127x))
      (DBytes [104; 105]) 2 0 2 (station 1 true None 0 None [1 # 2])
      third_party_ack
    = Ret true s' clk'
    /\ In [0x80; 2; 1; 1; 0x40; 104; 105] (spi_log s').
Proof.
  eexists _, _. split; [vm_compute; reflexivity|].
  destruct (send_to_wait_true_means_transmitted (K:=sx127x)
              (DBytes [104; 105]) 2 0 2 (station 1 true None 0 None [1 # 2])
              third_party_ack _ _ ltac:(vm_compute; reflexivity))
    as (body & Hbody & Hin).
  injection Hbody as <-. exact Hin.
Defined.

(** Witness of X15: [b"hi"] from device 1 to device 2, both with
    [reversing_cipher]. *)
Lemma end_to_end_delivery_witness :
  exists r' p,
    _handle_interrupt (K:=sx127x) (received hi_encrypted)
      (station 2 false None 0 (Some reversing_cipher) []) []
    = Ret tt r' []
    /\ _last_payload r' = Some p
    /\ message p = [104; 105]
    /\ header_to p = 2
    /\ header_from p = 1
    /\ header_id p = 7
    /\ header_flags p = 0.
Proof.
  eexists.
  destruct (end_to_end_delivery (K:=sx127x)
              (station 1 false None 0 (Some reversing_cipher) [])
              (station 2 false None 0 (Some reversing_cipher) [])
              (DBytes [104; 105]) 2 7 0
              (rev ([2; 104; 105] ++ repeat 0 13))
              (received hi_encrypted) [] _ []
              ltac:(reflexivity)
              ltac:(intros c m Hc Hm; injection Hc as <-;
                    split; [apply rev_involutive
                           |cbn [encrypt reversing_cipher];
                            rewrite length_rev; exact Hm])
              ltac:(vm_compute; reflexivity)
              ltac:(vm_compute; reflexivity)
              ltac:(reflexivity)
              ltac:(vm_compute; reflexivity)
              ltac:(reflexivity)
              ltac:(reflexivity)
              ltac:(vm_compute; reflexivity))
    as (p & Hp & Hm & Hto & Hfrom & Hid & Hflags).
  exists p. split; [vm_compute; reflexivity|].
  repeat split; assumption.
Defined.

(** Witness of X16: the object of [bench], and the object after it has
    sent. *)
Lemma stored_mode_in_step_witness :
  exists r,
    bench = Constructed r
    /\ mode_in_step (K:=sx127x) (lora r)
    /\ mode_in_step (K:=sx127x)
         (final (send_to_wait (K:=sx127x) Obs (foreground_observe (K:=sx127x))
                   (DBytes [104; 105]) 2 0 2 (lora r) transmitted)).
Proof.
  eexists. split; [vm_compute; reflexivity|].
  destruct (stored_mode_in_step (K:=sx127x) (I:=sx127x_init)
              sx127x_registers_apart sx127x_init_registers_apart)
    as [Hbuilt Hkept].
  pose proof (Hbuilt (Some 0) 0x80 [] 0 25 1 None (Int 915) 23 Bw125Cr45Sf128
                false false None 0 _ ltac:(vm_compute; reflexivity)) as Hr.
  split; [exact Hr|].
  destruct (Hkept _ Hr) as (_ & _ & _ & Hsend).
  apply Hsend.
Defined.

(** Witness of X17: the object of [bench], and the object after it has
    handled a packet. *)
Lemma callback_never_gets_ack_witness :
  exists r,
    bench = Constructed r
    /\ no_ack_delivered (K:=sx127x) (lora r)
    /\ no_ack_delivered (K:=sx127x)
         (final (_handle_interrupt (K:=sx127x) (received [1; 3; 1; 0x80])
                   (lora r) [])).
Proof.
  eexists. split; [vm_compute; reflexivity|].
  destruct (callback_never_gets_ack (K:=sx127x) (I:=sx127x_init))
    as [Hbuilt Hkept].
  pose proof (Hbuilt (Some 0) 0x80 [] 0 25 1 None (Int 915) 23 Bw125Cr45Sf128
                false false None 0 _ ltac:(vm_compute; reflexivity)) as Hr.
  split; [exact Hr|].
  destruct (Hkept _ Hr) as (Hirq & _ & _).
  apply Hirq.
Defined.

(** ** A detection that never completes *)

Section QuietChannel.

Context {K : Constants}.

Lemma quiet_observe (o : Obs) (s : LoRa) :
  irqs o = [] -> foreground_observe o s = Seen (now o) s.
Proof. intros H. unfold foreground_observe. now rewrite H. Qed.

Lemma wait_packet_sent_while_quiet (start : Q) (clk : list Obs) :
  forall s b s' clk',
    Forall (fun o => irqs o = []) clk ->
    wait_packet_sent_while Obs foreground_observe start s clk
    = Ret b s' clk' ->
    s' = s /\ Forall (fun o => irqs o = []) clk'.
Proof.
  induction clk as [|o clk IH]; intros s b s' clk' Hq H; cbn in H;
    [discriminate|].
  inversion Hq as [|? ? Ho Hrest]; subst.
  rewrite (quiet_observe o s Ho) in H.
  destruct (Qltb _ _).
  - destruct (mode_is s MODE_TX); cbn [negb] in H.
    + eapply IH; eauto.
    + injection H as _ <- <-. now split.
  - injection H as _ <- <-. now split.
Qed.

Lemma wait_packet_sent_quiet (s : LoRa) (clk : list Obs) b s' clk' :
  Forall (fun o => irqs o = []) clk ->
  wait_packet_sent Obs foreground_observe s clk = Ret b s' clk' ->
  s' = s /\ Forall (fun o => irqs o = []) clk'.
Proof.
  intros Hq. unfold wait_packet_sent, bind, time_time.
  destruct clk as [|o clk]; [discriminate|].
  inversion Hq as [|? ? Ho Hrest]; subst.
  rewrite (quiet_observe o s Ho).
  apply wait_packet_sent_while_quiet. exact Hrest.
Qed.

Lemma wait_cad_for_quiet (start : Q) (n : nat) :
  forall (s : LoRa) (clk : list Obs) v s' clk',
    (length clk <= n)%nat ->
    Forall (fun o => irqs o = []) clk ->
    mode_is s MODE_CAD = true ->
    wait_cad_for Obs foreground_observe start s clk = Ret v s' clk' ->
    v = PyBool true /\ s' = s.
Proof.
  induction n as [|n IH]; intros s clk v s' clk' Hle Hq Hmode H.
  - destruct clk; [|cbn in Hle; lia]. cbn in H.
    unfold _is_channel_active_resume in H. rewrite Hmode in H. discriminate.
  - destruct clk as [|o1 clk1]; cbn in H;
      unfold _is_channel_active_resume in H; rewrite Hmode in H;
      [discriminate|].
    inversion Hq as [|? ? Ho1 Hq1]; subst.
    rewrite (quiet_observe o1 s Ho1) in H.
    destruct (Qltb _ _); [injection H as <- <- _; now split|].
    destruct clk1 as [|o2 clk2]; [discriminate|].
    inversion Hq1 as [|? ? Ho2 Hq2]; subst.
    rewrite (quiet_observe o2 s Ho2) in H.
    eapply IH; [|exact Hq2|exact Hmode|exact H]. cbn in Hle. lia.
Qed.

(** X18.  With channel-activity detection enabled, if no interrupt arrives
    during a call of [send], the call can only return [False], and it leaves
    the object as [set_mode_cad] left it: in CAD mode, where the handler
    takes no reception, with nothing written to the FIFO. *)
Theorem send_without_cad_interrupt (data : pydata) (dest id flags : Z)
  (s : LoRa) (clk : list Obs) (b : bool) (s' : LoRa) (clk' : list Obs) :
  Qtruthy (cad_timeout s) = true ->
  Forall (fun o => irqs o = []) clk ->
  send Obs foreground_observe data dest id flags s clk = Ret b s' clk' ->
  b = false /\ s' = set_mode_cad s /\ _mode s' = Some MODE_CAD.
Proof.
  intros Hcad Hq H. unfold send in H. unfold bind at 1 in H.
  destruct (wait_packet_sent Obs foreground_observe s clk)
    as [b0 s1 clk1|x s1 clk1|s1] eqn:H1; try discriminate.
  destruct (wait_packet_sent_quiet _ _ _ _ _ Hq H1) as [-> Hq1].
  unfold bind at 1 in H.
  unfold wait_cad in H. unfold bind at 1, get at 1 in H.
  rewrite Hcad in H. cbn [negb] in H.
  unfold bind at 1, time_time at 1 in H.
  destruct clk1 as [|o clk2]; [discriminate|].
  inversion Hq1 as [|? ? Ho Hq2]; subst.
  rewrite (quiet_observe o s Ho) in H.
  unfold bind at 1, modify at 1, _is_channel_active_start in H.
  destruct (wait_cad_for Obs foreground_observe (now o) (set_mode_cad s) clk2)
    as [v s2 clk3|x s2 clk3|s2] eqn:H2; try discriminate.
  destruct (wait_cad_for_quiet _ _ _ _ _ _ _ (le_n _) Hq2
              (enter_reaches_target EnterCad s) H2) as [-> ->].
  cbn [py_eq_1] in H. injection H as <- <- _.
  split; [reflexivity|]. split; [reflexivity|].
  apply mode_is_exact. apply (enter_reaches_target EnterCad).
Qed.

End QuietChannel.

(** ** Bounds of the encryption framing *)

(** X19.  [_encrypt] raises [ValueError] exactly on a message of more than
    255 bytes.  Otherwise it hands the cipher 16 bytes for every started
    block of the message and its length byte: a message of [n] bytes costs
    [16 * (n / 16 + 1)] bytes, a whole block more when [n] is a multiple of
    16. *)
Theorem encrypt_length_limit (c : Cipher) (message : list Z) :
  match _encrypt c message with
  | inl e => e = ValueError /\ (255 < length message)%nat
  | inr ciphertext =>
    (length message <= 255)%nat
    /\ exists frame,
         ciphertext = encrypt c frame
         /\ Z.of_nat (length frame)
            = 16 * (Z.of_nat (length message) / 16 + 1)
  end.
Proof.
  unfold _encrypt, bytes. cbn [forallb].
  destruct (Z.leb_spec 0 (Z.of_nat (length message))) as [_|Hneg]; [|lia].
  destruct (Z.leb_spec (Z.of_nat (length message)) 255) as [Hle|Hgt];
    cbn [andb].
  - split; [lia|]. eexists. split; [reflexivity|].
    cbn [length app]. rewrite Nat2Z.inj_succ, length_app, repeat_length.
    destruct (padding_length (Z.of_nat (length message))
                (Nat2Z.is_nonneg _)) as [Hpad _].
    rewrite Nat2Z.inj_add, Z2Nat.id by lia.
    rewrite math_ceil_div_16 in *.
    Z.div_mod_to_equations. lia.
  - split; [reflexivity|lia].
Qed.

(** X20.  [_decrypt] trusts the length byte only as far as there are
    bytes: when the cipher returns [n], not negative, followed by [rest],
    the result is the first [n] bytes of [rest], all of [rest] when it has
    fewer; the only exception [_decrypt] raises is [IndexError], on an empty
    result of the cipher. *)
Theorem decrypt_takes_what_is_there (c : Cipher) (message : list Z) :
  match decrypt c message with
  | [] => _decrypt c message = inl IndexError
  | n :: rest =>
    0 <= n -> _decrypt c message = inr (firstn (Z.to_nat n) rest)
  end.
Proof.
  unfold _decrypt. destruct (decrypt c message) as [|n rest];
    [reflexivity|].
  intros Hn. f_equal. unfold py_slice.
  assert (Hlt : (n + 1 <? 0) = false) by (apply Z.ltb_ge; lia).
  rewrite Hlt. change (Z.to_nat 1) with 1%nat. cbn [skipn length].
  rewrite Nat2Z.inj_succ.
  destruct (Z.le_ge_cases (n + 1) (Z.succ (Z.of_nat (length rest))))
    as [Hin|Hout].
  - rewrite Z.min_r by lia. f_equal. lia.
  - rewrite Z.min_l by lia.
    replace (Z.succ (Z.of_nat (length rest)) - 1)
      with (Z.of_nat (length rest)) by lia.
    rewrite Nat2Z.id, firstn_all.
    symmetry. apply firstn_all2. lia.
Qed.

(** Witness of X18: a device that waits up to one second for the channel,
    and a clock that passes it. *)
Lemma send_without_cad_interrupt_witness :
  exists s' clk',
    send (K:=sx127x) Obs (foreground_observe (K:=sx127x)) (DBytes [104; 105])
      2 7 0 (station 1 false None 1 None [])
      [quiet 0; quiet (1 # 100); quiet (2 # 100); quiet (1 # 10);
       quiet (2 # 10); quiet (15 # 10)]
    = Ret false s' clk'
    /\ s' = set_mode_cad (K:=sx127x) (station 1 false None 1 None [])
    /\ _mode s' = Some 7.
Proof.
  eexists _, _. split; [vm_compute; reflexivity|].
  refine (proj2 (send_without_cad_interrupt (K:=sx127x) (DBytes [104; 105])
                   2 7 0 (station 1 false None 1 None [])
                   [quiet 0; quiet (1 # 100); quiet (2 # 100); quiet (1 # 10);
                    quiet (2 # 10); quiet (15 # 10)] false _ _ _ _ _)).
  - reflexivity.
  - repeat constructor.
  - vm_compute. reflexivity.
Defined.

(** Witness of X20: a length byte of 9 in front of two bytes. *)
Lemma decrypt_takes_what_is_there_witness :
  _decrypt identity_cipher [9; 104; 105] = inr [104; 105].
Proof.
  refine (decrypt_takes_what_is_there identity_cipher [9; 104; 105] _).
  vm_compute. discriminate.
Defined.
